(** * Surplus_Map_Case: the charging-station ETL pipeline

    A shallow embedding of the extraction, transformation, aggregation,
    validation and persistence code (extract.py, transform.py,
    data_validation.py, load.py), followed by the properties of the
    pipeline's specification.

    JSON documents are Python values ([Py.pyval]); a [try]/[except] block is
    an [option] computation in which [None] stands for a raised exception;
    the HTTP endpoint and the CSV file are explicit inputs. *)

From Stdlib Require Import ZArith List String Ascii Bool Lia PeanoNat.
From Stdlib Require Import QArith.
From Stdlib Require Import DecimalString.
From Stdlib Require Import Floats.
Import ListNotations.
Open Scope string_scope.
Open Scope list_scope.
Open Scope nat_scope.

Set Warnings "-register-all".

(** ** Exceptions as [option] *)

Notation "x <- e ;; k" :=
  (match e with Some x => k | None => None end)
  (at level 61, e at next level, right associativity, only parsing).

(** A [for] loop whose body may raise: the state is threaded through the
    iterations and the first exception ends the loop. *)
Fixpoint for_each {S A : Type} (body : S -> A -> option S)
  (xs : list A) (s : S) : option S :=
  match xs with
  | [] => Some s
  | x :: xs' =>
      match body s x with
      | Some s' => for_each body xs' s'
      | None => None
      end
  end.

(** A loop that appends one result per iteration to a list living outside
    the [try] block: what was appended before an exception stays. *)
Fixpoint emit_until_error {A B : Type} (f : A -> option B)
  (xs : list A) : list B :=
  match xs with
  | [] => []
  | x :: xs' =>
      match f x with
      | Some b => b :: emit_until_error f xs'
      | None => []
      end
  end.

(** ** Python values *)

Module Py.

(** The values [json.loads] produces.  A [dict] is an association list in
    insertion order; its keys are pairwise distinct. *)
Inductive pyval : Type :=
| PNone
| PBool (b : bool)
| PInt (z : Z)
| PFloat (f : float)
| PStr (s : string)
| PList (l : list pyval)
| PDict (d : list (string * pyval)).

Definition pydict : Type := list (string * pyval).

(** *** Strings.  Strings are byte strings; [upper] and [lower] act on the
    ASCII letters, which is the alphabet of every literal the code compares
    against. *)

Definition upper_ascii (c : ascii) : ascii :=
  let n := nat_of_ascii c in
  if (97 <=? n) && (n <=? 122) then ascii_of_nat (n - 32) else c.

Definition lower_ascii (c : ascii) : ascii :=
  let n := nat_of_ascii c in
  if (65 <=? n) && (n <=? 90) then ascii_of_nat (n + 32) else c.

Fixpoint upper (s : string) : string :=
  match s with
  | EmptyString => EmptyString
  | String c s' => String (upper_ascii c) (upper s')
  end.

Fixpoint lower (s : string) : string :=
  match s with
  | EmptyString => EmptyString
  | String c s' => String (lower_ascii c) (lower s')
  end.

(** [startswith s p] is [s.startswith(p)]. *)
Definition startswith (s p : string) : bool := String.prefix p s.

(** [str_contains needle hay] is [needle in hay] on two strings. *)
Fixpoint str_contains (needle hay : string) : bool :=
  String.prefix needle hay ||
  match hay with
  | EmptyString => false
  | String _ hay' => str_contains needle hay'
  end.

Fixpoint chars (s : string) : list string :=
  match s with
  | EmptyString => []
  | String c s' => String c EmptyString :: chars s'
  end.

(** [join sep parts] is [sep.join(parts)]. *)
Fixpoint join (sep : string) (parts : list string) : string :=
  match parts with
  | [] => ""
  | [p] => p
  | p :: rest => p ++ sep ++ join sep rest
  end.

Definition str_in (s : string) (l : list string) : bool :=
  existsb (String.eqb s) l.

(** *** Dictionaries *)

Fixpoint dict_get (k : string) (d : pydict) : option pyval :=
  match d with
  | [] => None
  | (k', v) :: d' => if String.eqb k k' then Some v else dict_get k d'
  end.

(** [k in d] *)
Definition dict_mem (k : string) (d : pydict) : bool :=
  match dict_get k d with Some _ => true | None => false end.

(** [d.get(k)], with [None] for an absent key. *)
Definition get (k : string) (d : pydict) : pyval :=
  match dict_get k d with Some v => v | None => PNone end.

(** [d.get(k, default)] *)
Definition get_default (k : string) (default : pyval) (d : pydict) : pyval :=
  match dict_get k d with Some v => v | None => default end.

(** [d[k] = v]: an existing key keeps its position, a new one goes last. *)
Fixpoint dict_set (k : string) (v : pyval) (d : pydict) : pydict :=
  match d with
  | [] => [(k, v)]
  | (k', v') :: d' =>
      if String.eqb k k' then (k', v) :: d' else (k', v') :: dict_set k v d'
  end.

(** The dictionary left by [d.pop(k)]. *)
Definition dict_remove (k : string) (d : pydict) : pydict :=
  filter (fun kv => negb (String.eqb k (fst kv))) d.

(** *** Truth value, iteration, membership *)

Definition truthy (v : pyval) : bool :=
  match v with
  | PNone => false
  | PBool b => b
  | PInt z => negb (z =? 0)%Z
  | PFloat f => negb (PrimFloat.eqb f 0%float)
  | PStr s => negb (String.eqb s "")
  | PList l => match l with [] => false | _ => true end
  | PDict d => match d with [] => false | _ => true end
  end.

(** What [for x in v] iterates over; [None] is the [TypeError] of a value
    that is not iterable. *)
Definition py_iter (v : pyval) : option (list pyval) :=
  match v with
  | PList l => Some l
  | PDict d => Some (map (fun kv => PStr (fst kv)) d)
  | PStr s => Some (map PStr (chars s))
  | _ => None
  end.

(** [len(v)]; [None] is the [TypeError] of a value without a length. *)
Definition py_len (v : pyval) : option nat :=
  match v with
  | PList l => Some (List.length l)
  | PDict d => Some (List.length d)
  | PStr s => Some (String.length s)
  | _ => None
  end.

(** [v == s] for a string literal [s]. *)
Definition eq_str (v : pyval) (s : string) : bool :=
  match v with
  | PStr t => String.eqb t s
  | _ => false
  end.

(** [k in v] for a string literal [k]: key membership on a dict, element
    membership on a list, substring on a string, [TypeError] otherwise. *)
Definition py_in (k : string) (v : pyval) : option bool :=
  match v with
  | PDict d => Some (dict_mem k d)
  | PList l => Some (existsb (fun x => eq_str x k) l)
  | PStr s => Some (str_contains k s)
  | _ => None
  end.

(** [isinstance(v, (int, float))]; [bool] is a subclass of [int]. *)
Definition is_number (v : pyval) : bool :=
  match v with
  | PBool _ | PInt _ | PFloat _ => true
  | _ => false
  end.

(** [v == 0] and [v > 0] on a number. *)
Definition num_eq0 (v : pyval) : bool :=
  match v with
  | PBool b => negb b
  | PInt z => (z =? 0)%Z
  | PFloat f => PrimFloat.eqb f 0%float
  | _ => false
  end.

Definition num_gt0 (v : pyval) : bool :=
  match v with
  | PBool b => b
  | PInt z => (0 <? z)%Z
  | PFloat f => PrimFloat.ltb 0%float f
  | _ => false
  end.

(** pandas' [isna] on a scalar: [None] and the float NaN. *)
Definition isna (v : pyval) : bool :=
  match v with
  | PNone => true
  | PFloat f => PrimFloat.is_nan f
  | _ => false
  end.

(** [isinstance(v, dict)] *)
Definition is_dict (v : pyval) : bool :=
  match v with PDict _ => true | _ => false end.

(** Lists and dicts cannot be hashed. *)
Definition hashable (v : pyval) : bool :=
  match v with
  | PList _ | PDict _ => false
  | _ => true
  end.

(** A float equals an integer when its exact value is that integer. *)
Definition float_eq_Z (f : float) (z : Z) : bool :=
  match Prim2SF f with
  | S754_zero _ => (z =? 0)%Z
  | S754_finite s m e =>
      let sm := if s then Z.neg m else Z.pos m in
      if (0 <=? e)%Z then (z =? sm * 2 ^ e)%Z else (z * 2 ^ (- e) =? sm)%Z
  | _ => false
  end.

Definition as_int (v : pyval) : option Z :=
  match v with
  | PBool b => Some (if b then 1%Z else 0%Z)
  | PInt z => Some z
  | _ => None
  end.

(** [a == b] on hashable scalars, as used for grouping keys. *)
Definition scalar_eqb (a b : pyval) : bool :=
  match a, b with
  | PNone, PNone => true
  | PStr s, PStr t => String.eqb s t
  | PFloat f, PFloat g => PrimFloat.eqb f g
  | PFloat f, _ =>
      match as_int b with Some z => float_eq_Z f z | None => false end
  | _, PFloat g =>
      match as_int a with Some z => float_eq_Z g z | None => false end
  | _, _ =>
      match as_int a, as_int b with
      | Some x, Some y => (x =? y)%Z
      | _, _ => false
      end
  end.

End Py.

(** ** The connector grouping

    extract.py and both transformations of transform.py contain the same
    nested loop over a type -> connectors grouping:
<<
    for conn_type, conn_list in grouping.items():
        for connector in conn_list:
            connector['type'] = conn_type
            connectors.append(connector)
>>
    It raises when the grouping is not a dict, when a [conn_list] cannot be
    iterated, and when a connector does not support item assignment by a
    string key (anything but a dict). *)

Module Grouping.
Import Py.

Definition stamp_body (conn_type : string) (connectors : list pyval)
  (connector : pyval) : option (list pyval) :=
  match connector with
  | PDict c => Some (connectors ++ [PDict (dict_set "type" (PStr conn_type) c)])
  | _ => None
  end.

Definition group_body (connectors : list pyval) (item : string * pyval)
  : option (list pyval) :=
  let '(conn_type, conn_list) := item in
  elems <- py_iter conn_list ;;
  for_each (stamp_body conn_type) elems connectors.

Definition flatten (grouping : pyval) : option (list pyval) :=
  match grouping with
  | PDict g => for_each group_body g []
  | _ => None
  end.

(** The grouping itself after the loop: the connectors are stamped in place,
    so the lists of the grouping hold the stamped connectors too. *)
Definition set_type (conn_type : string) (connector : pyval) : pyval :=
  match connector with
  | PDict c => PDict (dict_set "type" (PStr conn_type) c)
  | _ => connector
  end.

Definition stamped_item (item : string * pyval) : string * pyval :=
  let '(conn_type, conn_list) := item in
  match conn_list with
  | PList cs => (conn_type, PList (map (set_type conn_type) cs))
  | _ => item
  end.

Definition stamped (grouping : pyval) : pyval :=
  match grouping with
  | PDict g => PDict (map stamped_item g)
  | _ => grouping
  end.

End Grouping.

(** ** extract.py *)

Module Extract.
Import Py.

(** The subclasses of [requests.exceptions.RequestException] that
    [requests.get(url, timeout=30)] and [response.raise_for_status()]
    raise. *)
Inductive request_exception : Type :=
| Timeout
| ConnectionError
| HTTPError (status_code : Z).

(** What one pass through the [try] block meets: a request exception, a
    body that is not JSON, on which [response.json()] raises, or a parsed
    body. *)
Inductive response : Type :=
| RequestFailed (e : request_exception)
| InvalidJSON
| Body (data : pyval).

(** The endpoint: the outcome of the request made in iteration [attempt]. *)
Definition network : Type := Z -> response.

Inductive event : Type :=
| Get (attempt : Z)
| Sleep (seconds : Z)
| DumpDebug (data : pyval).

(** The body of [for station in stations_list]; the result is the station
    appended to [processed_stations], [None] an exception. *)
Definition normalize_station (station : pyval) : option pyval :=
  has_plural <- py_in "connectionsTypes" station ;;
  renamed <-
    (if has_plural then
       has_singular <- py_in "connectionTypes" station ;;
       if negb has_singular then
         match station with
         | PDict d =>
             Some (PDict (dict_set "connectionTypes" (get "connectionsTypes" d)
                            (dict_remove "connectionsTypes" d)))
         | _ => None
         end
       else Some station
     else Some station) ;;
  has_singular <- py_in "connectionTypes" renamed ;;
  if has_singular then
    match renamed with
    | PDict d =>
        let grouping := get "connectionTypes" d in
        connectors <- Grouping.flatten grouping ;;
        Some (PDict (dict_set "connectors" (PList connectors)
                       (dict_set "connectionTypes" (Grouping.stamped grouping) d)))
    | _ => None
    end
  else Some renamed.

Definition process_body (processed_stations : list pyval) (station : pyval)
  : option (list pyval) :=
  s <- normalize_station station ;;
  Some (processed_stations ++ [s]).

(** [stations_list], when the response has one of the two accepted
    shapes. *)
Definition stations_list (data : pyval) : option pyval :=
  match data with
  | PDict d =>
      if dict_mem "chargingStations" d
      then Some (get "chargingStations" d) else None
  | PList _ => Some data
  | _ => None
  end.

(** The part of the [try] block after [data = response.json()].  Every
    exception it can raise is caught by [except Exception] and ends the
    call with [None]. *)
Definition process (data : pyval) : option (list pyval) * list event :=
  match stations_list data with
  | None => (None, [DumpDebug data])
  | Some l =>
      match py_iter l with
      | None => (None, [])
      | Some stations => (for_each process_body stations [], [])
      end
  end.

(** [range(n)] *)
Definition range (n : Z) : list Z := map Z.of_nat (seq 0 (Z.to_nat n)).

(** How a call ends: it returns, the stations or [None], or an exception
    leaves it. *)
Inductive outcome : Type :=
| Returned (stations : option (list pyval))
| Raised.

Section Library.

(** The class of the exception [response.json()] raises on a body that is
    not JSON belongs to the requests library: from requests 2.27 on it is
    [requests.exceptions.JSONDecodeError], which derives from
    [RequestException] and from [ValueError]; before, it is a plain
    [ValueError]. *)
Variable json_error_is_request_exception : bool.

(** Whether [time.sleep(seconds)] returns.  It raises [ValueError] on a
    negative length, and [OverflowError] or [OSError] on a length the
    clock of the platform cannot hold. *)
Variable sleep_returns : Z -> bool.

(** Whether [except requests.exceptions.RequestException], the first
    handler, catches what the pass raised. *)
Definition is_request_exception (r : response) : bool :=
  match r with
  | RequestFailed _ => true
  | InvalidJSON => json_error_is_request_exception
  | Body _ => false
  end.

(** The [for] loop.  An exception of [time.sleep], raised inside the first
    handler, is caught by no handler of the [try] statement and leaves the
    call. *)
Fixpoint attempts_loop (net : network) (max_retries retry_delay : Z)
  (attempts : list Z) : outcome * list event :=
  match attempts with
  | [] => (Returned None, [])
  | attempt :: rest =>
      match net attempt with
      | Body data =>
          let '(r, evs) := process data in
          (Returned r, Get attempt :: evs)
      | raised =>
          if is_request_exception raised then
            (* except requests.exceptions.RequestException *)
            if (attempt <? max_retries)%Z then
              if sleep_returns retry_delay then
                let '(r, evs) :=
                  attempts_loop net max_retries retry_delay rest in
                (r, Get attempt :: Sleep retry_delay :: evs)
              else (Raised, [Get attempt])
            else (Returned None, [Get attempt])
          else
            (* except ValueError *)
            (Returned None, [Get attempt])
      end
  end.

Definition extract_charging_stations (net : network)
  (max_retries retry_delay : Z) : outcome * list event :=
  attempts_loop net max_retries retry_delay (range (max_retries + 1)).

End Library.

(** The number of HTTP requests in a trace. *)
Definition requests (evs : list event) : nat :=
  List.length (filter (fun e => match e with Get _ => true | _ => false end) evs).

End Extract.

(** ** transform.py *)

Module Transform.
Import Py.

(** *** Connector resolution, shared by both transformations *)

Definition resolve_connectors (station : pydict) : option pyval :=
  if dict_mem "connectors" station && truthy (get "connectors" station) then
    Some (get "connectors" station)
  else if dict_mem "connectionTypes" station then
    l <- Grouping.flatten (get "connectionTypes" station) ;; Some (PList l)
  else if dict_mem "connectionsTypes" station then
    l <- Grouping.flatten (get "connectionsTypes" station) ;; Some (PList l)
  else Some (PList []).

(** [mapping.get(key, default)] on a dict literal of strings. *)
Fixpoint mapping_get (key : string) (default : pyval)
  (mapping : list (string * string)) : pyval :=
  match mapping with
  | [] => default
  | (k, v) :: m => if String.eqb key k then PStr v else mapping_get key default m
  end.

(** *** transform_stations_data *)

(** [connector_counts], a dict from type name to count. *)
Definition counts : Type := list (string * nat).

Definition initial_counts : counts :=
  [("CCS", 0); ("CHAdeMO", 0); ("Type2", 0); ("AC Type 2", 0); ("Other", 0)].

Fixpoint count_get (k : string) (c : counts) : nat :=
  match c with
  | [] => 0
  | (k', n) :: c' => if String.eqb k k' then n else count_get k c'
  end.

Definition count_mem (k : string) (c : counts) : bool :=
  existsb (fun kn => String.eqb k (fst kn)) c.

(** [connector_counts[k] += n] *)
Fixpoint count_add (k : string) (n : nat) (c : counts) : counts :=
  match c with
  | [] => []
  | (k', m) :: c' =>
      if String.eqb k k' then (k', m + n) :: c' else (k', m) :: count_add k n c'
  end.

Record loop_state : Type := {
  connector_counts : counts;
  total_connectors : pyval;
  available_connectors : nat
}.

(** The body of [for connector in connectors_list]. *)
Definition count_body (connectors_list : pyval) (st : loop_state)
  (connector : pyval) : option loop_state :=
  match connector with
  | PDict c =>
      let connector_type := get "type" c in
      counts' <-
        (match connector_type with
         | PStr t =>
             if count_mem t (connector_counts st)
             then Some (count_add t 1 (connector_counts st))
             else Some (count_add "Other" 1 (connector_counts st))
         | PList _ | PDict _ => None
         | _ => Some (count_add "Other" 1 (connector_counts st))
         end) ;;
      connector_status <-
        (match get_default "status" (PStr "") c with
         | PStr s => Some (upper s)
         | _ => None
         end) ;;
      let available' :=
        if String.eqb connector_status "AVAILABLE"
        then available_connectors st + 1 else available_connectors st in
      total' <-
        (if truthy (total_connectors st) then Some (total_connectors st)
         else if truthy connectors_list then
                n <- py_len connectors_list ;; Some (PInt (Z.of_nat n))
              else Some (PInt 0)) ;;
      Some {| connector_counts := counts';
              total_connectors := total';
              available_connectors := available' |}
  | _ => None
  end.

(** The state after the loop over the resolved connectors. *)
Definition connector_stats (station : pydict) : option loop_state :=
  connectors_list <- resolve_connectors station ;;
  let total_connectors :=
    if dict_mem "totalConnectors" station
       && is_number (get "totalConnectors" station)
    then get "totalConnectors" station else PInt 0 in
  connectors <- py_iter connectors_list ;;
  for_each (count_body connectors_list) connectors
    {| connector_counts := initial_counts;
       total_connectors := total_connectors;
       available_connectors := 0 |}.

Definition status_mapping : list (string * string) :=
  [("AVAILABLE", "Available"); ("OCCUPIED", "Occupied");
   ("UNAVAILABLE", "OutOfOrder"); ("OUT_OF_ORDER", "OutOfOrder");
   ("PLANNED", "Planned"); ("UNDER_CONSTRUCTION", "UnderConstruction")].

(** "Determine station status based on connector availability". *)
Definition derive_status (station : pydict) (total_connectors : pyval)
  (available_connectors : nat) : pyval :=
  if num_eq0 total_connectors then
    let status := get "status" station in
    match status with
    | PStr s =>
        if truthy status then mapping_get (upper s) status status_mapping
        else status
    | _ => status
    end
  else if 0 <? available_connectors then PStr "Available"
  else if (available_connectors =? 0) && num_gt0 total_connectors then
    PStr "Occupied"
  else
    let original_status := get_default "status" (PStr "") station in
    match original_status with
    | PStr s =>
        if str_in (upper s) ["UNAVAILABLE"; "OUT_OF_ORDER"] then PStr "OutOfOrder"
        else if str_in (upper s) ["PLANNED"] then PStr "Planned"
        else if str_in (upper s) ["UNDER_CONSTRUCTION"] then PStr "UnderConstruction"
        else PStr "Occupied"
    | _ => PStr "Occupied"
    end.

Module Station.
Record t : Type := {
  id : pyval;
  name : pyval;
  operator : pyval;
  status : pyval;
  address : pyval;
  description : pyval;
  latitude : pyval;
  longitude : pyval;
  total_connectors : pyval;
  ccs_connectors : nat;
  chademo_connectors : nat;
  type2_connectors : nat;
  other_connectors : nat;
  amenities : string
}.
End Station.

Fixpoint all_strings (l : list pyval) : option (list string) :=
  match l with
  | [] => Some []
  | PStr s :: l' => rest <- all_strings l' ;; Some (s :: rest)
  | _ :: _ => None
  end.

(** The body of the [try] block for one station; [None] is an exception,
    after which the station is skipped. *)
Definition station_record (station : pydict) : option Station.t :=
  st <- connector_stats station ;;
  let connector_counts :=
    count_add "Type2" (count_get "AC Type 2" (connector_counts st))
      (connector_counts st) in
  let location := get_default "location" (PDict []) station in
  coords <-
    (if truthy location then
       match location with
       | PDict l => Some (get "lat" l, get "lng" l)
       | _ => None
       end
     else Some (PNone, PNone)) ;;
  let status :=
    derive_status station (total_connectors st) (available_connectors st) in
  amenities <-
    (if truthy (get "amenities" station) then
       items <- py_iter (get_default "amenities" (PList []) station) ;;
       parts <- all_strings items ;;
       Some (join ", " parts)
     else Some "") ;;
  Some {| Station.id := get "id" station;
          Station.name := get "name" station;
          Station.operator := get_default "operator" (PStr "Eviny") station;
          Station.status := status;
          Station.address := get "address" station;
          Station.description := get "description" station;
          Station.latitude := fst coords;
          Station.longitude := snd coords;
          Station.total_connectors := total_connectors st;
          Station.ccs_connectors := count_get "CCS" connector_counts;
          Station.chademo_connectors := count_get "CHAdeMO" connector_counts;
          Station.type2_connectors :=
            count_get "Type2" connector_counts
            + count_get "AC Type 2" connector_counts;
          Station.other_connectors := count_get "Other" connector_counts;
          Station.amenities := amenities |}.

(** The loop over [stations_data].  A station that is not a dict raises
    inside the [try] block and again inside the handler, which calls
    [station.get]: the second exception leaves the function ([None]). *)
Definition stations_body (stations_table : list Station.t) (station : pyval)
  : option (list Station.t) :=
  match station with
  | PDict d =>
      match station_record d with
      | Some r => Some (stations_table ++ [r])
      | None => Some stations_table
      end
  | _ => None
  end.

(** [stations_df['status'].fillna('Unknown', inplace=True)], which fills
    the frame's column in place (as pandas does before 3.0). *)
Definition fill_status (r : Station.t) : Station.t :=
  if isna (Station.status r) then
    {| Station.id := Station.id r;
       Station.name := Station.name r;
       Station.operator := Station.operator r;
       Station.status := PStr "Unknown";
       Station.address := Station.address r;
       Station.description := Station.description r;
       Station.latitude := Station.latitude r;
       Station.longitude := Station.longitude r;
       Station.total_connectors := Station.total_connectors r;
       Station.ccs_connectors := Station.ccs_connectors r;
       Station.chademo_connectors := Station.chademo_connectors r;
       Station.type2_connectors := Station.type2_connectors r;
       Station.other_connectors := Station.other_connectors r;
       Station.amenities := Station.amenities r |}
  else r.

(** The rows of the returned frame, one per station record. *)
Definition transform_stations_data (stations_data : list pyval)
  : option (list Station.t) :=
  stations_table <- for_each stations_body stations_data [] ;;
  Some (map fill_status stations_table).

(** *** transform_utilization_data *)

(** A naive [datetime].  The records carry the two instants themselves;
    [isoformat()] renders them one-to-one, so comparing the instants is
    comparing their texts. *)
Record datetime : Type := {
  year : Z; month : Z; day : Z;
  hour : Z; minute : Z; second : Z; microsecond : Z
}.

(** [timestamp.replace(minute=0, second=0, microsecond=0)] *)
Definition truncate_to_hour (t : datetime) : datetime :=
  {| year := year t; month := month t; day := day t; hour := hour t;
     minute := 0; second := 0; microsecond := 0 |}.

Definition datetime_eqb (a b : datetime) : bool :=
  (year a =? year b)%Z && (month a =? month b)%Z && (day a =? day b)%Z
  && (hour a =? hour b)%Z && (minute a =? minute b)%Z
  && (second a =? second b)%Z && (microsecond a =? microsecond b)%Z.

Module Utilization.
Record t : Type := {
  timestamp : datetime;
  hourly_timestamp : datetime;
  station_id : pyval;
  connector_id : pyval;
  connector_type : pyval;
  power : pyval;
  status : pyval;
  is_occupied : nat;
  is_available : nat;
  is_out_of_order : nat;
  tariff : pyval
}.
End Utilization.

Definition connector_status_mapping : list (string * string) :=
  [("AVAILABLE", "Available"); ("OCCUPIED", "Occupied");
   ("UNAVAILABLE", "OutOfOrder"); ("OUT_OF_ORDER", "OutOfOrder")].

(** The normalized status of a connector. *)
Definition normalize_status (connector_status : pyval) : pyval :=
  match connector_status with
  | PStr s =>
      if truthy connector_status
      then mapping_get (upper s) connector_status connector_status_mapping
      else connector_status
  | _ => connector_status
  end.

(** The body of [for connector in connectors_list]: the record appended to
    [utilization_records], or an exception. *)
Definition utilization_record (timestamp : datetime) (station_id : pyval)
  (connector : pyval) : option Utilization.t :=
  match connector with
  | PDict c =>
      let connector_status := normalize_status (get "status" c) in
      Some {| Utilization.timestamp := timestamp;
              Utilization.hourly_timestamp := truncate_to_hour timestamp;
              Utilization.station_id := station_id;
              Utilization.connector_id := get "id" c;
              Utilization.connector_type := get "type" c;
              Utilization.power := get_default "power" (get "effect" c) c;
              Utilization.status := connector_status;
              Utilization.is_occupied :=
                if eq_str connector_status "Occupied" then 1 else 0;
              Utilization.is_available :=
                if eq_str connector_status "Available" then 1 else 0;
              Utilization.is_out_of_order :=
                if eq_str connector_status "OutOfOrder"
                   || eq_str connector_status "UNAVAILABLE" then 1 else 0;
              Utilization.tariff := get_default "tariffDefinition" (PStr "") c |}
  | _ => None
  end.

(** The records one station contributes.  They are appended inside the
    loop, so those of the connectors before a malformed one are kept; an
    exception while resolving the connectors contributes nothing. *)
Definition station_utilization (timestamp : datetime) (station : pydict)
  : list Utilization.t :=
  match resolve_connectors station with
  | None => []
  | Some connectors_list =>
      match py_iter connectors_list with
      | None => []
      | Some connectors =>
          emit_until_error (utilization_record timestamp (get "id" station))
            connectors
      end
  end.

Definition utilization_body (timestamp : datetime)
  (utilization_records : list Utilization.t) (station : pyval)
  : option (list Utilization.t) :=
  match station with
  | PDict d => Some (utilization_records ++ station_utilization timestamp d)
  | _ => None
  end.

(** The loop over [stations_data].  As in [transform_stations_data], a
    station that is not a dict makes the handler itself raise. *)
Definition utilization_records (stations_data : list pyval)
  (timestamp : datetime) : option (list Utilization.t) :=
  for_each (utilization_body timestamp) stations_data [].

(** The rows of the returned frame.  After the loop, outside any [try]
    block, a frame that has rows is asked for
    [utilization_df['status'].value_counts()], which raises on a status
    that cannot be hashed. *)
Definition transform_utilization_data (stations_data : list pyval)
  (timestamp : datetime) : option (list Utilization.t) :=
  records <- utilization_records stations_data timestamp ;;
  if forallb (fun r => hashable (Utilization.status r)) records
  then Some records else None.

(** *** aggregate_hourly_utilization *)

(** The float64 quotient of two non-negative integer columns.  A finite
    quotient is kept exact: rounding to the nearest float is monotone and
    fixes 0 and 1, so it does not move a quotient across the bounds of
    [[0, 1]].  Division by zero gives [inf], and [0 / 0] gives NaN. *)
Inductive quotient : Type :=
| Finite (q : Q)
| Infinity
| NaN.

Definition divide (n d : nat) : quotient :=
  match d with
  | O => match n with O => NaN | _ => Infinity end
  | _ => Finite (Z.of_nat n # Pos.of_nat d)
  end.

(** [0 <= r <= 1] *)
Definition in_unit_interval (r : quotient) : bool :=
  match r with
  | Finite q => Qle_bool 0 q && Qle_bool q 1
  | _ => false
  end.

Module Hourly.
Record t : Type := {
  hourly_timestamp : datetime;
  station_id : pyval;
  is_available : nat;
  is_occupied : nat;
  is_out_of_order : nat;
  total_connectors : nat;
  occupancy_rate : quotient;
  availability_rate : quotient
}.
End Hourly.

Definition same_group (a b : Utilization.t) : bool :=
  datetime_eqb (Utilization.hourly_timestamp a) (Utilization.hourly_timestamp b)
  && scalar_eqb (Utilization.station_id a) (Utilization.station_id b).

(** One representative per group, in order of first appearance. *)
Fixpoint group_heads (rows : list Utilization.t) : list Utilization.t :=
  match rows with
  | [] => []
  | r :: rows' =>
      r :: filter (fun x => negb (same_group r x)) (group_heads rows')
  end.

Definition sum (l : list nat) : nat := fold_right Nat.add 0 l.

(** The aggregated row of the group of [head]: the three sums, and the
    ['count'] of [connector_id], which leaves out the null values. *)
Definition hourly_row (rows : list Utilization.t) (head : Utilization.t)
  : Hourly.t :=
  let group := filter (same_group head) rows in
  let is_available := sum (map Utilization.is_available group) in
  let is_occupied := sum (map Utilization.is_occupied group) in
  let is_out_of_order := sum (map Utilization.is_out_of_order group) in
  let total_connectors :=
    List.length
      (filter (fun r => negb (isna (Utilization.connector_id r))) group) in
  {| Hourly.hourly_timestamp := Utilization.hourly_timestamp head;
     Hourly.station_id := Utilization.station_id head;
     Hourly.is_available := is_available;
     Hourly.is_occupied := is_occupied;
     Hourly.is_out_of_order := is_out_of_order;
     Hourly.total_connectors := total_connectors;
     Hourly.occupancy_rate := divide is_occupied total_connectors;
     Hourly.availability_rate := divide is_available total_connectors |}.

(** The rows of the returned frame.  [groupby] drops the rows whose key is
    null and raises on a key that cannot be hashed.  pandas lists the
    groups in key order; here they come in order of first appearance, which
    no statement below depends on. *)
Definition aggregate_hourly_utilization (utilization_df : list Utilization.t)
  : option (list Hourly.t) :=
  match utilization_df with
  | [] => Some []
  | _ =>
      if forallb (fun r => hashable (Utilization.station_id r)) utilization_df
      then
        let rows :=
          filter (fun r => negb (isna (Utilization.station_id r)))
            utilization_df in
        Some (map (hourly_row rows) (group_heads rows))
      else None
  end.

End Transform.

(** ** load.py *)

Module Load.
Import Py.

Section Frames.

(** A cell of a frame, the missing value that fills a column a row does
    not have, and the equality [duplicated] puts on key cells (under which
    two missing values are equal). *)
Variable cell : Type.
Variable nan : cell.
Variable same : cell -> cell -> bool.

Definition row : Type := list cell.

(** A frame: its column labels and its rows, each row holding one cell per
    column. *)
Record DataFrame : Type := {
  columns : list string;
  rows : list row
}.

(** [df.empty]: no row or no column. *)
Definition empty (df : DataFrame) : bool :=
  match columns df, rows df with
  | [], _ => true
  | _, [] => true
  | _, _ => false
  end.

(** The cell of row [r] under the label [c]. *)
Fixpoint cell_at (cols : list string) (r : row) (c : string) : cell :=
  match cols, r with
  | k :: cols', v :: r' => if String.eqb c k then v else cell_at cols' r' c
  | _, _ => nan
  end.

Definition reindex (cols new_cols : list string) (r : row) : row :=
  map (cell_at cols r) new_cols.

(** [pd.concat([a, b], ignore_index=True)]: the columns of [a] followed by
    the new ones of [b], the rows of [a] followed by those of [b]. *)
Definition concat (a b : DataFrame) : DataFrame :=
  let cols :=
    columns a ++ filter (fun c => negb (str_in c (columns a))) (columns b) in
  {| columns := cols;
     rows := map (reindex (columns a) cols) (rows a)
             ++ map (reindex (columns b) cols) (rows b) |}.

Definition key_of (cols subset : list string) (r : row) : list cell :=
  map (cell_at cols r) subset.

Fixpoint same_key (k1 k2 : list cell) : bool :=
  match k1, k2 with
  | [], [] => true
  | a :: k1', b :: k2' => same a b && same_key k1' k2'
  | _, _ => false
  end.

Definition share_key (cols subset : list string) (r1 r2 : row) : bool :=
  same_key (key_of cols subset r1) (key_of cols subset r2).

(** The rows [duplicated(keep='last')] does not mark: a row stays when no
    later row is in relation [dup] with it. *)
Fixpoint keep_last {A : Type} (dup : A -> A -> bool) (l : list A) : list A :=
  match l with
  | [] => []
  | r :: rest =>
      if existsb (dup r) rest then keep_last dup rest
      else r :: keep_last dup rest
  end.

(** [df.drop_duplicates(subset=subset, keep='last', inplace=True)] *)
Definition drop_duplicates (subset : list string) (df : DataFrame)
  : DataFrame :=
  {| columns := columns df;
     rows := keep_last (share_key (columns df) subset) (rows df) |}.

(** The chain of tests on the file name, and on the columns of the combined
    frame, that chooses the key. *)
Definition dedup_subset (filename : string) (cols : list string)
  : option (list string) :=
  if str_contains "stations" (lower filename) then
    if str_in "id" cols then Some ["id"] else None
  else if str_contains "utilization" (lower filename) then
    if str_in "timestamp" cols && str_in "connector_id" cols
    then Some ["timestamp"; "connector_id"] else None
  else if str_contains "hourly" (lower filename) then
    if str_in "hourly_timestamp" cols && str_in "station_id" cols
    then Some ["hourly_timestamp"; "station_id"] else None
  else None.

(** The text of a CSV file; the text [df.to_csv(file_path, index=False)]
    writes for a frame; and what [pd.read_csv] makes of a text: a frame, or
    [None] when it raises.  Reading a text that [to_csv] wrote need not
    give back the frame written: [read_csv] types the cells anew from
    their text. *)
Variable csv : Type.
Variable to_csv : DataFrame -> csv.
Variable parse_csv : csv -> option DataFrame.

(** The file at [file_path]: absent, or holding a text. *)
Inductive file : Type :=
| Missing
| Stored (text : csv).

(** [os.path.exists(file_path)] *)
Definition exists_ (f : file) : bool :=
  match f with
  | Missing => false
  | Stored _ => true
  end.

(** [pd.read_csv(file_path)] *)
Definition read_csv (f : file) : option DataFrame :=
  match f with
  | Stored text => parse_csv text
  | Missing => None
  end.

(** [save_to_csv(df, filename, output_dir, append)] on the file at
    [os.path.join(output_dir, filename)]: the file afterwards, and whether
    a path was returned ([false] is the [None] of "No data to save"). *)
Definition save_to_csv (df : option DataFrame) (filename : string)
  (append : bool) (f : file) : file * bool :=
  match df with
  | None => (f, false)
  | Some df =>
      if empty df then (f, false)
      else if append && exists_ f then
        match read_csv f with
        | Some existing_df =>
            let combined_df := concat existing_df df in
            let combined_df :=
              match dedup_subset filename (columns combined_df) with
              | Some subset => drop_duplicates subset combined_df
              | None => combined_df
              end in
            (Stored (to_csv combined_df), true)
        | None => (Stored (to_csv df), true)
        end
      else (Stored (to_csv df), true)
  end.

(** *** The specification's wording of the merge *)

(** "Remove duplicate keys keeping the last occurrence": the element at
    index [i] stays when no element after index [i] has its key. *)
Definition last_occurrences {A : Type} (dup : A -> A -> bool) (l : list A)
  : list A :=
  map snd
    (filter
       (fun ir => negb (existsb (dup (snd ir)) (skipn (S (fst ir)) l)))
       (combine (seq 0 (List.length l)) l)).

End Frames.

Arguments columns {cell} _.
Arguments rows {cell} _.
Arguments empty {cell} _.
Arguments Missing {csv}.
Arguments Stored {csv} _.
Arguments exists_ {csv} _.

(** The scalars of a table: a missing value, an integer, a text. *)
Inductive scalar : Type :=
| Na
| Num (z : Z)
| Text (s : string).

Definition scalar_same (a b : scalar) : bool :=
  match a, b with
  | Na, Na => true
  | Num x, Num y => (x =? y)%Z
  | Text s, Text t => String.eqb s t
  | _, _ => false
  end.

(** *** CSV texts of integers and words

    The text of a table of scalars: its header and, row by row, the text
    of its cells.  [to_csv] writes nothing for a missing value, the decimal
    numeral of an integer, and a text as it is (the texts here need no
    quoting).  [read_csv] types each column from its texts: a column in
    which every cell is the decimal numeral of an integer becomes a column
    of integers; in any other column an empty cell is a missing value and
    every other cell a text.  pandas reads more than this (floats, truth
    values, null markers such as [NA], numerals written with a sign or
    with leading zeros); the tables below hold none of these. *)
Definition cell_text (c : scalar) : string :=
  match c with
  | Na => ""
  | Num z => NilEmpty.string_of_int (Z.to_int z)
  | Text s => s
  end.

Definition scalar_to_csv (df : DataFrame scalar) : DataFrame string :=
  {| columns := columns df;
     rows := map (map cell_text) (rows df) |}.

(** The integer a text is the decimal numeral of. *)
Definition numeral (s : string) : option Z :=
  match NilEmpty.int_of_string s with
  | Some i =>
      if String.eqb (NilEmpty.string_of_int (Z.to_int (Z.of_int i))) s
      then Some (Z.of_int i) else None
  | None => None
  end.

Definition integer_column (texts : list string) : bool :=
  forallb (fun t => match numeral t with Some _ => true | None => false end)
    texts.

Definition column_texts (j : nat) (text_rows : list (list string))
  : list string :=
  map (fun r => nth j r "") text_rows.

Definition read_cell (integers : bool) (t : string) : scalar :=
  if integers then
    match numeral t with Some z => Num z | None => Na end
  else if String.eqb t "" then Na else Text t.

Definition scalar_parse_csv (text : DataFrame string)
  : option (DataFrame scalar) :=
  Some
    {| columns := columns text;
       rows :=
         map
           (fun r =>
              map
                (fun jt =>
                   read_cell
                     (integer_column (column_texts (fst jt) (rows text)))
                     (snd jt))
                (combine (seq 0 (List.length r)) r))
           (rows text) |}.

End Load.

(** ** data_validation.py *)

Module Validation.
Import Py.

(** The validator reads its frames through pandas.  A frame is given here
    by what those reads return, each field named after the expression or
    the local variable of the source.  A read that pandas can refuse is an
    [option]: [None] is the exception it raises, which leaves the
    validator unless a [try] block is said to catch it.  The statistics of
    the report are left out, except that the reads which compute them can
    raise; the flag and the issues are kept. *)

(** An f-string: the concatenation of its literal and formatted parts. *)
Definition fmt (parts : list string) : string := String.concat "" parts.

Definition str_nat (n : nat) : string :=
  NilEmpty.string_of_uint (Nat.to_uint n).

Fixpoint endswith (s suffix : string) : bool :=
  String.eqb s suffix ||
  match s with
  | EmptyString => false
  | String _ s' => endswith s' suffix
  end.

(** [[col for col in required if col not in columns]] *)
Definition missing_from (required columns : list string) : list string :=
  filter (fun col => negb (str_in col columns)) required.

Definition nonempty {A : Type} (l : list A) : bool :=
  match l with [] => false | _ => true end.

(** [len(issues) == 0 or all(not issue.startswith("Missing required
    columns") for issue in issues)] *)
Definition overall (issues : list string) : bool :=
  (List.length issues =? 0)
  || forallb (fun issue => negb (startswith issue "Missing required columns"))
       issues.

(** [df.empty] *)
Definition is_empty (len : nat) (columns : list string) : bool :=
  (len =? 0) || negb (nonempty columns).

(** [', '.join(values)], which raises [TypeError] on a value that is not a
    text. *)
Fixpoint texts (values : list pyval) : option (list string) :=
  match values with
  | [] => Some []
  | PStr s :: rest => parts <- texts rest ;; Some (s :: parts)
  | _ :: _ => None
  end.

Definition join_values (values : list pyval) : option string :=
  parts <- texts values ;; Some (join ", " parts).

(** [set(values) - expected], for a set [expected] of texts. *)
Definition unexpected (values : list pyval) (expected : list string)
  : list pyval :=
  filter (fun v => negb (existsb (eq_str v) expected)) values.

(** The issue, if any, on the status values that are not expected. *)
Definition unexpected_issue (values : list pyval) (expected : list string)
  : option (list string) :=
  if nonempty (unexpected values expected) then
    listed <- join_values (unexpected values expected) ;;
    Some [fmt ["Found unexpected status values: "; listed]]
  else Some [].

Record stations_view : Type := {
  s_len : nat;                       (* len(stations_df) *)
  s_columns : list string;           (* stations_df.columns *)
  s_duplicate_ids : option (list string);
                                     (* duplicate_ids, each through str;
                                        None: an id that cannot be hashed *)
  s_missing : string -> nat;         (* stations_df[col].isna().sum() *)
  s_invalid_lat : option nat;        (* None: a latitude that cannot be
                                        compared with a number *)
  s_invalid_lon : option nat;
  s_missing_coords : nat;
  s_statuses : option (list pyval);  (* status_counts.keys(), as the set
                                        built from them lists them; None:
                                        a status that cannot be hashed *)
  s_connector_counts : bool;         (* whether stations_df[col].sum() and
                                        int(count) return for every
                                        connector column *)
  s_mismatch_count : option nat;     (* None: the row sums cannot be
                                        formed *)
  s_ids : option (list string)       (* stations_df['id'].unique(), nulls
                                        apart; None: an id that cannot be
                                        hashed *)
}.

Record utilization_view : Type := {
  u_len : nat;
  u_columns : list string;
  u_timestamp_is_datetime : bool;    (* is_datetime64_dtype(df['timestamp']) *)
  u_timestamp_converts : bool;       (* pd.to_datetime(df['timestamp']) returns *)
  u_hourly_is_datetime : bool;
  u_hourly_converts : bool;
  u_error : string;                  (* str(e) of a failed conversion *)
  u_duplicate_records : option nat;  (* len(duplicate_records); None: a key
                                        that cannot be hashed *)
  u_statuses : option (list pyval);
  u_occupied_mismatch_count : nat;
  u_available_mismatch_count : nat;
  u_oof_mismatch_count : nat;
  u_missing_hours : option (list nat);
                                     (* sorted(missing_hours); None: the
                                        .dt accessor raises *)
  u_station_ids : option (list string);
                                     (* df['station_id'].unique(), nulls
                                        apart; None: an id that cannot be
                                        hashed, on which value_counts
                                        raises as well *)
  u_hourly_timestamps : list string  (* the strftime texts of hourly_timestamp *)
}.

Record hourly_view : Type := {
  h_len : nat;
  h_columns : list string;
  h_hourly_is_datetime : bool;
  h_hourly_converts : bool;
  h_error : string;
  h_duplicate_records : option nat;
  h_invalid_rates : option nat;      (* len(invalid_rates); None: a rate
                                        that cannot be compared with a
                                        number *)
  h_mismatch_count : option nat;     (* None: the status counts cannot be
                                        added *)
  h_station_ids : option (list string);
  h_hourly_timestamps : list string
}.

Section Validator.

(** [fmt_pct a b] is the text of [f"{(a / b) * 100:.1f}"]. *)
Variable fmt_pct : nat -> nat -> string.

(** *** validate_stations_data, check by check *)

(** "Check for duplicates in station IDs" *)
Definition duplicate_id_issues (df : stations_view) : option (list string) :=
  if str_in "id" (s_columns df) then
    duplicate_ids <- s_duplicate_ids df ;;
    Some
      (if 0 <? List.length duplicate_ids then
         (fmt ["Found "; str_nat (List.length duplicate_ids);
  " duplicate station IDs"])
         :: (if List.length duplicate_ids <=? 10 then
               [fmt ["Example duplicate IDs: ";
  join ", " (firstn 5 duplicate_ids)]]
             else [])
       else [])
  else Some [].

(** "Check data completeness" *)
Definition completeness_issues (df : stations_view) : list string :=
  flat_map
    (fun col =>
       if 0 <? s_missing df col then
         [fmt ["Column '"; col; "' has "; str_nat (s_missing df col);
  " missing values (";
  fmt_pct (s_missing df col) (s_len df); "%)"]]
       else [])
    (s_columns df).

(** "Check latitude/longitude values" *)
Definition coordinate_issues (df : stations_view) : option (list string) :=
  if str_in "latitude" (s_columns df) && str_in "longitude" (s_columns df)
  then
    invalid_lat <- s_invalid_lat df ;;
    invalid_lon <- s_invalid_lon df ;;
    Some
      ((if 0 <? invalid_lat then
          [fmt ["Found "; str_nat invalid_lat;
  " stations with invalid latitude values"]]
        else [])
       ++ (if 0 <? invalid_lon then
             [fmt ["Found "; str_nat invalid_lon;
  " stations with invalid longitude values"]]
           else [])
       ++ (if 0 <? s_missing_coords df then
             [fmt ["Found "; str_nat (s_missing_coords df);
  " stations missing coordinate values"]]
           else []))
  else Some [].

(** "Check status values" *)
Definition station_status_issues (df : stations_view)
  : option (list string) :=
  if str_in "status" (s_columns df) then
    status_counts <- s_statuses df ;;
    unexpected_issue status_counts
      ["Available"; "Occupied"; "OutOfOrder"; "Planned"; "UnderConstruction"]
  else Some [].

(** "Check connector counts" and "Check if total_connectors matches sum of
    specific connector types" *)
Definition connector_issues (df : stations_view) : option (list string) :=
  let connector_columns :=
    filter (fun col => endswith col "_connectors") (s_columns df) in
  if nonempty connector_columns && negb (s_connector_counts df) then None
  else if str_in "total_connectors" (s_columns df)
          && (0 <? List.length connector_columns) then
    mismatch_count <- s_mismatch_count df ;;
    Some
      (if 0 <? mismatch_count then
         [fmt ["Found "; str_nat mismatch_count; " stations (";
  fmt_pct mismatch_count (s_len df);
  "%) where total_connectors doesn't match sum of specific types. ";
  "This is expected if there are connectors without specific types assigned."]]
       else [])
  else Some [].

Definition validate_stations_data (stations_df : option stations_view)
  : option (bool * list string) :=
  match stations_df with
  | None => Some (false, ["Stations data is empty or None"])
  | Some df =>
      if is_empty (s_len df) (s_columns df) then
        Some (false, ["Stations data is empty or None"])
      else
        let required_columns :=
          ["id"; "name"; "status"; "latitude"; "longitude"; "total_connectors"] in
        let missing_columns := missing_from required_columns (s_columns df) in
        let issues :=
          if nonempty missing_columns
          then [fmt ["Missing required columns: "; join ", " missing_columns]]
          else [] in
        let critical_missing :=
          filter (fun col => str_in col missing_columns) ["id"; "status"] in
        if nonempty missing_columns && nonempty critical_missing then
          Some (false, issues)
        else
          duplicates <- duplicate_id_issues df ;;
          coordinates <- coordinate_issues df ;;
          statuses <- station_status_issues df ;;
          connectors <- connector_issues df ;;
          let issues :=
            issues ++ duplicates ++ completeness_issues df ++ coordinates
            ++ statuses ++ connectors in
          Some (overall issues, issues)
  end.

(** *** validate_utilization_data, check by check *)

(** "Check for duplicates" *)
Definition duplicate_record_issues (df : utilization_view)
  : option (list string) :=
  if str_in "timestamp" (u_columns df) && str_in "connector_id" (u_columns df)
  then
    duplicate_records <- u_duplicate_records df ;;
    Some
      (if 0 <? duplicate_records then
         [fmt ["Found "; str_nat duplicate_records;
  " duplicate utilization records"]]
       else [])
  else Some [].

(** "Check status values" *)
Definition connector_status_issues (df : utilization_view)
  : option (list string) :=
  if str_in "status" (u_columns df) then
    unique_statuses <- u_statuses df ;;
    rest <-
      unexpected_issue unique_statuses
        ["Available"; "Occupied"; "OutOfOrder"; "FAULTED"] ;;
    Some
      ((if existsb (fun v => eq_str v "FAULTED") unique_statuses
        then ["Found 'FAULTED' status values"] else [])
       ++ rest)
  else Some [].

(** "Check flag consistency" *)
Definition flag_issues (df : utilization_view) : list string :=
  if forallb (fun col => str_in col (u_columns df))
       ["is_occupied"; "is_available"; "is_out_of_order"; "status"]
  then
    (if 0 <? u_occupied_mismatch_count df then
       [fmt ["Found "; str_nat (u_occupied_mismatch_count df);
  " records where is_occupied flag doesn't match status"]]
     else [])
    ++ (if 0 <? u_available_mismatch_count df then
          [fmt ["Found "; str_nat (u_available_mismatch_count df);
  " records where is_available flag doesn't match status"]]
        else [])
    ++ (if 0 <? u_oof_mismatch_count df then
          [fmt ["Found "; str_nat (u_oof_mismatch_count df);
  " records where is_out_of_order flag doesn't match status"]]
        else [])
  else [].

(** "Check time coverage" *)
Definition coverage_issues (df : utilization_view)
  (expect_full_period : bool) : option (list string) :=
  if str_in "timestamp" (u_columns df) && expect_full_period then
    missing_hours <- u_missing_hours df ;;
    Some
      (if nonempty missing_hours then
         [fmt ["Missing data for hours: ";
  join ", " (map str_nat missing_hours)]]
       else [])
  else Some [].

(** "Check station coverage": [value_counts] on [station_id]. *)
Definition station_coverage (columns : list string)
  (station_ids : option (list string)) : option unit :=
  if str_in "station_id" columns then
    _ <- station_ids ;; Some tt
  else Some tt.

Definition validate_utilization_data (utilization_df : option utilization_view)
  (expect_full_period : bool) : option (bool * list string) :=
  match utilization_df with
  | None => Some (false, ["Utilization data is empty or None"])
  | Some df =>
      if is_empty (u_len df) (u_columns df) then
        Some (false, ["Utilization data is empty or None"])
      else
        let required_columns :=
          ["timestamp"; "station_id"; "connector_id"; "status";
           "is_occupied"; "is_available"; "is_out_of_order"] in
        let missing_columns := missing_from required_columns (u_columns df) in
        let issues :=
          if nonempty missing_columns
          then [fmt ["Missing required columns: "; join ", " missing_columns]]
          else [] in
        let critical_missing :=
          filter (fun col => str_in col missing_columns)
            ["timestamp"; "station_id"; "connector_id"; "status"] in
        if nonempty missing_columns && nonempty critical_missing then
          Some (false, issues)
        else if str_in "timestamp" (u_columns df)
                && negb (u_timestamp_is_datetime df)
                && negb (u_timestamp_converts df) then
          Some
            (false,
             issues ++ [fmt ["Could not convert 'timestamp' column to datetime: ";
  u_error df]])
        else
          let hourly :=
            if str_in "hourly_timestamp" (u_columns df)
               && negb (u_hourly_is_datetime df)
               && negb (u_hourly_converts df) then
              [fmt ["Could not convert 'hourly_timestamp' column to datetime: ";
  u_error df]]
            else [] in
          duplicates <- duplicate_record_issues df ;;
          statuses <- connector_status_issues df ;;
          coverage <- coverage_issues df expect_full_period ;;
          _ <- station_coverage (u_columns df) (u_station_ids df) ;;
          let issues :=
            issues ++ hourly ++ duplicates ++ statuses ++ flag_issues df
            ++ coverage in
          Some (overall issues, issues)
  end.

(** *** validate_hourly_data, check by check *)

(** "Check for duplicates" *)
Definition duplicate_hour_issues (df : hourly_view) : option (list string) :=
  if str_in "hourly_timestamp" (h_columns df)
     && str_in "station_id" (h_columns df) then
    duplicate_records <- h_duplicate_records df ;;
    Some
      (if 0 <? duplicate_records then
         [fmt ["Found "; str_nat duplicate_records;
  " duplicate hourly records"]]
       else [])
  else Some [].

(** "Check if occupancy_rate is between 0 and 1" *)
Definition rate_issues (df : hourly_view) : option (list string) :=
  if str_in "occupancy_rate" (h_columns df) then
    invalid_rates <- h_invalid_rates df ;;
    Some
      (if 0 <? invalid_rates then
         [fmt ["Found "; str_nat invalid_rates;
  " records with invalid occupancy rate values"]]
       else [])
  else Some [].

(** "Check if total_connectors matches sum of status counts" *)
Definition status_sum_issues (df : hourly_view) : option (list string) :=
  if forallb (fun col => str_in col (h_columns df))
       ["total_connectors"; "is_available"; "is_occupied"; "is_out_of_order"]
  then
    mismatch_count <- h_mismatch_count df ;;
    Some
      (if 0 <? mismatch_count then
         [fmt ["Found "; str_nat mismatch_count; " records (";
  fmt_pct mismatch_count (h_len df);
  "%) where total_connectors doesn't match sum of status counts. ";
  "This may be due to connectors with status values not counted in the standard categories."]]
       else [])
  else Some [].

Definition validate_hourly_data (hourly_df : option hourly_view)
  : option (bool * list string) :=
  match hourly_df with
  | None => Some (false, ["Hourly data is empty or None"])
  | Some df =>
      if is_empty (h_len df) (h_columns df) then
        Some (false, ["Hourly data is empty or None"])
      else
        let required_columns :=
          ["hourly_timestamp"; "station_id"; "is_available"; "is_occupied";
           "is_out_of_order"; "total_connectors"; "occupancy_rate"] in
        let missing_columns := missing_from required_columns (h_columns df) in
        let issues :=
          if nonempty missing_columns
          then [fmt ["Missing required columns: "; join ", " missing_columns]]
          else [] in
        if str_in "hourly_timestamp" (h_columns df)
           && negb (h_hourly_is_datetime df)
           && negb (h_hourly_converts df) then
          Some
            (false,
             issues ++ [fmt ["Could not convert 'hourly_timestamp' column to datetime: ";
  h_error df]])
        else
          duplicates <- duplicate_hour_issues df ;;
          rates <- rate_issues df ;;
          sums <- status_sum_issues df ;;
          _ <- station_coverage (h_columns df) (h_station_ids df) ;;
          let issues := issues ++ duplicates ++ rates ++ sums in
          Some (overall issues, issues)
  end.

(** *** validate_etl_pipeline *)

(** [a - b] on two sets of texts. *)
Definition set_diff (a b : list string) : list string :=
  filter (fun x => negb (str_in x b)) a.

(** "Check if all stations in utilization data exist in stations data" *)
Definition station_coverage_issues (stations_df : option stations_view)
  (utilization_df : option utilization_view) : option (list string) :=
  match stations_df, utilization_df with
  | Some s, Some u =>
      if str_in "id" (s_columns s) && str_in "station_id" (u_columns u) then
        station_ids <- s_ids s ;;
        util_station_ids <- u_station_ids u ;;
        let missing_stations := set_diff util_station_ids station_ids in
        Some
          (if nonempty missing_stations then
             [fmt ["Found "; str_nat (List.length missing_stations);
  " station IDs in utilization data not present in stations data"]]
           else [])
      else Some []
  | _, _ => Some []
  end.

(** "Check if hourly data is consistent with utilization data".  A failed
    conversion is caught and reported, but the [.dt] accessor that follows
    raises [AttributeError] on a column that is not a datetime column. *)
Definition hourly_consistency_issues
  (utilization_df : option utilization_view) (hourly_df : option hourly_view)
  : option (list string) :=
  match utilization_df, hourly_df with
  | Some u, Some h =>
      if str_in "hourly_timestamp" (u_columns u)
         && str_in "hourly_timestamp" (h_columns h) then
        if (u_hourly_is_datetime u || u_hourly_converts u)
           && (h_hourly_is_datetime h || h_hourly_converts h) then
          let extra_timestamps :=
            set_diff (h_hourly_timestamps h) (u_hourly_timestamps u) in
          counts <-
            (if str_in "station_id" (u_columns u)
                && str_in "station_id" (h_columns h) then
               util_station_ids <- u_station_ids u ;;
               hourly_station_ids <- h_station_ids h ;;
               Some
                 (if negb (List.length util_station_ids
                           =? List.length hourly_station_ids) then
                    [fmt ["Mismatch in unique station count: ";
  str_nat (List.length util_station_ids);
  " in utilization vs ";
  str_nat (List.length hourly_station_ids); " in hourly"]]
                  else [])
             else Some []) ;;
          Some
            ((if nonempty extra_timestamps then
                [fmt ["Found "; str_nat (List.length extra_timestamps);
  " timestamps in hourly data not present in utilization data"]]
              else [])
             ++ counts)
        else None
      else Some []
  | _, _ => Some []
  end.

(** The cross-validation issues; [None] when one of its reads raises. *)
Definition cross_validation (stations_df : option stations_view)
  (utilization_df : option utilization_view) (hourly_df : option hourly_view)
  : option (list string) :=
  station_issues <- station_coverage_issues stations_df utilization_df ;;
  hourly_issues <- hourly_consistency_issues utilization_df hourly_df ;;
  Some (station_issues ++ hourly_issues).

(** The flag and the issues of [validate_etl_pipeline]; [None] when a
    validator or the cross-validation raises. *)
Definition validate_etl_pipeline (stations_df : option stations_view)
  (utilization_df : option utilization_view) (hourly_df : option hourly_view)
  : option (bool * list string) :=
  let is_valid := true in
  let issues : list string := [] in
  stations <- validate_stations_data stations_df ;;
  utilization <- validate_utilization_data utilization_df false ;;
  hourly <-
    match hourly_df with
    | Some _ =>
        hourly <- validate_hourly_data hourly_df ;;
        Some (is_valid && fst hourly,
              issues ++ map (append "Hourly data issue: ") (snd hourly))
    | None => Some (is_valid, issues)
    end ;;
  let is_valid := fst hourly && fst stations && fst utilization in
  let issues :=
    snd hourly ++ map (append "Stations data issue: ") (snd stations) in
  let issues :=
    issues ++ map (append "Utilization data issue: ") (snd utilization) in
  cross_validation_issues <-
    cross_validation stations_df utilization_df hourly_df ;;
  let issues :=
    issues ++ map (append "Cross-validation issue: ") cross_validation_issues in
  let is_valid := is_valid && (List.length cross_validation_issues =? 0) in
  Some (is_valid, issues).

End Validator.

End Validation.

(** * Properties *)

(** ** Loops *)

(** An invariant of the state that every iteration keeps holds after the
    loop. *)
Lemma for_each_invariant {S A : Type} (I : S -> Prop)
  (body : S -> A -> option S) (xs : list A) :
  (forall s x s', I s -> body s x = Some s' -> I s') ->
  forall s s', I s -> for_each body xs s = Some s' -> I s'.
Proof.
  intros Hbody; induction xs as [|x xs IH]; intros s s' Hs H; simpl in H.
  - now inversion H; subst.
  - destruct (body s x) as [s1|] eqn:E; [|discriminate].
    eapply IH; [eapply Hbody; eauto | exact H].
Qed.

Lemma emit_until_error_Forall {A B : Type} (P : B -> Prop)
  (f : A -> option B) (xs : list A) :
  (forall x b, f x = Some b -> P b) ->
  Forall P (emit_until_error f xs).
Proof.
  intros Hf; induction xs as [|x xs IH]; simpl.
  - constructor.
  - destruct (f x) eqn:E; [constructor; eauto | constructor].
Qed.

(** ** Numbers *)

(** What [transform_utilization_data] returns is what its loop collected. *)
Lemma utilization_records_of (stations_data : list Py.pyval)
  (timestamp : Transform.datetime) (records : list Transform.Utilization.t) :
  Transform.transform_utilization_data stations_data timestamp = Some records ->
  Transform.utilization_records stations_data timestamp = Some records
  /\ forallb (fun r => Py.hashable (Transform.Utilization.status r)) records
     = true.
Proof.
  unfold Transform.transform_utilization_data.
  destruct (Transform.utilization_records stations_data timestamp) as [l|];
    [|discriminate].
  destruct (forallb _ l) eqn:E; [|discriminate].
  intros H; inversion H; subst l. now split.
Qed.

Module PyFacts.
Import Py.

(** A number greater than zero is not equal to zero. *)
Lemma num_gt0_not_eq0 (v : pyval) :
  num_gt0 v = true -> num_eq0 v = false.
Proof.
  destruct v as [|b|z|f|s|l|d]; simpl; try discriminate.
  - now intros ->.
  - intros H. apply Z.ltb_lt in H. apply Z.eqb_neq. lia.
  - rewrite ltb_spec, eqb_spec.
    change (Prim2SF 0%float) with (S754_zero false).
    destruct (Prim2SF f) as [s| s| |s m e]; try destruct s;
      unfold SFltb, SFeqb; simpl; congruence.
Qed.

End PyFacts.

(** ** The stations transformation *)

Module StationFacts.
Import Py Transform.

(** A station that reports itself as planned and whose only connector is
    occupied. *)
Definition planned_station : pydict :=
  [("id", PStr "S1"); ("status", PStr "PLANNED");
   ("connectors",
    PList [PDict [("id", PStr "C1"); ("status", PStr "OCCUPIED")]])].

(** C1, as stated, fails: the station [planned_station] has one resolved
    connector and none available, its own status maps to [Planned] through
    the synonym table, and the derived status is [Occupied]. *)
Lemma planned_station_is_occupied :
  exists st r,
    connector_stats planned_station = Some st
    /\ num_gt0 (total_connectors st) = true
    /\ available_connectors st = 0
    /\ mapping_get (upper "PLANNED") (PStr "PLANNED") status_mapping
       = PStr "Planned"
    /\ transform_stations_data [PDict planned_station] = Some [r]
    /\ Station.status r = PStr "Occupied"
    /\ Station.status r <> PStr "Planned".
Proof.
  eexists; eexists.
  split; [reflexivity|].
  split; [reflexivity|].
  split; [reflexivity|].
  split; [reflexivity|].
  split; [reflexivity|].
  split; [reflexivity|discriminate].
Qed.

Lemma fill_status_Occupied (r : Station.t) :
  Station.status r = PStr "Occupied" ->
  Station.status (fill_status r) = PStr "Occupied".
Proof.
  intros H; unfold fill_status; rewrite H; simpl. exact H.
Qed.

Lemma station_record_status (station : pydict) (r : Station.t) :
  station_record station = Some r ->
  exists st,
    connector_stats station = Some st
    /\ Station.status r
       = derive_status station (total_connectors st) (available_connectors st).
Proof.
  unfold station_record; intros H.
  destruct (connector_stats station) as [st|]; [|discriminate].
  exists st; split; [reflexivity|].
  destruct (if truthy (get_default "location" (PDict []) station)
            then _ else _) as [coords|]; [|discriminate].
  destruct (if truthy (get "amenities" station) then _ else _) as [am|];
    [|discriminate].
  now inversion H.
Qed.

(** C1, amended: a station whose resolved [total_connectors] is greater than
    zero and that has no available connector is [Occupied], whatever its own
    status says; the override by the station's status is never reached. *)
Theorem occupied_when_no_connector_available
  (station : pydict) (st : loop_state) :
  connector_stats station = Some st ->
  num_gt0 (total_connectors st) = true ->
  available_connectors st = 0 ->
  derive_status station (total_connectors st) (available_connectors st)
  = PStr "Occupied"
  /\ forall r, station_record station = Some r ->
       Station.status r = PStr "Occupied"
       /\ Station.status (fill_status r) = PStr "Occupied".
Proof.
  intros Hst Hgt Hav.
  assert (Hd : derive_status station (total_connectors st)
                 (available_connectors st) = PStr "Occupied").
  { unfold derive_status.
    rewrite (PyFacts.num_gt0_not_eq0 _ Hgt), Hav, Hgt. reflexivity. }
  split; [exact Hd|].
  intros r Hr.
  destruct (station_record_status _ _ Hr) as (st' & Hst' & Hs).
  rewrite Hst in Hst'; inversion Hst'; subst st'.
  rewrite Hd in Hs.
  split; [exact Hs | now apply fill_status_Occupied].
Qed.

Lemma occupied_when_no_connector_available_witness :
  derive_status planned_station (PInt 1) 0 = PStr "Occupied"
  /\ forall r, station_record planned_station = Some r ->
       Station.status r = PStr "Occupied"
       /\ Station.status (fill_status r) = PStr "Occupied".
Proof.
  exact (occupied_when_no_connector_available planned_station
           {| connector_counts :=
                [("CCS", 0); ("CHAdeMO", 0); ("Type2", 0); ("AC Type 2", 0);
                 ("Other", 1)];
              total_connectors := PInt 1;
              available_connectors := 0 |}
           eq_refl eq_refl eq_refl).
Defined.

(** *** Connector counts by type *)

(** The number of connectors whose type is exactly [k]. *)
Definition typed (k : string) (connectors : list pyval) : nat :=
  List.length
    (filter
       (fun c => match c with
                 | PDict d => eq_str (get "type" d) k
                 | _ => false
                 end)
       connectors).

Lemma count_mem_add (k k' : string) (n : nat) (c : counts) :
  count_mem k (count_add k' n c) = count_mem k c.
Proof.
  induction c as [|[k0 m] c IH]; simpl; [reflexivity|].
  destruct (String.eqb k' k0); simpl; [reflexivity | now rewrite IH].
Qed.

Lemma count_get_add_same (k : string) (n : nat) (c : counts) :
  count_mem k c = true ->
  count_get k (count_add k n c) = count_get k c + n.
Proof.
  induction c as [|[k0 m] c IH]; simpl; [discriminate|].
  destruct (String.eqb k k0) eqn:E; simpl.
  - now rewrite E.
  - rewrite E. exact IH.
Qed.

Lemma count_get_add_other (k k' : string) (n : nat) (c : counts) :
  String.eqb k k' = false ->
  count_get k (count_add k' n c) = count_get k c.
Proof.
  intros Hk; induction c as [|[k0 m] c IH]; simpl; [reflexivity|].
  destruct (String.eqb k' k0) eqn:E; simpl.
  - apply String.eqb_eq in E; subst k0. now rewrite Hk.
  - destruct (String.eqb k k0); [reflexivity | exact IH].
Qed.

(** One iteration adds one to the count of the connector's type, for a type
    [k] that has a count of its own and is not the catch-all ["Other"]. *)
Lemma count_body_typed (k : string) (connectors_list : pyval)
  (st st' : loop_state) (connector : pyval) :
  String.eqb k "Other" = false ->
  count_mem k (connector_counts st) = true ->
  count_body connectors_list st connector = Some st' ->
  count_mem k (connector_counts st') = true
  /\ count_get k (connector_counts st')
     = count_get k (connector_counts st) + typed k [connector].
Proof.
  intros Hother Hmem H.
  unfold count_body in H.
  destruct connector as [| | | | |?|c]; try discriminate.
  destruct (match get "type" c with
            | PStr t => _ | PList _ | PDict _ => None | _ => _ end)
    as [counts'|] eqn:Ec; [|discriminate].
  destruct (match get_default "status" (PStr "") c with
            | PStr s => _ | _ => None end) as [status|]; [|discriminate].
  destruct (if truthy (total_connectors st) then _ else _) as [total'|];
    [|discriminate].
  inversion H; subst st'; clear H; cbn [connector_counts].
  assert (Hk : forall t, String.eqb t k = false ->
            count_mem k (count_add t 1 (connector_counts st)) = true
            /\ count_get k (count_add t 1 (connector_counts st))
               = count_get k (connector_counts st) + 0).
  { intros t Ht. rewrite count_mem_add. split; [exact Hmem|].
    rewrite count_get_add_other; [lia|].
    rewrite String.eqb_sym. exact Ht. }
  assert (HO : String.eqb "Other" k = false)
    by (rewrite String.eqb_sym; exact Hother).
  unfold typed; cbn [filter].
  destruct (get "type" c) as [| | | |t| |]; cbn [eq_str];
    try (inversion Ec; subst counts'; now apply Hk);
    try discriminate.
  destruct (count_mem t (connector_counts st)) eqn:Et;
    inversion Ec; subst counts'; clear Ec.
  - destruct (String.eqb t k) eqn:Etk.
    + apply String.eqb_eq in Etk; subst t.
      rewrite count_mem_add. split; [exact Hmem|].
      now rewrite count_get_add_same.
    + now apply Hk.
  - destruct (String.eqb t k) eqn:Etk.
    + apply String.eqb_eq in Etk; subst t. congruence.
    + now apply Hk.
Qed.

Lemma typed_app (k : string) (xs ys : list pyval) :
  typed k (xs ++ ys) = typed k xs + typed k ys.
Proof.
  unfold typed. now rewrite filter_app, length_app.
Qed.

Lemma count_loop_typed (k : string) (connectors_list : pyval)
  (connectors : list pyval) :
  String.eqb k "Other" = false ->
  forall st st',
    count_mem k (connector_counts st) = true ->
    for_each (count_body connectors_list) connectors st = Some st' ->
    count_get k (connector_counts st')
    = count_get k (connector_counts st) + typed k connectors.
Proof.
  intros Hother; induction connectors as [|c cs IH]; intros st st' Hmem H.
  - simpl in H; inversion H; subst. unfold typed; simpl; lia.
  - simpl in H.
    destruct (count_body connectors_list st c) as [st1|] eqn:E; [|discriminate].
    destruct (count_body_typed k _ _ _ _ Hother Hmem E) as [Hmem1 Hget1].
    rewrite (IH _ _ Hmem1 H), Hget1.
    change (c :: cs) with ([c] ++ cs). rewrite typed_app. lia.
Qed.

(** What the code computes for [type2_connectors]: the ['AC Type 2'] count
    is first added to the ['Type2'] count, and then added once more when the
    record is built, so each such connector is counted twice. *)
Lemma type2_connectors_formula (station : pydict) (r : Station.t) :
  station_record station = Some r ->
  exists connectors_list connectors,
    resolve_connectors station = Some connectors_list
    /\ py_iter connectors_list = Some connectors
    /\ Station.type2_connectors r
       = typed "Type2" connectors + 2 * typed "AC Type 2" connectors.
Proof.
  unfold station_record; intros H.
  destruct (connector_stats station) as [st|] eqn:Est; [|discriminate].
  destruct (if truthy (get_default "location" (PDict []) station)
            then _ else _) as [coords|]; [|discriminate].
  destruct (if truthy (get "amenities" station) then _ else _) as [am|];
    [|discriminate].
  inversion H; subst r; clear H; cbn [Station.type2_connectors].
  unfold connector_stats in Est.
  destruct (resolve_connectors station) as [connectors_list|]; [|discriminate].
  destruct (py_iter connectors_list) as [connectors|] eqn:Ei; [|discriminate].
  exists connectors_list, connectors.
  split; [reflexivity|]. split; [exact Ei|].
  pose proof (fun H => count_loop_typed "Type2" _ _ eq_refl _ _ H Est) as H2.
  specialize (H2 eq_refl).
  pose proof (fun H => count_loop_typed "AC Type 2" _ _ eq_refl _ _ H Est) as HA.
  specialize (HA eq_refl).
  assert (Hmem : count_mem "Type2" (connector_counts st) = true).
  { revert Est. apply (for_each_invariant
      (fun s => count_mem "Type2" (connector_counts s) = true)).
    - intros s x s' Hs Hb.
      now destruct (count_body_typed "Type2" _ _ _ _ eq_refl Hs Hb).
    - reflexivity. }
  rewrite count_get_add_same by exact Hmem.
  rewrite count_get_add_other by reflexivity.
  rewrite H2, HA. simpl. lia.
Qed.

(** A station with a single connector, of type ['AC Type 2']. *)
Definition ac_station : pydict :=
  [("id", PStr "S1");
   ("connectors",
    PList [PDict [("id", PStr "C1"); ("type", PStr "AC Type 2");
                  ("status", PStr "AVAILABLE")]])].

(** C9: on [ac_station], which has no ['Type2'] connector and one
    ['AC Type 2'] connector, the column [type2_connectors] is 2 and not 1. *)
Theorem ac_type2_counted_twice :
  exists r,
    transform_stations_data [PDict ac_station] = Some [r]
    /\ typed "Type2" [PDict [("id", PStr "C1"); ("type", PStr "AC Type 2");
                             ("status", PStr "AVAILABLE")]] = 0
    /\ typed "AC Type 2" [PDict [("id", PStr "C1"); ("type", PStr "AC Type 2");
                                 ("status", PStr "AVAILABLE")]] = 1
    /\ Station.type2_connectors r = 2.
Proof.
  eexists. repeat split; reflexivity.
Qed.

End StationFacts.

(** ** The utilization transformation *)

Module UtilizationFacts.
Import Py Transform.

Lemma eq_str_true (v : pyval) (k : string) :
  eq_str v k = true <-> v = PStr k.
Proof.
  destruct v; simpl; try (split; [discriminate | intros H; discriminate H]).
  rewrite String.eqb_eq. split; [now intros -> | now inversion 1].
Qed.

Lemma eq_str_false (v : pyval) (k : string) :
  v <> PStr k -> eq_str v k = false.
Proof.
  intros H. destruct (eq_str v k) eqn:E; [|reflexivity].
  apply eq_str_true in E. contradiction.
Qed.

(** The normalized status is never the raw text ['UNAVAILABLE']: that text
    is a key of the mapping, so it is always replaced. *)
Lemma normalize_status_not_UNAVAILABLE (v : pyval) :
  eq_str (normalize_status v) "UNAVAILABLE" = false.
Proof.
  destruct v as [| | | |s| |]; try reflexivity.
  unfold normalize_status.
  destruct (truthy (PStr s)) eqn:Et.
  - unfold connector_status_mapping; simpl mapping_get.
    destruct (String.eqb (upper s) "AVAILABLE"); [reflexivity|].
    destruct (String.eqb (upper s) "OCCUPIED"); [reflexivity|].
    destruct (String.eqb (upper s) "UNAVAILABLE") eqn:E; [reflexivity|].
    destruct (String.eqb (upper s) "OUT_OF_ORDER"); [reflexivity|].
    simpl. destruct (String.eqb s "UNAVAILABLE") eqn:Es; [|reflexivity].
    apply String.eqb_eq in Es; subst s. discriminate E.
  - simpl in Et. destruct s; [reflexivity | discriminate Et].
Qed.

(** The three flags agree with the status: exactly the matching flag is 1
    for one of the three statuses, and all are 0 for any other value. *)
Definition flags_match (r : Utilization.t) : Prop :=
  let s := Utilization.status r in
  let flags :=
    (Utilization.is_available r, Utilization.is_occupied r,
     Utilization.is_out_of_order r) in
  (s = PStr "Available" -> flags = (1, 0, 0))
  /\ (s = PStr "Occupied" -> flags = (0, 1, 0))
  /\ (s = PStr "OutOfOrder" -> flags = (0, 0, 1))
  /\ (s <> PStr "Available" -> s <> PStr "Occupied" ->
      s <> PStr "OutOfOrder" -> flags = (0, 0, 0)).

Lemma utilization_record_flags (timestamp : datetime) (station_id : pyval)
  (connector : pyval) (r : Utilization.t) :
  utilization_record timestamp station_id connector = Some r ->
  flags_match r.
Proof.
  unfold utilization_record.
  destruct connector as [| | | | | |c]; try discriminate.
  intros H; inversion H; subst r; clear H.
  unfold flags_match; cbn [Utilization.status Utilization.is_available
    Utilization.is_occupied Utilization.is_out_of_order].
  rewrite normalize_status_not_UNAVAILABLE, orb_false_r.
  repeat split.
  - intros ->. reflexivity.
  - intros ->. reflexivity.
  - intros ->. reflexivity.
  - intros H1 H2 H3.
    now rewrite (eq_str_false _ _ H1), (eq_str_false _ _ H2),
      (eq_str_false _ _ H3).
Qed.

Lemma station_utilization_flags (timestamp : datetime) (station : pydict) :
  Forall flags_match (station_utilization timestamp station).
Proof.
  unfold station_utilization.
  destruct (resolve_connectors station) as [cl|]; [|constructor].
  destruct (py_iter cl) as [cs|]; [|constructor].
  apply emit_until_error_Forall.
  intros x b. apply utilization_record_flags.
Qed.

(** C4: in every record [transform_utilization_data] emits, exactly the flag
    matching a status among [Available], [Occupied], [OutOfOrder] is 1 and
    the other two are 0, and for any other status value (['FAULTED'], a
    missing or non-string status) the three flags are 0. *)
Theorem utilization_flags_match_status
  (stations_data : list pyval) (timestamp : datetime)
  (records : list Utilization.t) :
  transform_utilization_data stations_data timestamp = Some records ->
  Forall flags_match records.
Proof.
  intros Hret. apply utilization_records_of in Hret.
  destruct Hret as [Hret _]. revert Hret. unfold utilization_records.
  apply (for_each_invariant (Forall flags_match)); [|constructor].
  intros acc station acc' Hacc Hbody.
  destruct station as [| | | | | |d]; try discriminate.
  simpl in Hbody; inversion Hbody; subst acc'.
  apply Forall_app; split; [exact Hacc | apply station_utilization_flags].
Qed.

(** A station with an available, an occupied, a faulted and a status-less
    connector. *)
Definition mixed_station : pydict :=
  [("id", PStr "S1"); ("totalConnectors", PInt 4);
   ("connectors",
    PList [PDict [("id", PStr "C1"); ("status", PStr "AVAILABLE")];
           PDict [("id", PStr "C2"); ("status", PStr "OCCUPIED")];
           PDict [("id", PStr "C3"); ("status", PStr "FAULTED")];
           PDict [("id", PStr "C4")]])].

Definition noon : datetime :=
  {| year := 2024; month := 5; day := 17;
     hour := 12; minute := 34; second := 56; microsecond := 789 |}.

Lemma utilization_flags_match_status_witness :
  exists records,
    transform_utilization_data [PDict mixed_station] noon = Some records
    /\ List.length records = 4
    /\ Forall flags_match records.
Proof.
  eexists. split; [reflexivity|]. split; [reflexivity|].
  exact (utilization_flags_match_status [PDict mixed_station] noon _ eq_refl).
Defined.

(** *** Hourly aggregation *)

(** A station whose only connector is occupied and carries no [id]. *)
Definition anonymous_station : pydict :=
  [("id", PStr "S1");
   ("connectors", PList [PDict [("status", PStr "OCCUPIED")]])].

(** A station with two occupied connectors, one of them without [id]. *)
Definition half_anonymous_station : pydict :=
  [("id", PStr "S1");
   ("connectors",
    PList [PDict [("id", PStr "C1"); ("status", PStr "OCCUPIED")];
           PDict [("status", PStr "OCCUPIED")]])].

Definition aggregate_of (stations_data : list pyval) (timestamp : datetime)
  : option (list Hourly.t) :=
  utilization_df <- transform_utilization_data stations_data timestamp ;;
  aggregate_hourly_utilization utilization_df.

(** C5: the count of [connector_id] leaves out the connectors without an
    id, while the sums of the flags do not.  On [anonymous_station] the
    hourly row has [total_connectors = 0] and an infinite occupancy rate; on
    [half_anonymous_station] it has [total_connectors = 1] and an occupancy
    rate of 2. *)
Theorem hourly_rate_out_of_bounds :
  (exists row,
      aggregate_of [PDict anonymous_station] noon = Some [row]
      /\ Hourly.is_occupied row = 1
      /\ Hourly.total_connectors row = 0
      /\ Hourly.occupancy_rate row = Infinity
      /\ in_unit_interval (Hourly.occupancy_rate row) = false)
  /\ (exists row,
        aggregate_of [PDict half_anonymous_station] noon = Some [row]
        /\ Hourly.is_occupied row = 2
        /\ Hourly.total_connectors row = 1
        /\ Hourly.occupancy_rate row = Finite (2 # 1)
        /\ in_unit_interval (Hourly.occupancy_rate row) = false).
Proof.
  split; eexists; repeat split; reflexivity.
Qed.

(** *** Where the rates are within bounds *)

Lemma scalar_eqb_refl (v : pyval) :
  hashable v = true -> isna v = false -> scalar_eqb v v = true.
Proof.
  destruct v as [|b|z|f|s|l|d]; simpl; try discriminate; intros _ H.
  - now destruct b.
  - apply Z.eqb_refl.
  - unfold PrimFloat.is_nan in H. now apply negb_false_iff in H.
  - apply String.eqb_refl.
Qed.

Lemma datetime_eqb_refl (t : datetime) : datetime_eqb t t = true.
Proof. unfold datetime_eqb. now rewrite !Z.eqb_refl. Qed.

Lemma group_heads_incl (rows : list Utilization.t) (h : Utilization.t) :
  In h (group_heads rows) -> In h rows.
Proof.
  induction rows as [|r rows IH]; simpl; [tauto|].
  intros [-> | H]; [now left|]. right. apply IH.
  apply filter_In in H. tauto.
Qed.

Lemma sum_le_length (f : Utilization.t -> nat) (l : list Utilization.t) :
  Forall (fun r => f r <= 1) l -> sum (map f l) <= List.length l.
Proof.
  induction 1 as [|r l Hr _ IH]; simpl; [lia|]. unfold sum in *; simpl. lia.
Qed.

Lemma divide_in_unit_interval (n d : nat) :
  n <= d -> 0 < d -> in_unit_interval (divide n d) = true.
Proof.
  intros Hn Hd. destruct d as [|d]; [lia|].
  unfold divide, in_unit_interval, Qle_bool; cbn [Qnum Qden].
  rewrite <- Pos.of_nat_succ, Zpos_P_of_succ_nat.
  apply andb_true_iff; split; apply Z.leb_le; lia.
Qed.

(** Each of the two rate flags of a record is 0 or 1. *)
Definition flags_bounded (r : Utilization.t) : Prop :=
  Utilization.is_occupied r <= 1 /\ Utilization.is_available r <= 1.

Lemma transform_flags_bounded (stations_data : list pyval)
  (timestamp : datetime) (records : list Utilization.t) :
  transform_utilization_data stations_data timestamp = Some records ->
  Forall flags_bounded records.
Proof.
  intros Hret. apply utilization_records_of in Hret.
  destruct Hret as [Hret _]. revert Hret. unfold utilization_records.
  apply (for_each_invariant (Forall flags_bounded)); [|constructor].
  intros acc station acc' Hacc Hbody.
  destruct station as [| | | | | |d]; try discriminate.
  simpl in Hbody; inversion Hbody; subst acc'.
  apply Forall_app; split; [exact Hacc|].
  unfold station_utilization.
  destruct (resolve_connectors d) as [cl|]; [|constructor].
  destruct (py_iter cl) as [cs|]; [|constructor].
  apply emit_until_error_Forall. intros c r Hr.
  unfold utilization_record in Hr.
  destruct c as [| | | | | |c]; try discriminate.
  inversion Hr; subst r; unfold flags_bounded; simpl.
  split; [destruct (eq_str _ "Occupied") | destruct (eq_str _ "Available")];
    lia.
Qed.

Lemma aggregate_rows (utilization_df : list Utilization.t)
  (hourly_df : list Hourly.t) :
  aggregate_hourly_utilization utilization_df = Some hourly_df ->
  forallb (fun r => hashable (Utilization.station_id r)) utilization_df = true
  /\ hourly_df
     = map
         (hourly_row
            (filter (fun r => negb (isna (Utilization.station_id r)))
               utilization_df))
         (group_heads
            (filter (fun r => negb (isna (Utilization.station_id r)))
               utilization_df)).
Proof.
  intros H. destruct utilization_df as [|r0 rest].
  - inversion H. now split.
  - unfold aggregate_hourly_utilization in H.
    destruct (forallb _ (r0 :: rest)) eqn:E; [|discriminate].
    split; [reflexivity|]. injection H as <-. reflexivity.
Qed.

(** When every connector has an id, every hourly row counts at least one
    connector and both of its rates lie in [[0, 1]]: the rows that fall
    outside are those of connectors without an id. *)
Lemma hourly_rates_within_bounds (stations_data : list pyval)
  (timestamp : datetime) (utilization_df : list Utilization.t)
  (hourly_df : list Hourly.t) :
  transform_utilization_data stations_data timestamp = Some utilization_df ->
  Forall (fun r => isna (Utilization.connector_id r) = false) utilization_df ->
  aggregate_hourly_utilization utilization_df = Some hourly_df ->
  Forall
    (fun row =>
       0 < Hourly.total_connectors row
       /\ in_unit_interval (Hourly.occupancy_rate row) = true
       /\ in_unit_interval (Hourly.availability_rate row) = true)
    hourly_df.
Proof.
  intros Ht Hids Hagg.
  pose proof (transform_flags_bounded _ _ _ Ht) as Hb.
  destruct (aggregate_rows _ _ Hagg) as [Hh ->]. clear Hagg.
  set (u := utilization_df) in *.
  set (rows := filter (fun r => negb (isna (Utilization.station_id r))) u).
  apply Forall_forall. intros row Hrow.
  apply in_map_iff in Hrow. destruct Hrow as (head & <- & Hhead).
  apply group_heads_incl in Hhead.
  assert (Hin : In head u /\ isna (Utilization.station_id head) = false).
  { apply filter_In in Hhead. destruct Hhead as [H1 H2].
    split; [exact H1 | now apply negb_true_iff]. }
  destruct Hin as [Hu Hna].
  rewrite forallb_forall in Hh.
  assert (Hself : same_group head head = true).
  { unfold same_group. rewrite datetime_eqb_refl. simpl.
    apply scalar_eqb_refl; [now apply Hh | exact Hna]. }
  set (group := filter (same_group head) rows).
  assert (Hgroup : In head group) by (apply filter_In; split; assumption).
  assert (Hsub : forall r, In r group -> In r u).
  { intros r Hr. apply filter_In in Hr. destruct Hr as [Hr _].
    apply filter_In in Hr. tauto. }
  assert (Hcount :
    List.length
      (filter (fun r => negb (isna (Utilization.connector_id r))) group)
    = List.length group).
  { f_equal. apply forallb_filter_id. apply forallb_forall. intros r Hr.
    rewrite Forall_forall in Hids. now rewrite (Hids r (Hsub r Hr)). }
  assert (Hpos : 0 < List.length group).
  { destruct group; [contradiction | simpl; lia]. }
  rewrite Forall_forall in Hb.
  unfold hourly_row. fold rows. fold group. cbn [Hourly.total_connectors
    Hourly.occupancy_rate Hourly.availability_rate].
  rewrite Hcount.
  split; [exact Hpos|].
  split; apply divide_in_unit_interval; try exact Hpos;
    apply sum_le_length, Forall_forall; intros r Hr;
    now destruct (Hb r (Hsub r Hr)).
Qed.

End UtilizationFacts.

(** ** The extractor's retry loop *)

Module ExtractFacts.
Import Py Extract.

(** The trace of the attempts [l] when each of them is retried. *)
Definition retries (retry_delay : Z) (l : list Z) : list event :=
  flat_map (fun a => [Get a; Sleep retry_delay]) l.

Lemma In_range (n a : Z) : In a (range n) <-> (0 <= a < n)%Z.
Proof.
  unfold range. rewrite in_map_iff. split.
  - intros (i & <- & Hi). apply in_seq in Hi. lia.
  - intros H. exists (Z.to_nat a). split; [lia|]. apply in_seq. lia.
Qed.

Lemma range_split (n k : Z) :
  (0 <= k < n)%Z ->
  exists rest, range n = range k ++ k :: rest.
Proof.
  intros H. unfold range.
  replace (Z.to_nat n) with (Z.to_nat k + S (Z.to_nat n - S (Z.to_nat k)))
    by lia.
  rewrite seq_app, map_app. simpl.
  rewrite Z2Nat.id by lia. eauto.
Qed.

Lemma requests_app (xs ys : list event) :
  requests (xs ++ ys) = requests xs + requests ys.
Proof. unfold requests. now rewrite filter_app, length_app. Qed.

Lemma requests_retries (d : Z) (l : list Z) :
  requests (retries d l) = List.length l.
Proof.
  induction l as [|a l IH]; [reflexivity|].
  unfold retries in *; simpl. unfold requests in *; simpl. now rewrite IH.
Qed.

Lemma length_range (n : Z) : List.length (range n) = Z.to_nat n.
Proof. unfold range. now rewrite length_map, length_seq. Qed.

(** The events of [process] are not requests and not sleeps. *)
Lemma process_events (data : pyval) :
  snd (process data) = [] \/ snd (process data) = [DumpDebug data].
Proof.
  unfold process.
  destruct (stations_list data) as [l|]; [|now right].
  destruct (py_iter l); now left.
Qed.

Section Policy.

Variable json_error_is_request_exception : bool.
Variable sleep_returns : Z -> bool.

Local Abbreviation retried :=
  (is_request_exception json_error_is_request_exception).
Local Abbreviation attempts_loop :=
  (attempts_loop json_error_is_request_exception sleep_returns).
Local Abbreviation extract_charging_stations :=
  (extract_charging_stations json_error_is_request_exception sleep_returns).

(** One pass of the loop on an attempt whose outcome is not a body. *)
Lemma attempts_loop_raised (net : network) (mr d a : Z) (rest : list Z) :
  (forall data, net a <> Body data) ->
  attempts_loop net mr d (a :: rest) =
  if retried (net a) then
    if (a <? mr)%Z then
      if sleep_returns d then
        (fst (attempts_loop net mr d rest),
         Get a :: Sleep d :: snd (attempts_loop net mr d rest))
      else (Raised, [Get a])
    else (Returned None, [Get a])
  else (Returned None, [Get a]).
Proof.
  intros Hb. simpl.
  destruct (net a) as [e| |data]; cbn [Extract.is_request_exception].
  - destruct (a <? mr)%Z; [|reflexivity].
    destruct (sleep_returns d); [|reflexivity].
    now destruct (Extract.attempts_loop _ _ net mr d rest).
  - destruct json_error_is_request_exception; [|reflexivity].
    destruct (a <? mr)%Z; [|reflexivity].
    destruct (sleep_returns d); [|reflexivity].
    now destruct (Extract.attempts_loop _ _ net mr d rest).
  - now destruct (Hb data).
Qed.

Lemma retried_not_body (r : response) :
  retried r = true -> forall data, r <> Body data.
Proof. intros H data ->. discriminate H. Qed.

(** Each pass of the loop makes at most one request. *)
Lemma attempts_loop_requests (net : network) (mr d : Z) (l : list Z) :
  requests (snd (attempts_loop net mr d l)) <= List.length l.
Proof.
  induction l as [|a l IH]; [unfold requests; simpl; lia|].
  destruct (net a) as [e| |data] eqn:Ea.
  1,2: rewrite attempts_loop_raised by (rewrite Ea; discriminate);
    destruct (retried _);
    [destruct (a <? mr)%Z; [destruct (sleep_returns d)|]|];
    cbn [snd List.length]; unfold requests in *; simpl; lia.
  simpl. rewrite Ea.
  destruct (process data) as [r evs] eqn:E.
  pose proof (process_events data) as Hp. rewrite E in Hp; simpl in Hp.
  simpl. destruct Hp as [-> | ->]; unfold requests; simpl; lia.
Qed.

(** A sleep lasts [retry_delay], a length on which [time.sleep] returns,
    and comes right after a request whose outcome the first handler
    caught. *)
Definition paced (net : network) (d : Z) (evs : list event) : Prop :=
  forall pre s post,
    evs = pre ++ Sleep s :: post ->
    s = d /\ sleep_returns d = true
    /\ exists pre' a, pre = pre' ++ [Get a] /\ retried (net a) = true.

Lemma paced_no_sleep (net : network) (d : Z) (evs : list event) :
  (forall s, ~ In (Sleep s) evs) -> paced net d evs.
Proof.
  intros H pre s post E. exfalso. apply (H s).
  rewrite E. apply in_or_app. right. now left.
Qed.

Lemma paced_retry (net : network) (d a : Z) (evs : list event) :
  retried (net a) = true -> sleep_returns d = true ->
  paced net d evs -> paced net d (Get a :: Sleep d :: evs).
Proof.
  intros Hr Hsl IH pre s post E.
  destruct pre as [|x [|y pre]]; simpl in E.
  - discriminate.
  - injection E as Hx Hs Hp. subst. split; [reflexivity|].
    split; [exact Hsl|]. exists [], a. now split.
  - injection E as Hx Hy He. subst x y.
    destruct (IH _ _ _ He) as (Hs & Hd & pre' & a' & -> & Ha').
    split; [exact Hs|]. split; [exact Hd|].
    now exists (Get a :: Sleep d :: pre'), a'.
Qed.

Lemma paced_single (net : network) (d a : Z) : paced net d [Get a].
Proof.
  apply paced_no_sleep. intros s [H|[]]; discriminate.
Qed.

Lemma attempts_loop_paced (net : network) (mr d : Z) (l : list Z) :
  paced net d (snd (attempts_loop net mr d l)).
Proof.
  induction l as [|a l IH].
  - apply paced_no_sleep. intros s [].
  - destruct (net a) as [e| |data] eqn:Ea.
    1,2: rewrite attempts_loop_raised by (rewrite Ea; discriminate);
      destruct (retried (net a)) eqn:Er;
      [destruct (a <? mr)%Z; [destruct (sleep_returns d) eqn:Es|]|];
      cbn [snd];
      [now apply paced_retry | apply paced_single | apply paced_single
       | apply paced_single].
    simpl. rewrite Ea.
    destruct (process data) as [r evs] eqn:E.
    pose proof (process_events data) as Hp. rewrite E in Hp; simpl in Hp.
    apply paced_no_sleep. simpl.
    destruct Hp as [-> | ->]; intros s H; simpl in H;
      repeat (destruct H as [H|H]; try discriminate); exact H.
Qed.

(** Attempts below the retry bound that the first handler catches are
    retried, as long as [time.sleep] returns. *)
Lemma attempts_loop_retried (net : network) (mr d : Z) (l1 l2 : list Z) :
  (forall a, In a l1 -> retried (net a) = true /\ (a < mr)%Z) ->
  (l1 <> [] -> sleep_returns d = true) ->
  attempts_loop net mr d (l1 ++ l2) =
  (fst (attempts_loop net mr d l2),
   retries d l1 ++ snd (attempts_loop net mr d l2)).
Proof.
  induction l1 as [|a l1 IH]; intros H Hsl.
  - simpl. now destruct (Extract.attempts_loop _ _ net mr d l2).
  - destruct (H a (or_introl eq_refl)) as [Hr Ha].
    assert (Hd : sleep_returns d = true) by (apply Hsl; discriminate).
    change ((a :: l1) ++ l2) with (a :: (l1 ++ l2)).
    rewrite attempts_loop_raised by now apply retried_not_body.
    rewrite Hr, Hd. apply Z.ltb_lt in Ha; rewrite Ha.
    rewrite IH by (try (intros; apply H; now right); intros _; exact Hd).
    reflexivity.
Qed.

Lemma range_nonempty (k : Z) : range k <> [] -> (0 < k)%Z.
Proof.
  unfold range. intros H.
  destruct (Z.to_nat k) eqn:E; [now destruct H | lia].
Qed.

(** X11: the retry policy: at most [max_retries + 1] requests (none for a
    negative bound); a sleep only of [retry_delay], only where
    [time.sleep] returns and only after a request whose outcome the first
    handler caught; no data after [max_retries + 1] requests when that
    handler catches every outcome; an exception that leaves the call
    after the first request when [time.sleep] raises on [retry_delay] (a
    negative delay); and, at an attempt that the [ValueError] handler
    catches, no data and no further request. *)
Lemma extract_retry_policy (net : network) (max_retries retry_delay : Z) :
  let r := fst (extract_charging_stations net max_retries retry_delay) in
  let evs := snd (extract_charging_stations net max_retries retry_delay) in
  (Z.of_nat (requests evs) <= Z.max 0 (max_retries + 1))%Z
  /\ paced net retry_delay evs
  /\ ((max_retries < 0)%Z -> r = Returned None /\ evs = [])
  /\ ((0 <= max_retries)%Z ->
      (forall a, (0 <= a <= max_retries)%Z -> retried (net a) = true) ->
      ((0 < max_retries)%Z -> sleep_returns retry_delay = true) ->
      r = Returned None
      /\ evs = retries retry_delay (range max_retries) ++ [Get max_retries]
      /\ Z.of_nat (requests evs) = (max_retries + 1)%Z)
  /\ ((0 < max_retries)%Z ->
      retried (net 0%Z) = true ->
      sleep_returns retry_delay = false ->
      r = Raised /\ evs = [Get 0%Z])
  /\ (forall k,
        (0 <= k <= max_retries)%Z ->
        (forall a, (0 <= a < k)%Z -> retried (net a) = true) ->
        ((0 < k)%Z -> sleep_returns retry_delay = true) ->
        net k = InvalidJSON ->
        json_error_is_request_exception = false ->
        r = Returned None
        /\ evs = retries retry_delay (range k) ++ [Get k]
        /\ Z.of_nat (requests evs) = (k + 1)%Z).
Proof.
  cbv zeta. unfold Extract.extract_charging_stations.
  split; [|split; [|split; [|split; [|split]]]].
  - pose proof (attempts_loop_requests net max_retries retry_delay
                  (range (max_retries + 1))) as H.
    rewrite length_range in H. lia.
  - apply attempts_loop_paced.
  - intros H. unfold range.
    replace (Z.to_nat (max_retries + 1)) with 0 by lia. now simpl.
  - intros Hmr Hall Hsl.
    destruct (range_split (max_retries + 1) max_retries ltac:(lia))
      as [rest Hrest].
    rewrite Hrest, attempts_loop_retried.
    + rewrite attempts_loop_raised
        by (apply retried_not_body, Hall; lia).
      rewrite (Hall max_retries ltac:(lia)), Z.ltb_irrefl. cbn [fst snd].
      split; [reflexivity|]. split; [reflexivity|].
      rewrite requests_app, requests_retries, length_range.
      unfold requests; simpl. lia.
    + intros a Ha. apply In_range in Ha. split; [apply Hall|]; lia.
    + intros Hne. apply Hsl. now apply range_nonempty.
  - intros Hmr Hfail Hsl.
    destruct (range_split (max_retries + 1) 0 ltac:(lia)) as [rest Hrest].
    rewrite Hrest. change (range 0 ++ 0%Z :: rest) with (0%Z :: rest).
    rewrite attempts_loop_raised by now apply retried_not_body.
    rewrite Hfail, Hsl. apply Z.ltb_lt in Hmr. rewrite Hmr. now split.
  - intros k Hk Hfail Hsl Hbad Hlib.
    destruct (range_split (max_retries + 1) k ltac:(lia)) as [rest Hrest].
    rewrite Hrest, attempts_loop_retried.
    + rewrite attempts_loop_raised by (rewrite Hbad; discriminate).
      rewrite Hbad. cbn [Extract.is_request_exception]. rewrite Hlib.
      cbn [fst snd].
      split; [reflexivity|]. split; [reflexivity|].
      rewrite requests_app, requests_retries, length_range.
      unfold requests; simpl. lia.
    + intros a Ha. apply In_range in Ha. split; [apply Hfail|]; lia.
    + intros Hne. apply Hsl. now apply range_nonempty.
Qed.

End Policy.

(** An endpoint that answers every request with a body that is not JSON. *)
Definition not_json : network := fun _ => InvalidJSON.

(** C7: with the [JSONDecodeError] of requests 2.27 and later, which is a
    [RequestException], a body that is not JSON is caught by the first
    handler: the call sleeps and asks again, [max_retries] times; only with
    a plain [ValueError] does it end after the first request. *)
Theorem invalid_json_is_retried (sleep_returns : Z -> bool) :
  sleep_returns 5%Z = true ->
  Extract.extract_charging_stations true sleep_returns not_json 3 5
  = (Returned None, [Get 0; Sleep 5; Get 1; Sleep 5; Get 2; Sleep 5; Get 3])
  /\ requests
       (snd (Extract.extract_charging_stations true sleep_returns not_json 3 5))
     = 4
  /\ Extract.extract_charging_stations false sleep_returns not_json 3 5
     = (Returned None, [Get 0]).
Proof.
  intros H.
  assert (E : Extract.extract_charging_stations true sleep_returns not_json 3 5
              = (Returned None,
                 [Get 0; Sleep 5; Get 1; Sleep 5; Get 2; Sleep 5; Get 3])).
  { unfold Extract.extract_charging_stations.
    change (range (3 + 1)) with [0; 1; 2; 3]%Z.
    cbn [Extract.attempts_loop not_json Extract.is_request_exception].
    rewrite H. reflexivity. }
  rewrite E. repeat split; reflexivity.
Qed.

(** A clock on which every sleep of a non-negative length returns. *)
Definition sleeps_when_non_negative (seconds : Z) : bool := (0 <=? seconds)%Z.

Lemma invalid_json_is_retried_witness :
  Extract.extract_charging_stations true sleeps_when_non_negative not_json 3 5
  = (Returned None, [Get 0; Sleep 5; Get 1; Sleep 5; Get 2; Sleep 5; Get 3]).
Proof.
  exact (proj1 (invalid_json_is_retried sleeps_when_non_negative eq_refl)).
Defined.

End ExtractFacts.

(** ** The connectors of an extracted station *)

Module ConnectorFacts.
Import Py Extract.

(** The flattened grouping, in the specification's words: the connectors of
    every group, each stamped with the key of its group as [type], group
    after group. *)
Definition flattened (g : list (string * pyval)) : list pyval :=
  flat_map
    (fun item =>
       match snd item with
       | PList cs => map (Grouping.set_type (fst item)) cs
       | _ => []
       end)
    g.

Lemma stamp_loop (conn_type : string) (elems acc r : list pyval) :
  for_each (Grouping.stamp_body conn_type) elems acc = Some r ->
  r = acc ++ map (Grouping.set_type conn_type) elems
  /\ Forall (fun c => exists d, c = PDict d) elems.
Proof.
  revert acc; induction elems as [|c cs IH]; intros acc H; simpl in H.
  - inversion H; subst. now rewrite app_nil_r.
  - destruct c as [| | | | | |d]; try discriminate. simpl in H.
    destruct (IH _ H) as [-> Hall].
    split; [now rewrite <- app_assoc | constructor; eauto].
Qed.

Lemma group_loop (g : list (string * pyval)) (acc r : list pyval) :
  for_each Grouping.group_body g acc = Some r ->
  r = acc ++ flattened g.
Proof.
  revert acc; induction g as [|[t l] g IH]; intros acc H; simpl in H.
  - inversion H; subst. now rewrite app_nil_r.
  - destruct (py_iter l) as [elems|] eqn:El; [|discriminate].
    destruct (for_each (Grouping.stamp_body t) elems acc) as [acc1|] eqn:E1;
      [|discriminate].
    destruct (stamp_loop _ _ _ _ E1) as [-> Hall].
    rewrite (IH _ H), <- app_assoc. f_equal.
    unfold flattened; simpl. f_equal.
    destruct l as [| | | |s|cs|d]; simpl in El; try discriminate;
      inversion El; subst elems; clear El.
    + destruct s; [reflexivity|]. simpl in Hall. inversion Hall as [|? ? [d Hd] ?].
      discriminate Hd.
    + reflexivity.
    + destruct d as [|kv d]; [reflexivity|]. simpl in Hall.
      inversion Hall as [|? ? [d' Hd] ?]. discriminate Hd.
Qed.

(** The loop of the source computes the flattened grouping. *)
Lemma flatten_flattened (grouping : pyval) (connectors : list pyval) :
  Grouping.flatten grouping = Some connectors ->
  exists g, grouping = PDict g /\ connectors = flattened g.
Proof.
  destruct grouping as [| | | | | |g]; try discriminate.
  simpl. intros H. exists g. split; [reflexivity|].
  now rewrite (group_loop _ _ _ H).
Qed.

Lemma dict_get_set_same (k : string) (v : pyval) (d : pydict) :
  dict_get k (dict_set k v d) = Some v.
Proof.
  induction d as [|[k' v'] d IH]; simpl.
  - now rewrite String.eqb_refl.
  - destruct (String.eqb k k') eqn:E; simpl; rewrite E; [reflexivity | exact IH].
Qed.

Lemma dict_get_set_other (k k' : string) (v : pyval) (d : pydict) :
  String.eqb k k' = false ->
  dict_get k (dict_set k' v d) = dict_get k d.
Proof.
  intros Hk; induction d as [|[k0 v0] d IH]; simpl.
  - now rewrite Hk.
  - destruct (String.eqb k' k0) eqn:E; simpl.
    + apply String.eqb_eq in E; subst k0. now rewrite Hk.
    + destruct (String.eqb k k0); [reflexivity | exact IH].
Qed.

(** The grouping the extractor reads: [connectionTypes], or
    [connectionsTypes] when that is the only one present. *)
Definition grouping_of (d : pydict) : pyval :=
  if dict_mem "connectionTypes" d then get "connectionTypes" d
  else get "connectionsTypes" d.

Definition has_grouping (d : pydict) : bool :=
  dict_mem "connectionTypes" d || dict_mem "connectionsTypes" d.

Lemma normalize_station_connectors (d : pydict) (s' : pyval) :
  has_grouping d = true ->
  normalize_station (PDict d) = Some s' ->
  exists g d',
    grouping_of d = PDict g
    /\ s' = PDict d'
    /\ dict_get "connectors" d' = Some (PList (flattened g)).
Proof.
  unfold has_grouping, grouping_of, normalize_station; simpl py_in.
  intros Hg H.
  assert (Hfinish : forall d0 s0,
    (connectors <- Grouping.flatten (get "connectionTypes" d0) ;;
     Some (PDict (dict_set "connectors" (PList connectors)
                    (dict_set "connectionTypes"
                       (Grouping.stamped (get "connectionTypes" d0)) d0))))
    = Some s0 ->
    exists g d', get "connectionTypes" d0 = PDict g /\ s0 = PDict d'
      /\ dict_get "connectors" d' = Some (PList (flattened g))).
  { intros d0 s0 H0.
    destruct (Grouping.flatten (get "connectionTypes" d0)) as [cs|] eqn:Ef;
      [|discriminate].
    destruct (flatten_flattened _ _ Ef) as (g & Hgr & ->).
    inversion H0; subst s0. exists g. eexists.
    split; [exact Hgr|]. split; [reflexivity|]. apply dict_get_set_same. }
  destruct (dict_mem "connectionsTypes" d) eqn:Ep;
    destruct (dict_mem "connectionTypes" d) eqn:Es;
    simpl in H, Hg; try discriminate; try rewrite Es in H.
  - now apply Hfinish.
  - unfold dict_mem at 1 in H. rewrite dict_get_set_same in H.
    destruct (Hfinish _ _ H) as (g & d' & Hgr & -> & Hc).
    exists g, d'. split; [|now split].
    unfold get at 1 in Hgr. now rewrite dict_get_set_same in Hgr.
  - now apply Hfinish.
Qed.

Lemma process_loop (stations acc r : list pyval) :
  for_each process_body stations acc = Some r ->
  exists processed,
    r = acc ++ processed
    /\ Forall2 (fun s s' => normalize_station s = Some s') stations processed.
Proof.
  revert acc; induction stations as [|s ss IH]; intros acc H; simpl in H.
  - inversion H; subst. exists []. now rewrite app_nil_r.
  - unfold process_body at 1 in H.
    destruct (normalize_station s) as [s'|] eqn:Es; [|discriminate].
    destruct (IH _ H) as (ps & -> & Hall).
    exists (s' :: ps). rewrite <- app_assoc. split; [reflexivity|].
    now constructor.
Qed.

(** The station after [station["connectionTypes"] =
    station.pop("connectionsTypes")], which runs when only the plural name
    is present. *)
Definition renamed (d : pydict) : pydict :=
  if dict_mem "connectionsTypes" d && negb (dict_mem "connectionTypes" d)
  then dict_set "connectionTypes" (get "connectionsTypes" d)
         (dict_remove "connectionsTypes" d)
  else d.

Lemma normalize_station_dict (d : pydict) :
  normalize_station (PDict d)
  = if dict_mem "connectionTypes" (renamed d) then
      connectors <- Grouping.flatten (get "connectionTypes" (renamed d)) ;;
      Some (PDict (dict_set "connectors" (PList connectors)
                     (dict_set "connectionTypes"
                        (Grouping.stamped (get "connectionTypes" (renamed d)))
                        (renamed d))))
    else Some (PDict (renamed d)).
Proof.
  unfold normalize_station, renamed; cbn [py_in].
  destruct (dict_mem "connectionsTypes" d);
    destruct (dict_mem "connectionTypes" d) eqn:Es;
    cbn [andb negb py_in]; try rewrite Es; reflexivity.
Qed.

Lemma dict_get_remove_other (k k' : string) (d : pydict) :
  String.eqb k k' = false ->
  dict_get k (dict_remove k' d) = dict_get k d.
Proof.
  intros Hk. unfold dict_remove.
  induction d as [|[k0 v0] d IH]; [reflexivity|].
  cbn [filter fst]. destruct (String.eqb k' k0) eqn:E; cbn [negb dict_get].
  - apply String.eqb_eq in E; subst k0. now rewrite Hk.
  - now rewrite IH.
Qed.

Lemma renamed_grouping (d : pydict) :
  has_grouping d = true ->
  dict_mem "connectionTypes" (renamed d) = true
  /\ get "connectionTypes" (renamed d) = grouping_of d.
Proof.
  unfold has_grouping, grouping_of, renamed.
  destruct (dict_mem "connectionTypes" d) eqn:Es;
    destruct (dict_mem "connectionsTypes" d) eqn:Ep;
    cbn [andb orb negb]; try discriminate; intros _;
    try (split; [exact Es | reflexivity]).
  unfold dict_mem, get.
  now rewrite dict_get_set_same.
Qed.

Lemma renamed_no_grouping (d : pydict) :
  has_grouping d = false ->
  renamed d = d /\ dict_mem "connectionTypes" (renamed d) = false.
Proof.
  unfold has_grouping, renamed.
  destruct (dict_mem "connectionTypes" d) eqn:Es;
    destruct (dict_mem "connectionsTypes" d) eqn:Ep;
    cbn [andb orb negb]; try discriminate. now intros _.
Qed.

Lemma renamed_other (k : string) (d : pydict) :
  k <> "connectionTypes" -> k <> "connectionsTypes" ->
  dict_get k (renamed d) = dict_get k d.
Proof.
  intros H1 H2. unfold renamed.
  destruct (dict_mem "connectionsTypes" d && negb (dict_mem "connectionTypes" d));
    [|reflexivity].
  rewrite dict_get_set_other by now apply String.eqb_neq.
  apply dict_get_remove_other. now apply String.eqb_neq.
Qed.

Lemma dict_set_twice (k : string) (v : pyval) (d : pydict) :
  dict_set k v (dict_set k v d) = dict_set k v d.
Proof.
  induction d as [|[k0 v0] d IH]; cbn [dict_set].
  - now rewrite String.eqb_refl.
  - destruct (String.eqb k k0) eqn:E; cbn [dict_set]; rewrite E;
      [reflexivity | now rewrite IH].
Qed.

Lemma set_type_twice (t : string) (c : pyval) :
  Grouping.set_type t (Grouping.set_type t c) = Grouping.set_type t c.
Proof.
  destruct c as [| | | | | |d]; try reflexivity.
  cbn [Grouping.set_type]. now rewrite dict_set_twice.
Qed.

Lemma stamp_loop_dicts (t : string) (elems acc : list pyval) :
  Forall (fun c => exists d, c = PDict d) elems ->
  for_each (Grouping.stamp_body t) elems acc
  = Some (acc ++ map (Grouping.set_type t) elems).
Proof.
  intros H; revert acc; induction H as [|c cs [d ->] _ IH]; intros acc.
  - cbn. now rewrite app_nil_r.
  - cbn [for_each Grouping.stamp_body]. rewrite IH, <- app_assoc. reflexivity.
Qed.

(** Running the loop over a grouping it has already stamped gives the same
    connectors. *)
Lemma group_loop_stamped (g : list (string * pyval)) (acc r : list pyval) :
  for_each Grouping.group_body g acc = Some r ->
  for_each Grouping.group_body (map Grouping.stamped_item g) acc = Some r.
Proof.
  revert acc; induction g as [|[t l] g IH]; intros acc H; [exact H|].
  cbn [for_each map] in *. unfold Grouping.group_body at 1 in H.
  destruct (py_iter l) as [elems|] eqn:El; [|discriminate].
  destruct (for_each (Grouping.stamp_body t) elems acc) as [acc1|] eqn:E1;
    [|discriminate].
  destruct l as [| | | |s|cs|d]; cbn [py_iter] in El; try discriminate;
    inversion El; subst elems; clear El;
    cbn [Grouping.stamped_item Grouping.group_body py_iter].
  - rewrite E1. now apply IH.
  - destruct (stamp_loop _ _ _ _ E1) as [-> Hall].
    rewrite stamp_loop_dicts.
    + rewrite map_map.
      rewrite (map_ext _ _ (set_type_twice t)). now apply IH.
    + apply Forall_forall. intros c Hc. apply in_map_iff in Hc.
      destruct Hc as (c0 & <- & Hc0). rewrite Forall_forall in Hall.
      destruct (Hall _ Hc0) as [d0 ->]. cbn. eauto.
  - rewrite E1. now apply IH.
Qed.

(** *** Responses on which the loops do not raise *)

(** A grouping whose values are lists of dicts. *)
Definition well_grouped (g : pydict) : bool :=
  forallb
    (fun item =>
       match snd item with
       | PList cs => forallb is_dict cs
       | _ => false
       end)
    g.

(** A station that is a dict and whose grouping, if it has one, is such a
    grouping. *)
Definition well_formed_station (s : pyval) : bool :=
  match s with
  | PDict d =>
      if has_grouping d then
        match grouping_of d with
        | PDict g => well_grouped g
        | _ => false
        end
      else true
  | _ => false
  end.

Lemma is_dict_true (c : pyval) : is_dict c = true -> exists d, c = PDict d.
Proof. destruct c; try discriminate. eauto. Qed.

Lemma group_loop_well_grouped (g : list (string * pyval)) (acc : list pyval) :
  well_grouped g = true ->
  for_each Grouping.group_body g acc = Some (acc ++ flattened g).
Proof.
  revert acc; induction g as [|[t l] g IH]; intros acc H.
  - cbn. now rewrite app_nil_r.
  - cbn [well_grouped forallb snd] in H.
    apply andb_true_iff in H. destruct H as [Hl Hg].
    destruct l as [| | | | |cs|]; try discriminate.
    cbn [for_each Grouping.group_body py_iter].
    rewrite stamp_loop_dicts.
    + rewrite (IH _ Hg), <- app_assoc. reflexivity.
    + apply Forall_forall. intros c Hc. apply is_dict_true.
      rewrite forallb_forall in Hl. now apply Hl.
Qed.

Lemma normalize_well_formed (s : pyval) :
  well_formed_station s = true ->
  exists s', normalize_station s = Some s' /\ is_dict s' = true.
Proof.
  destruct s as [| | | | | |d]; try discriminate.
  cbn [well_formed_station]. rewrite normalize_station_dict.
  destruct (has_grouping d) eqn:Hg.
  - destruct (renamed_grouping d Hg) as [Hm Hgr]. rewrite Hm, Hgr.
    destruct (grouping_of d) as [| | | | | |g]; try discriminate.
    intros Hw. cbn [Grouping.flatten].
    rewrite (group_loop_well_grouped g [] Hw). eauto.
  - destruct (renamed_no_grouping d Hg) as [Hr Hm]. rewrite Hm. eauto.
Qed.

Lemma process_loop_well_formed (stations acc : list pyval) :
  forallb well_formed_station stations = true ->
  exists processed,
    for_each process_body stations acc = Some (acc ++ processed)
    /\ forallb is_dict processed = true.
Proof.
  revert acc; induction stations as [|s ss IH]; intros acc H.
  - exists []. cbn. now rewrite app_nil_r.
  - cbn [forallb] in H. apply andb_true_iff in H. destruct H as [Hs Hss].
    destruct (normalize_well_formed s Hs) as (s' & Es & Hd).
    destruct (IH (acc ++ [s']) Hss) as (ps & Eps & Hps).
    exists (s' :: ps). cbn [for_each]. unfold process_body at 1.
    rewrite Es, Eps, <- app_assoc. cbn [forallb]. now rewrite Hd, Hps.
Qed.

Lemma attempts_loop_success (lib : bool) (sleeps : Z -> bool) (net : network)
  (mr d : Z) (l : list Z) (processed : list pyval) :
  fst (attempts_loop lib sleeps net mr d l) = Returned (Some processed) ->
  exists attempt data,
    net attempt = Body data /\ fst (process data) = Some processed.
Proof.
  induction l as [|a l IH]; [discriminate|].
  destruct (net a) as [e| |data] eqn:Ea.
  1,2: rewrite ExtractFacts.attempts_loop_raised by (rewrite Ea; discriminate);
    destruct (is_request_exception lib _); [|discriminate];
    destruct (a <? mr)%Z; [|discriminate];
    destruct (sleeps d); [exact IH | discriminate].
  simpl. rewrite Ea.
  destruct (process data) as [r evs] eqn:E; simpl.
  intros H. inversion H; subst r. exists a, data. now rewrite E.
Qed.

(** A body at attempt [k], after [k] attempts that were retried, is what
    the call processes and returns. *)
Lemma extract_body (lib : bool) (sleeps : Z -> bool) (net : network)
  (max_retries retry_delay k : Z) (data : pyval) :
  (0 <= k <= max_retries)%Z ->
  (forall a, (0 <= a < k)%Z -> is_request_exception lib (net a) = true) ->
  ((0 < k)%Z -> sleeps retry_delay = true) ->
  net k = Body data ->
  extract_charging_stations lib sleeps net max_retries retry_delay
  = (Returned (fst (process data)),
     ExtractFacts.retries retry_delay (range k) ++ Get k :: snd (process data)).
Proof.
  intros Hk Hfail Hsl Hbody. unfold extract_charging_stations.
  destruct (ExtractFacts.range_split (max_retries + 1) k ltac:(lia))
    as [rest Hrest].
  rewrite Hrest, ExtractFacts.attempts_loop_retried.
  - cbn [attempts_loop]. rewrite Hbody.
    now destruct (process data).
  - intros a Ha. apply ExtractFacts.In_range in Ha.
    split; [apply Hfail|]; lia.
  - intros Hne. apply Hsl. now apply ExtractFacts.range_nonempty.
Qed.

Lemma normalized_connectors (stations processed : list pyval) :
  Forall2 (fun s s' => normalize_station s = Some s') stations processed ->
  Forall2
    (fun s s' =>
       normalize_station s = Some s'
       /\ forall d, s = PDict d -> has_grouping d = true ->
            exists g d',
              grouping_of d = PDict g
              /\ s' = PDict d'
              /\ dict_get "connectors" d' = Some (PList (flattened g)))
    stations processed.
Proof.
  induction 1 as [|s s' ss ps Hs _ IH]; constructor; auto.
  split; [exact Hs|]. intros d -> Hg.
  now apply normalize_station_connectors.
Qed.

(** C10: the extractor does return the stations of a well-formed response,
    after the attempts it retried, and whenever it returns stations they
    are those of a parsed response, normalized one by one: a station that
    carries a grouping ([connectionTypes], or [connectionsTypes] renamed)
    leaves with the flattened grouping as its [connectors], whatever
    [connectors] it came with; whereas the transformer takes a non-empty
    [connectors] that is present and ignores the grouping. *)
Theorem extractor_overrides_connectors :
  (forall lib sleeps net max_retries retry_delay k data l stations,
      (0 <= k <= max_retries)%Z ->
      (forall a, (0 <= a < k)%Z -> is_request_exception lib (net a) = true) ->
      ((0 < k)%Z -> sleeps retry_delay = true) ->
      net k = Body data ->
      stations_list data = Some l ->
      py_iter l = Some stations ->
      forallb well_formed_station stations = true ->
      exists processed,
        fst (extract_charging_stations lib sleeps net max_retries retry_delay)
        = Returned (Some processed)
        /\ Forall2
             (fun s s' =>
                normalize_station s = Some s'
                /\ forall d, s = PDict d -> has_grouping d = true ->
                     exists g d',
                       grouping_of d = PDict g
                       /\ s' = PDict d'
                       /\ dict_get "connectors" d' = Some (PList (flattened g)))
             stations processed)
  /\ (forall lib sleeps net max_retries retry_delay processed,
        fst (extract_charging_stations lib sleeps net max_retries retry_delay)
        = Returned (Some processed) ->
        exists attempt data l stations,
          net attempt = Body data
          /\ stations_list data = Some l
          /\ py_iter l = Some stations
          /\ Forall2
               (fun s s' =>
                  normalize_station s = Some s'
                  /\ forall d, s = PDict d -> has_grouping d = true ->
                       exists g d',
                         grouping_of d = PDict g
                         /\ s' = PDict d'
                         /\ dict_get "connectors" d'
                            = Some (PList (flattened g)))
               stations processed)
  /\ (forall station connectors,
        dict_get "connectors" station = Some connectors ->
        truthy connectors = true ->
        Transform.resolve_connectors station = Some connectors).
Proof.
  split; [|split].
  - intros lib sleeps net mr delay k data l stations Hk Hfail Hsl Hbody
      Hl Hit Hwf.
    rewrite (extract_body _ _ _ _ _ _ _ Hk Hfail Hsl Hbody). cbn [fst].
    unfold process. rewrite Hl, Hit. cbn [fst].
    destruct (process_loop_well_formed stations [] Hwf) as (ps & Eps & _).
    cbn [app] in Eps. exists ps. split; [now rewrite Eps|].
    apply normalized_connectors.
    destruct (process_loop _ _ _ Eps) as (ps' & Hps & Hall).
    cbn [app] in Hps. now subst ps'.
  - intros lib sleeps net mr delay processed H.
    destruct (attempts_loop_success _ _ _ _ _ _ _ H)
      as (attempt & data & Hn & Hp).
    unfold process in Hp.
    destruct (stations_list data) as [l|] eqn:Esl; [|discriminate].
    destruct (py_iter l) as [stations|] eqn:El; [|discriminate].
    simpl in Hp. destruct (process_loop _ _ _ Hp) as (ps & Hps & Hall).
    simpl in Hps; subst ps.
    exists attempt, data, l, stations. repeat split; try assumption.
    now apply normalized_connectors.
  - intros station connectors Hget Ht.
    unfold Transform.resolve_connectors, dict_mem, get.
    now rewrite Hget, Ht.
Qed.

(** A station that comes with a [connectors] list and with a grouping under
    the plural name. *)
Definition both_station : pydict :=
  [("id", PStr "S1");
   ("connectors", PList [PDict [("id", PStr "old")]]);
   ("connectionsTypes",
    PDict [("CCS", PList [PDict [("id", PStr "C1")]]);
           ("Type2", PList [PDict [("id", PStr "C2"); ("type", PStr "x")]])])].

(** An endpoint that times out once and then answers with that station. *)
Definition second_try : network :=
  fun attempt =>
    if (attempt <? 1)%Z then RequestFailed Timeout
    else Body (PDict [("chargingStations", PList [PDict both_station])]).

Lemma extractor_overrides_connectors_witness :
  (exists d',
      fst (extract_charging_stations true ExtractFacts.sleeps_when_non_negative
             second_try 3 5)
      = Returned (Some [PDict d'])
      /\ dict_get "connectors" d'
         = Some (PList [PDict [("id", PStr "C1"); ("type", PStr "CCS")];
                        PDict [("id", PStr "C2"); ("type", PStr "Type2")]]))
  /\ Transform.resolve_connectors both_station
     = Some (PList [PDict [("id", PStr "old")]]).
Proof.
  pose proof extractor_overrides_connectors as (Hex & _ & Htr).
  split.
  - assert (Hk : (0 <= 1 <= 3)%Z) by lia.
    assert (Hfail : forall a, (0 <= a < 1)%Z ->
                      is_request_exception true (second_try a) = true).
    { intros a Ha. unfold second_try.
      destruct (a <? 1)%Z eqn:E; [reflexivity|].
      apply Z.ltb_ge in E. lia. }
    destruct (Hex true ExtractFacts.sleeps_when_non_negative second_try
                3%Z 5%Z 1%Z _ _ _ Hk Hfail (fun _ => eq_refl)
                eq_refl eq_refl eq_refl eq_refl)
      as (processed & Hres & Hall).
    inversion Hall as [|s s' ss ps [Hs Hd] Hrest]; subst.
    inversion Hrest; subst.
    destruct (Hd _ eq_refl eq_refl) as (g & d' & Hg & -> & Hc).
    exists d'. split; [exact Hres|].
    rewrite Hc. inversion Hg; subst g. reflexivity.
  - exact (Htr both_station _ eq_refl eq_refl).
Defined.

End ConnectorFacts.

(** ** Removing duplicates *)


Section KeepLast.

Context {A : Type} (dup : A -> A -> bool).

Lemma keep_last_incl (l : list A) (x : A) :
  In x (Load.keep_last dup l) -> In x l.
Proof.
  induction l as [|r rest IH]; simpl; [tauto|].
  destruct (existsb (dup r) rest); simpl; tauto.
Qed.

(** The recursion of the source and the wording of the specification name
    the same rows. *)
Lemma keep_last_indexed (p l : list A) :
  map snd
    (filter
       (fun ir => negb (existsb (dup (snd ir)) (skipn (S (fst ir)) (p ++ l))))
       (combine (seq (List.length p) (List.length l)) l))
  = Load.keep_last dup l.
Proof.
  revert p; induction l as [|r rest IH]; intros p; [reflexivity|].
  cbn [List.length seq combine filter fst snd Load.keep_last].
  assert (Hskip : skipn (S (List.length p)) (p ++ r :: rest) = rest).
  { change (r :: rest) with ([r] ++ rest). rewrite app_assoc.
    replace (S (List.length p)) with (List.length (p ++ [r]))
      by (rewrite length_app; simpl; lia).
    now rewrite skipn_app, skipn_all, Nat.sub_diag. }
  rewrite Hskip.
  specialize (IH (p ++ [r])).
  rewrite <- app_assoc, length_app in IH; simpl in IH.
  rewrite Nat.add_1_r in IH.
  destruct (existsb (dup r) rest); simpl; now rewrite IH.
Qed.

Lemma keep_last_last_occurrences (l : list A) :
  Load.keep_last dup l = Load.last_occurrences dup l.
Proof.
  symmetry. exact (keep_last_indexed [] l).
Qed.

Lemma keep_last_app (l1 l2 : list A) :
  Load.keep_last dup (l1 ++ l2)
  = filter (fun a => negb (existsb (dup a) l2)) (Load.keep_last dup l1)
    ++ Load.keep_last dup l2.
Proof.
  induction l1 as [|r rest IH]; [reflexivity|].
  simpl. rewrite existsb_app.
  destruct (existsb (dup r) rest); simpl; [exact IH|].
  destruct (existsb (dup r) l2); simpl; now rewrite IH.
Qed.


Hypothesis dup_refl : forall a, dup a a = true.
Hypothesis dup_trans :
  forall a b c, dup a b = true -> dup b c = true -> dup a c = true.




Lemma filter_none (f : A -> bool) (l : list A) :
  (forall x, In x l -> f x = false) -> filter f l = [].
Proof.
  induction l as [|x l IH]; intros H; [reflexivity|].
  simpl. rewrite (H x (or_introl eq_refl)). apply IH. intros; apply H; now right.
Qed.


End KeepLast.

(** ** The persister *)

Module LoadFacts.
Import Py Load.

Section Merge.

Variable cell : Type.
Variable nan : cell.
Variable same : cell -> cell -> bool.
Variable csv : Type.
Variable to_csv : DataFrame cell -> csv.
Variable parse_csv : csv -> option (DataFrame cell).

Local Abbreviation DataFrame := (DataFrame cell).
Local Abbreviation file := (file csv).
Local Abbreviation concat := (concat cell nan).
Local Abbreviation reindex := (reindex cell nan).
Local Abbreviation cell_at := (cell_at cell nan).
Local Abbreviation share_key := (share_key cell nan same).
Local Abbreviation drop_duplicates := (drop_duplicates cell nan same).
Local Abbreviation read_csv := (read_csv cell csv parse_csv).
Local Abbreviation save_to_csv :=
  (save_to_csv cell nan same csv to_csv parse_csv).

(** The rows of [incoming] as they stand in the frame combined with
    [existing]. *)
Definition incoming_rows (existing incoming : DataFrame) : list (list cell) :=
  map (reindex (columns incoming) (columns (concat existing incoming)))
    (rows incoming).

Lemma same_key_refl :
  (forall a, same a a = true) ->
  forall k, same_key cell same k k = true.
Proof.
  intros Hr; induction k as [|a k IH]; simpl; [reflexivity|].
  now rewrite Hr, IH.
Qed.

Lemma same_key_trans :
  (forall a b c, same a b = true -> same b c = true -> same a c = true) ->
  forall k1 k2 k3,
    same_key cell same k1 k2 = true -> same_key cell same k2 k3 = true ->
    same_key cell same k1 k3 = true.
Proof.
  intros Ht; induction k1 as [|a k1 IH]; intros [|b k2] [|c k3];
    simpl; try discriminate; try reflexivity.
  intros H1 H2. apply andb_true_iff in H1, H2.
  destruct H1 as [Hab H1], H2 as [Hbc H2].
  apply andb_true_iff. split; [eapply Ht; eauto | eapply IH; eauto].
Qed.


(** *** The paths of [save_to_csv] *)

Lemma save_verbatim (filename : string) (append : bool) (f : file)
  (incoming : DataFrame) :
  empty incoming = false ->
  append = false \/ read_csv f = None ->
  save_to_csv (Some incoming) filename append f
  = (Stored (to_csv incoming), true).
Proof.
  intros He H. unfold Load.save_to_csv. rewrite He.
  destruct H as [-> | Hr]; [reflexivity|].
  rewrite Hr. now destruct (append && exists_ f).
Qed.

Lemma save_merged (filename : string) (f : file)
  (existing incoming : DataFrame) (subset : list string) :
  empty incoming = false ->
  read_csv f = Some existing ->
  dedup_subset filename (columns (concat existing incoming)) = Some subset ->
  save_to_csv (Some incoming) filename true f
  = (Stored (to_csv (drop_duplicates subset (concat existing incoming))),
     true).
Proof.
  intros He Hr Hk. unfold Load.save_to_csv. rewrite He, Hr.
  destruct f as [|text]; [discriminate Hr|]. cbn [andb exists_].
  now rewrite Hk.
Qed.

(** C2, amended: a call with a non-empty incoming rowset writes it verbatim
    when there is no prior file or [append] is false; with [append] set, a
    prior file that [read_csv] reads as the table [existing] and a key
    chosen for the file, the frame written is the concatenation
    existing-then-incoming with the last occurrence of every key kept, so
    that a row whose key occurs in the incoming rowset is an incoming
    row. *)
Theorem save_to_csv_merge (filename : string) (append : bool) (f : file)
  (incoming : DataFrame) :
  empty incoming = false ->
  (append = false \/ f = Missing ->
   save_to_csv (Some incoming) filename append f
   = (Stored (to_csv incoming), true))
  /\ (forall existing subset,
        append = true -> read_csv f = Some existing ->
        dedup_subset filename (columns (concat existing incoming))
        = Some subset ->
        let combined := concat existing incoming in
        let table :=
          {| columns := columns combined;
             rows := last_occurrences (share_key (columns combined) subset)
                       (rows combined) |} in
        save_to_csv (Some incoming) filename append f
        = (Stored (to_csv table), true)
        /\ forall r,
             In r (rows table) ->
             existsb (share_key (columns combined) subset r)
               (incoming_rows existing incoming) = true ->
             In r (incoming_rows existing incoming)).
Proof.
  intros He. split.
  - intros H. apply save_verbatim; [exact He|].
    destruct H as [H | ->]; [now left | now right].
  - intros existing subset -> Hr Hk. cbv zeta.
    rewrite <- keep_last_last_occurrences.
    split; [exact (save_merged _ _ _ _ subset He Hr Hk)|].
    cbn [rows]. intros r Hin Hex.
    unfold Load.concat in Hin at 2; cbn [rows] in Hin.
    rewrite keep_last_app in Hin. apply in_app_or in Hin.
    destruct Hin as [Hin | Hin].
    + apply filter_In in Hin. destruct Hin as [_ Hin].
      unfold incoming_rows in Hex. unfold Load.concat in Hex at 2.
      cbn [columns] in Hex, Hin. rewrite Hex in Hin. discriminate.
    + apply keep_last_incl in Hin. exact Hin.
Qed.


(** *** Saving twice *)

Lemma str_in_In (c : string) (l : list string) :
  str_in c l = true <-> In c l.
Proof.
  unfold str_in. rewrite existsb_exists. split.
  - intros (x & Hx & E). apply String.eqb_eq in E. now subst.
  - intros H. exists c. split; [exact H | apply String.eqb_refl].
Qed.



(** Reading a row under its own labels gives the row back. *)
Lemma reindex_same (cols : list string) (r : list cell) :
  NoDup cols -> List.length r = List.length cols -> reindex cols cols r = r.
Proof.
  unfold Load.reindex.
  revert r; induction cols as [|k cols IH]; intros [|v r] Hn Hl;
    simpl in Hl; try discriminate; [reflexivity|].
  inversion Hn as [|? ? Hk Hn']; subst.
  cbn [map Load.cell_at]. rewrite String.eqb_refl. f_equal.
  transitivity (map (cell_at cols r) cols); [|apply IH; [exact Hn' | lia]].
  apply map_ext_in. intros c Hc. cbn [Load.cell_at].
  destruct (String.eqb c k) eqn:E; [|reflexivity].
  apply String.eqb_eq in E; subst c. contradiction.
Qed.


Lemma map_fixed {X : Type} (f : X -> X) (l : list X) :
  Forall (fun x => f x = x) l -> map f l = l.
Proof.
  induction 1 as [|x l Hx _ IH]; simpl; [reflexivity|]. now rewrite Hx, IH.
Qed.



End Merge.

End LoadFacts.

(** ** The persister on tables of scalars *)

Module LoadExamples.
Import Py Load.

Lemma scalar_same_refl (a : scalar) : scalar_same a a = true.
Proof.
  destruct a; simpl; [reflexivity | apply Z.eqb_refl | apply String.eqb_refl].
Qed.

Lemma scalar_same_eq (a b : scalar) : scalar_same a b = true -> a = b.
Proof.
  destruct a, b; simpl; try discriminate; intros H.
  - reflexivity.
  - apply Z.eqb_eq in H. now subst.
  - apply String.eqb_eq in H. now subst.
Qed.


Lemma scalar_same_trans (a b c : scalar) :
  scalar_same a b = true -> scalar_same b c = true -> scalar_same a c = true.
Proof.
  intros H1 H2. apply scalar_same_eq in H1; subst b. exact H2.
Qed.

(** The persister on tables of scalars kept in CSV texts. *)
Definition save :=
  save_to_csv scalar Na scalar_same (DataFrame string) scalar_to_csv
    scalar_parse_csv.

(** The file [to_csv] leaves for a table. *)
Definition written (df : DataFrame scalar) : file (DataFrame string) :=
  Stored (scalar_to_csv df).

Definition station_columns : list string := ["id"; "status"].

(** The tables of the specification's scenario. *)
Definition existing_table : DataFrame scalar :=
  {| columns := station_columns;
     rows := [[Num 1; Text "Available"]] |}.

Definition incoming_table : DataFrame scalar :=
  {| columns := station_columns;
     rows := [[Num 1; Text "Occupied"]; [Num 2; Text "Available"]] |}.

Lemma save_to_csv_merge_witness :
  read_csv scalar (DataFrame string) scalar_parse_csv (written existing_table)
  = Some existing_table
  /\ save (Some incoming_table) "charging_stations.csv" true
       (written existing_table)
     = (written
          {| columns := station_columns;
             rows := [[Num 1; Text "Occupied"]; [Num 2; Text "Available"]] |},
        true).
Proof.
  split; [reflexivity|].
  exact (proj1
           (proj2
              (LoadFacts.save_to_csv_merge scalar Na scalar_same
                 (DataFrame string) scalar_to_csv scalar_parse_csv
                 "charging_stations.csv" true (written existing_table)
                 incoming_table eq_refl)
              existing_table ["id"] eq_refl eq_refl eq_refl)).
Defined.

(** A rowset with one new station. *)
Definition new_station : DataFrame scalar :=
  {| columns := station_columns;
     rows := [[Num 2; Text "Available"]] |}.

(** C2, as stated, fails: with [append] left at its default, a prior table
    is replaced by the incoming rowset, not merged with it. *)
Lemma default_save_overwrites :
  save (Some new_station) "charging_stations.csv" false
    (written existing_table)
  = (written new_station, true)
  /\ rows (drop_duplicates scalar Na scalar_same ["id"]
             (concat scalar Na existing_table new_station))
     = [[Num 1; Text "Available"]; [Num 2; Text "Available"]]
  /\ rows new_station <> [[Num 1; Text "Available"]; [Num 2; Text "Available"]].
Proof.
  split; [reflexivity|]. split; [reflexivity|]. discriminate.
Qed.








(** The columns of an hourly frame. *)
Definition hourly_columns : list string :=
  ["hourly_timestamp"; "station_id"; "is_available"; "is_occupied";
   "is_out_of_order"; "total_connectors"; "occupancy_rate";
   "availability_rate"].

(** The name configured for the hourly table contains "utilization": the
    chain of tests stops there, finds no [timestamp] column, and no key is
    chosen. *)
Remark hourly_file_selects_no_key :
  dedup_subset "hourly_utilization.csv" hourly_columns = None
  /\ dedup_subset "hourly.csv" hourly_columns
     = Some ["hourly_timestamp"; "station_id"].
Proof.
  split; reflexivity.
Qed.

End LoadExamples.

(** ** The validator's flag *)

Module ValidationFacts.
Import Py Validation.

Definition stations_required : list string :=
  ["id"; "name"; "status"; "latitude"; "longitude"; "total_connectors"].

Definition utilization_required : list string :=
  ["timestamp"; "station_id"; "connector_id"; "status";
   "is_occupied"; "is_available"; "is_out_of_order"].

Definition hourly_required : list string :=
  ["hourly_timestamp"; "station_id"; "is_available"; "is_occupied";
   "is_out_of_order"; "total_connectors"; "occupancy_rate"].

(** The stations rowset is there, has rows, and has every required
    column. *)
Definition stations_pass (stations_df : option stations_view) : bool :=
  match stations_df with
  | None => false
  | Some df =>
      negb (is_empty (s_len df) (s_columns df))
      && negb (nonempty (missing_from stations_required (s_columns df)))
  end.

(** The same for the utilization rowset, whose [timestamp] column must also
    be, or convert to, a datetime column. *)
Definition utilization_pass (utilization_df : option utilization_view)
  : bool :=
  match utilization_df with
  | None => false
  | Some df =>
      negb (is_empty (u_len df) (u_columns df))
      && negb (nonempty (missing_from utilization_required (u_columns df)))
      && (u_timestamp_is_datetime df || u_timestamp_converts df)
  end.

(** The hourly rowset is optional; one that is given must have rows, every
    required column, and an [hourly_timestamp] column of datetimes. *)
Definition hourly_pass (hourly_df : option hourly_view) : bool :=
  match hourly_df with
  | None => true
  | Some df =>
      negb (is_empty (h_len df) (h_columns df))
      && negb (nonempty (missing_from hourly_required (h_columns df)))
      && (h_hourly_is_datetime df || h_hourly_converts df)
  end.

(** No cross-dataset check reports an issue. *)
Definition cross_pass (stations_df : option stations_view)
  (utilization_df : option utilization_view) (hourly_df : option hourly_view)
  : bool :=
  match cross_validation stations_df utilization_df hourly_df with
  | Some [] => true
  | _ => false
  end.

Definition advisory (issue : string) : bool :=
  negb (startswith issue "Missing required columns").

Lemma overall_advisory (issues : list string) :
  overall issues = forallb advisory issues.
Proof.
  unfold overall. destruct issues; reflexivity.
Qed.

Lemma forallb_flat_map {A B : Type} (P : B -> bool) (f : A -> list B)
  (l : list A) :
  (forall x, forallb P (f x) = true) -> forallb P (flat_map f l) = true.
Proof.
  intros H; induction l as [|x l IH]; [reflexivity|].
  simpl. rewrite forallb_app, H, IH. reflexivity.
Qed.

(** Whatever the conditions of a check and whatever its reads return, the
    issues it adds do not begin with "Missing required columns". *)
Ltac advisory_block :=
  repeat match goal with
         | |- context [if ?c then _ else _] => destruct c
         end;
  reflexivity.

Ltac advisory_reads H :=
  repeat match type of H with
         | context [if ?c then _ else _] => destruct c
         | context [match ?o with Some _ => _ | None => _ end] =>
             destruct o
         end;
  try discriminate H; inversion H; subst; reflexivity.

Lemma unexpected_issue_advisory (values : list pyval)
  (expected l : list string) :
  unexpected_issue values expected = Some l -> forallb advisory l = true.
Proof.
  unfold unexpected_issue. intros H. advisory_reads H.
Qed.

Lemma fst_of {A B : Type} (x r : A * B) : Some x = Some r -> fst r = fst x.
Proof. intros H; now inversion H. Qed.

Section Flag.

Variable fmt_pct : nat -> nat -> string.

Lemma missing_issue_advisory (required columns : list string) :
  forallb advisory
    (if nonempty (missing_from required columns)
     then [fmt ["Missing required columns: ";
                join ", " (missing_from required columns)]]
     else [])
  = negb (nonempty (missing_from required columns)).
Proof.
  destruct (nonempty (missing_from required columns)); reflexivity.
Qed.

Lemma duplicate_id_advisory (df : stations_view) (l : list string) :
  duplicate_id_issues df = Some l -> forallb advisory l = true.
Proof. unfold duplicate_id_issues. intros H. advisory_reads H. Qed.

Lemma completeness_advisory (df : stations_view) :
  forallb advisory (completeness_issues fmt_pct df) = true.
Proof.
  unfold completeness_issues. apply forallb_flat_map. intros col.
  advisory_block.
Qed.

Lemma coordinate_advisory (df : stations_view) (l : list string) :
  coordinate_issues df = Some l -> forallb advisory l = true.
Proof. unfold coordinate_issues. intros H. advisory_reads H. Qed.

Lemma station_status_advisory (df : stations_view) (l : list string) :
  station_status_issues df = Some l -> forallb advisory l = true.
Proof.
  unfold station_status_issues.
  destruct (str_in "status" (s_columns df));
    [|intros H; inversion H; reflexivity].
  destruct (s_statuses df); [|discriminate].
  apply unexpected_issue_advisory.
Qed.

Lemma connector_advisory (df : stations_view) (l : list string) :
  connector_issues fmt_pct df = Some l -> forallb advisory l = true.
Proof. unfold connector_issues. intros H. advisory_reads H. Qed.

Lemma duplicate_record_advisory (df : utilization_view) (l : list string) :
  duplicate_record_issues df = Some l -> forallb advisory l = true.
Proof. unfold duplicate_record_issues. intros H. advisory_reads H. Qed.

Lemma connector_status_advisory (df : utilization_view) (l : list string) :
  connector_status_issues df = Some l -> forallb advisory l = true.
Proof.
  unfold connector_status_issues.
  destruct (str_in "status" (u_columns df));
    [|intros H; inversion H; reflexivity].
  destruct (u_statuses df) as [statuses|]; [|discriminate].
  destruct (unexpected_issue statuses _) as [rest|] eqn:E; [|discriminate].
  intros H; inversion H; subst l. rewrite forallb_app.
  rewrite (unexpected_issue_advisory _ _ _ E), andb_true_r.
  now destruct (existsb _ statuses).
Qed.

Lemma flag_advisory (df : utilization_view) :
  forallb advisory (flag_issues df) = true.
Proof. unfold flag_issues. advisory_block. Qed.

Lemma coverage_advisory (df : utilization_view) (expect_full_period : bool)
  (l : list string) :
  coverage_issues df expect_full_period = Some l -> forallb advisory l = true.
Proof. unfold coverage_issues. intros H. advisory_reads H. Qed.

Lemma duplicate_hour_advisory (df : hourly_view) (l : list string) :
  duplicate_hour_issues df = Some l -> forallb advisory l = true.
Proof. unfold duplicate_hour_issues. intros H. advisory_reads H. Qed.

Lemma rate_advisory (df : hourly_view) (l : list string) :
  rate_issues df = Some l -> forallb advisory l = true.
Proof. unfold rate_issues. intros H. advisory_reads H. Qed.

Lemma status_sum_advisory (df : hourly_view) (l : list string) :
  status_sum_issues fmt_pct df = Some l -> forallb advisory l = true.
Proof. unfold status_sum_issues. intros H. advisory_reads H. Qed.

Lemma stations_flag (stations_df : option stations_view)
  (r : bool * list string) :
  validate_stations_data fmt_pct stations_df = Some r ->
  fst r = stations_pass stations_df.
Proof.
  destruct stations_df as [df|]; [|intros H; apply fst_of in H; now rewrite H].
  unfold validate_stations_data, stations_pass.
  destruct (is_empty (s_len df) (s_columns df)); [intros H; apply fst_of in H; now rewrite H|].
  fold stations_required. cbv zeta.
  destruct (duplicate_id_issues df) as [b1|] eqn:E1.
  2: { destruct (nonempty (missing_from stations_required (s_columns df)));
       [destruct (nonempty (filter _ ["id"; "status"]))|]; cbn [andb];
       try discriminate; intros H; apply fst_of in H; now rewrite H. }
  destruct (coordinate_issues df) as [b2|] eqn:E2.
  2: { destruct (nonempty (missing_from stations_required (s_columns df)));
       [destruct (nonempty (filter _ ["id"; "status"]))|]; cbn [andb];
       try discriminate; intros H; apply fst_of in H; now rewrite H. }
  destruct (station_status_issues df) as [b3|] eqn:E3.
  2: { destruct (nonempty (missing_from stations_required (s_columns df)));
       [destruct (nonempty (filter _ ["id"; "status"]))|]; cbn [andb];
       try discriminate; intros H; apply fst_of in H; now rewrite H. }
  destruct (connector_issues fmt_pct df) as [b4|] eqn:E4.
  2: { destruct (nonempty (missing_from stations_required (s_columns df)));
       [destruct (nonempty (filter _ ["id"; "status"]))|]; cbn [andb];
       try discriminate; intros H; apply fst_of in H; now rewrite H. }
  pose proof (missing_issue_advisory stations_required (s_columns df)) as Hm.
  destruct (nonempty (missing_from stations_required (s_columns df))) eqn:Em.
  - destruct (nonempty (filter _ ["id"; "status"])); cbn [andb];
      (intros H; apply fst_of in H; rewrite H; clear H); [reflexivity|].
    cbn [fst negb]. rewrite overall_advisory, forallb_app, Hm. reflexivity.
  - cbn [andb]. intros H; apply fst_of in H; rewrite H; clear H. cbn [fst negb].
    rewrite overall_advisory, !forallb_app, Hm.
    rewrite (duplicate_id_advisory _ _ E1), completeness_advisory,
      (coordinate_advisory _ _ E2), (station_status_advisory _ _ E3),
      (connector_advisory _ _ E4).
    reflexivity.
Qed.

Lemma utilization_flag (utilization_df : option utilization_view)
  (expect_full_period : bool) (r : bool * list string) :
  validate_utilization_data utilization_df expect_full_period = Some r ->
  fst r = utilization_pass utilization_df.
Proof.
  destruct utilization_df as [df|]; [|intros H; apply fst_of in H; now rewrite H].
  unfold validate_utilization_data, utilization_pass.
  destruct (is_empty (u_len df) (u_columns df)); [intros H; apply fst_of in H; now rewrite H|].
  fold utilization_required. cbv zeta.
  pose proof (missing_issue_advisory utilization_required (u_columns df))
    as Hm.
  destruct (nonempty (missing_from utilization_required (u_columns df)))
    eqn:Em.
  - destruct (nonempty (filter _ ["timestamp"; "station_id"; "connector_id";
                                  "status"])); cbn [andb negb];
      [intros H; apply fst_of in H; now rewrite H|].
    destruct (str_in "timestamp" (u_columns df)
              && negb (u_timestamp_is_datetime df)
              && negb (u_timestamp_converts df));
      [intros H; apply fst_of in H; now rewrite H|].
    destruct (duplicate_record_issues df); [|discriminate].
    destruct (connector_status_issues df); [|discriminate].
    destruct (coverage_issues df expect_full_period); [|discriminate].
    destruct (station_coverage _ _); [|discriminate].
    intros H; apply fst_of in H; rewrite H; clear H. cbn [fst].
    rewrite overall_advisory, forallb_app, Hm. reflexivity.
  - cbn [andb negb].
    assert (Hts : str_in "timestamp" (u_columns df) = true).
    { unfold missing_from, utilization_required in Em. cbn [filter] in Em.
      destruct (str_in "timestamp" (u_columns df)); [reflexivity|].
      discriminate Em. }
    rewrite Hts. cbn [andb].
    destruct (u_timestamp_is_datetime df), (u_timestamp_converts df);
      cbn [negb andb orb]; try (intros H; apply fst_of in H; now rewrite H);
      (destruct (duplicate_record_issues df) as [b1|] eqn:E1; [|discriminate]);
      (destruct (connector_status_issues df) as [b2|] eqn:E2; [|discriminate]);
      (destruct (coverage_issues df expect_full_period) as [b3|] eqn:E3;
       [|discriminate]);
      (destruct (station_coverage _ _); [|discriminate]);
      intros H; apply fst_of in H; rewrite H; clear H; cbn [fst];
      rewrite overall_advisory, !forallb_app, Hm;
      rewrite (duplicate_record_advisory _ _ E1),
        (connector_status_advisory _ _ E2), flag_advisory,
        (coverage_advisory _ _ _ E3);
      cbn [negb andb]; rewrite ?andb_true_r;
      now destruct (str_in "hourly_timestamp" (u_columns df)
                    && negb (u_hourly_is_datetime df)
                    && negb (u_hourly_converts df)).
Qed.

Lemma hourly_flag (hourly_df : option hourly_view) (r : bool * list string) :
  validate_hourly_data fmt_pct hourly_df = Some r ->
  fst r
  = match hourly_df with None => false | Some _ => hourly_pass hourly_df end.
Proof.
  destruct hourly_df as [df|]; [|intros H; apply fst_of in H; now rewrite H].
  unfold validate_hourly_data, hourly_pass.
  destruct (is_empty (h_len df) (h_columns df)); [intros H; apply fst_of in H; now rewrite H|].
  fold hourly_required. cbv zeta.
  pose proof (missing_issue_advisory hourly_required (h_columns df)) as Hm.
  destruct (nonempty (missing_from hourly_required (h_columns df))) eqn:Em.
  - cbn [andb negb].
    destruct (str_in "hourly_timestamp" (h_columns df)
              && negb (h_hourly_is_datetime df)
              && negb (h_hourly_converts df));
      [intros H; apply fst_of in H; now rewrite H|].
    destruct (duplicate_hour_issues df); [|discriminate].
    destruct (rate_issues df); [|discriminate].
    destruct (status_sum_issues fmt_pct df); [|discriminate].
    destruct (station_coverage _ _); [|discriminate].
    intros H; apply fst_of in H; rewrite H; clear H. cbn [fst].
    rewrite overall_advisory, forallb_app, Hm. reflexivity.
  - cbn [andb negb].
    assert (Hts : str_in "hourly_timestamp" (h_columns df) = true).
    { unfold missing_from, hourly_required in Em. cbn [filter] in Em.
      destruct (str_in "hourly_timestamp" (h_columns df)); [reflexivity|].
      discriminate Em. }
    rewrite Hts. cbn [andb].
    destruct (h_hourly_is_datetime df), (h_hourly_converts df);
      cbn [negb andb orb]; try (intros H; apply fst_of in H; now rewrite H);
      (destruct (duplicate_hour_issues df) as [b1|] eqn:E1; [|discriminate]);
      (destruct (rate_issues df) as [b2|] eqn:E2; [|discriminate]);
      (destruct (status_sum_issues fmt_pct df) as [b3|] eqn:E3;
       [|discriminate]);
      (destruct (station_coverage _ _); [|discriminate]);
      intros H; apply fst_of in H; rewrite H; clear H; cbn [fst];
      rewrite overall_advisory, !forallb_app, Hm;
      rewrite (duplicate_hour_advisory _ _ E1), (rate_advisory _ _ E2),
        (status_sum_advisory _ _ E3);
      reflexivity.
Qed.

(** C8, amended: the flag of [validate_etl_pipeline] is the conjunction of
    four conditions: each rowset given has rows and all of its required
    columns, critical or not; the timestamp columns are or become datetime
    columns; and no cross-dataset check reports an issue.  The counts of
    duplicate keys, of coordinates out of range, of unexpected statuses, of
    flags that disagree with the status, of connector-sum mismatches and of
    rates out of bounds do not occur in it. *)
Theorem passed_flag (stations_df : option stations_view)
  (utilization_df : option utilization_view) (hourly_df : option hourly_view)
  (passed : bool) (issues : list string) :
  validate_etl_pipeline fmt_pct stations_df utilization_df hourly_df
  = Some (passed, issues) ->
  passed = stations_pass stations_df
           && utilization_pass utilization_df
           && hourly_pass hourly_df
           && cross_pass stations_df utilization_df hourly_df.
Proof.
  unfold validate_etl_pipeline, cross_pass.
  destruct (validate_stations_data fmt_pct stations_df) as [sr|] eqn:Es;
    [|discriminate].
  destruct (validate_utilization_data utilization_df false) as [ur|] eqn:Eu;
    [|discriminate].
  apply stations_flag in Es. apply utilization_flag in Eu.
  destruct hourly_df as [h|].
  - destruct (validate_hourly_data fmt_pct (Some h)) as [hr|] eqn:Eh;
      [|discriminate].
    apply hourly_flag in Eh. cbn [fst snd].
    destruct (cross_validation stations_df utilization_df (Some h))
      as [cross|]; [|discriminate].
    intros H. inversion H as [[Hp Hi]]. rewrite Eh, Es, Eu. clear.
    destruct cross; cbn [List.length Nat.eqb andb];
      destruct (stations_pass stations_df), (utilization_pass utilization_df),
        (hourly_pass (Some h)); reflexivity.
  - cbn [fst snd].
    destruct (cross_validation stations_df utilization_df None)
      as [cross|]; [|discriminate].
    intros H. inversion H as [[Hp Hi]]. rewrite Es, Eu. clear.
    destruct cross; cbn [List.length Nat.eqb andb hourly_pass];
      destruct (stations_pass stations_df), (utilization_pass utilization_df);
      reflexivity.
Qed.

End Flag.

End ValidationFacts.

(** ** The validator on concrete rowsets *)

Module ValidationExamples.
Import Py Validation.

(** A rendering of [(a / b) * 100] with one decimal. *)
Definition one_decimal (a b : nat) : string :=
  let tenths := (1000 * a + b / 2) / b in
  fmt [str_nat (tenths / 10); "."; str_nat (tenths mod 10)].

Definition station_columns : list string :=
  ["id"; "name"; "operator"; "status"; "address"; "description"; "latitude";
   "longitude"; "total_connectors"; "ccs_connectors"; "chademo_connectors";
   "type2_connectors"; "other_connectors"; "amenities"].

Definition utilization_columns : list string :=
  ["timestamp"; "hourly_timestamp"; "station_id"; "connector_id";
   "connector_type"; "power"; "status"; "is_occupied"; "is_available";
   "is_out_of_order"; "tariff"].

(** One station, S1, with nothing to report. *)
Definition one_station : stations_view :=
  {| s_len := 1;
     s_columns := station_columns;
     s_duplicate_ids := Some [];
     s_missing := fun _ => 0;
     s_invalid_lat := Some 0;
     s_invalid_lon := Some 0;
     s_missing_coords := 0;
     s_statuses := Some [PStr "Available"];
     s_connector_counts := true;
     s_mismatch_count := Some 0;
     s_ids := Some ["S1"] |}.

(** Three station rows with a repeated id, a latitude out of range and a
    status outside the vocabulary. *)
Definition untidy_stations : stations_view :=
  {| s_len := 3;
     s_columns := station_columns;
     s_duplicate_ids := Some ["S1"];
     s_missing := fun _ => 0;
     s_invalid_lat := Some 1;
     s_invalid_lon := Some 0;
     s_missing_coords := 0;
     s_statuses := Some [PStr "Available"; PStr "Unknown"];
     s_connector_counts := true;
     s_mismatch_count := Some 2;
     s_ids := Some ["S1"; "S2"] |}.

Definition utilization_of (station_ids : list string) (duplicates : nat)
  (flag_mismatches : nat) : utilization_view :=
  {| u_len := 2;
     u_columns := utilization_columns;
     u_timestamp_is_datetime := false;
     u_timestamp_converts := true;
     u_hourly_is_datetime := false;
     u_hourly_converts := true;
     u_error := "";
     u_duplicate_records := Some duplicates;
     u_statuses := Some [PStr "Available"; PStr "Occupied"];
     u_occupied_mismatch_count := flag_mismatches;
     u_available_mismatch_count := 0;
     u_oof_mismatch_count := 0;
     u_missing_hours := Some [];
     u_station_ids := Some station_ids;
     u_hourly_timestamps := ["2024-05-17 12:00:00"] |}.

(** One station row whose frame has no [name] column. *)
Definition nameless_station : stations_view :=
  {| s_len := 1;
     s_columns := ["id"; "status"; "latitude"; "longitude"; "total_connectors"];
     s_duplicate_ids := Some [];
     s_missing := fun _ => 0;
     s_invalid_lat := Some 0;
     s_invalid_lon := Some 0;
     s_missing_coords := 0;
     s_statuses := Some [PStr "Available"];
     s_connector_counts := true;
     s_mismatch_count := Some 0;
     s_ids := Some ["S1"] |}.

(** C8, as stated, fails: with every critical column present, the flag is
    [False] when the utilization rowset refers to a station that the
    stations rowset does not have, and also when the non-critical column
    [name] is absent. *)
Lemma advisory_rules_fail_validation :
  missing_from ["id"; "status"] (s_columns one_station) = []
  /\ missing_from ["id"; "status"] (s_columns nameless_station) = []
  /\ missing_from ["timestamp"; "station_id"; "connector_id"; "status"]
       utilization_columns = []
  /\ validate_etl_pipeline one_decimal (Some one_station)
       (Some (utilization_of ["S2"] 0 0)) None
     = Some (false,
             ["Cross-validation issue: Found 1 station IDs in utilization data not present in stations data"])
  /\ validate_etl_pipeline one_decimal (Some nameless_station)
       (Some (utilization_of ["S1"] 0 0)) None
     = Some (false, ["Stations data issue: Missing required columns: name"]).
Proof.
  repeat split; reflexivity.
Qed.

Lemma passed_flag_witness :
  validate_etl_pipeline one_decimal (Some untidy_stations)
    (Some (utilization_of ["S1"; "S2"] 4 1)) None
  = Some (true,
          ["Stations data issue: Found 1 duplicate station IDs";
           "Stations data issue: Example duplicate IDs: S1";
           "Stations data issue: Found 1 stations with invalid latitude values";
           "Stations data issue: Found unexpected status values: Unknown";
           "Stations data issue: Found 2 stations (66.7%) where total_connectors doesn't match sum of specific types. This is expected if there are connectors without specific types assigned.";
           "Utilization data issue: Found 4 duplicate utilization records";
           "Utilization data issue: Found 1 records where is_occupied flag doesn't match status"])
  /\ true
     = ValidationFacts.stations_pass (Some untidy_stations)
       && ValidationFacts.utilization_pass
            (Some (utilization_of ["S1"; "S2"] 4 1))
       && ValidationFacts.hourly_pass None
       && ValidationFacts.cross_pass (Some untidy_stations)
            (Some (utilization_of ["S1"; "S2"] 4 1)) None.
Proof.
  split; [reflexivity|].
  exact (ValidationFacts.passed_flag one_decimal (Some untidy_stations)
           (Some (utilization_of ["S1"; "S2"] 4 1)) None true _ eq_refl).
Defined.

End ValidationExamples.

(** * Further properties of the code *)

(** ** Station rows *)

Module StationProperties.
Import Py Transform.

(** What a station record holds, in terms of the state after the loop. *)
Lemma station_record_fields (station : pydict) (r : Station.t) :
  station_record station = Some r ->
  exists st,
    connector_stats station = Some st
    /\ Station.status r
       = derive_status station (total_connectors st) (available_connectors st)
    /\ Station.total_connectors r = total_connectors st
    /\ Station.id r = get "id" station
    /\ Station.ccs_connectors r
       = count_get "CCS"
           (count_add "Type2" (count_get "AC Type 2" (connector_counts st))
              (connector_counts st))
    /\ Station.chademo_connectors r
       = count_get "CHAdeMO"
           (count_add "Type2" (count_get "AC Type 2" (connector_counts st))
              (connector_counts st))
    /\ Station.other_connectors r
       = count_get "Other"
           (count_add "Type2" (count_get "AC Type 2" (connector_counts st))
              (connector_counts st)).
Proof.
  unfold station_record; intros H.
  destruct (connector_stats station) as [st|]; [|discriminate].
  exists st; split; [reflexivity|].
  destruct (if truthy (get_default "location" (PDict []) station)
            then _ else _) as [coords|]; [|discriminate].
  destruct (if truthy (get "amenities" station) then _ else _) as [am|];
    [|discriminate].
  inversion H. repeat split; reflexivity.
Qed.

Lemma truthy_not_zero (v : pyval) : truthy v = true -> num_eq0 v = false.
Proof.
  destruct v as [|b|z|f|s|l|d]; simpl; try reflexivity; try discriminate.
  - now intros ->.
  - now intros H; apply negb_true_iff in H.
  - now intros H; apply negb_true_iff in H.
Qed.

Lemma py_len_truthy (v : pyval) (n : nat) :
  truthy v = true -> py_len v = Some n -> 0 < n.
Proof.
  destruct v as [| | | |s|l|d]; simpl; try discriminate;
    intros Ht H; inversion H; subst n.
  - destruct s; [discriminate | simpl; lia].
  - destruct l; [discriminate | simpl; lia].
  - destruct d; [discriminate | simpl; lia].
Qed.

Lemma py_iter_cons_truthy (v c : pyval) (cs : list pyval) :
  py_iter v = Some (c :: cs) -> truthy v = true.
Proof.
  destruct v as [| | | |s|l|d]; simpl; try discriminate; intros H.
  - destruct s; [discriminate | reflexivity].
  - destruct l; [discriminate | reflexivity].
  - destruct d; [discriminate | reflexivity].
Qed.

(** After an iteration over a non-empty list of connectors,
    [total_connectors] is not zero: a zero or missing upstream total has
    been replaced by the number of connectors. *)
Lemma count_body_total (connectors_list : pyval) (st st' : loop_state)
  (connector : pyval) :
  truthy connectors_list = true ->
  count_body connectors_list st connector = Some st' ->
  num_eq0 (total_connectors st') = false.
Proof.
  intros Ht H. unfold count_body in H.
  destruct connector as [| | | | |?|c]; try discriminate.
  destruct (match get "type" c with
            | PStr t => _ | PList _ | PDict _ => None | _ => _ end)
    as [counts'|]; [|discriminate].
  destruct (match get_default "status" (PStr "") c with
            | PStr s => _ | _ => None end) as [status|]; [|discriminate].
  destruct (truthy (total_connectors st)) eqn:Etot.
  - inversion H; subst st'; simpl. now apply truthy_not_zero.
  - rewrite Ht in H.
    destruct (py_len connectors_list) as [n|] eqn:En; [|discriminate].
    inversion H; subst st'; simpl.
    pose proof (py_len_truthy _ _ Ht En). apply Z.eqb_neq. lia.
Qed.

Lemma count_body_available (connectors_list : pyval) (st st' : loop_state)
  (connector : pyval) :
  count_body connectors_list st connector = Some st' ->
  available_connectors st <= available_connectors st'.
Proof.
  intros H. unfold count_body in H.
  destruct connector as [| | | | |?|c]; try discriminate.
  destruct (match get "type" c with
            | PStr t => _ | PList _ | PDict _ => None | _ => _ end)
    as [counts'|]; [|discriminate].
  destruct (match get_default "status" (PStr "") c with
            | PStr s => _ | _ => None end) as [status|]; [|discriminate].
  destruct (if truthy (total_connectors st) then _ else _) as [total'|];
    [|discriminate].
  inversion H; subst st'; simpl.
  destruct (String.eqb status "AVAILABLE"); lia.
Qed.

Lemma connector_stats_nonzero (station : pydict) (st : loop_state) :
  connector_stats station = Some st ->
  0 < available_connectors st ->
  num_eq0 (total_connectors st) = false.
Proof.
  unfold connector_stats. intros H.
  destruct (resolve_connectors station) as [cl|]; [|discriminate].
  destruct (py_iter cl) as [cs|] eqn:Ei; [|discriminate].
  destruct cs as [|c cs].
  - simpl in H. inversion H; subst st; simpl. lia.
  - pose proof (py_iter_cons_truthy _ _ _ Ei) as Ht. intros _.
    simpl in H.
    destruct (count_body cl _ c) as [st1|] eqn:E1; [|discriminate].
    revert H.
    apply (for_each_invariant
             (fun s => num_eq0 (total_connectors s) = false)).
    + intros s x s' _ Hb. exact (count_body_total _ _ _ _ Ht Hb).
    + exact (count_body_total _ _ _ _ Ht E1).
Qed.

(** X1: a station with at least one available connector is [Available],
    whatever its own status and whatever upstream [totalConnectors] it
    carries. *)
Theorem available_connector_makes_available
  (station : pydict) (st : loop_state) (r : Station.t) :
  connector_stats station = Some st ->
  0 < available_connectors st ->
  station_record station = Some r ->
  Station.status r = PStr "Available"
  /\ Station.status (fill_status r) = PStr "Available".
Proof.
  intros Hst Hav Hr.
  destruct (station_record_fields _ _ Hr) as (st' & Hst' & Hs & _).
  rewrite Hst in Hst'; inversion Hst'; subst st'.
  assert (Hd : Station.status r = PStr "Available").
  { rewrite Hs. unfold derive_status.
    rewrite (connector_stats_nonzero _ _ Hst Hav).
    apply Nat.ltb_lt in Hav. now rewrite Hav. }
  split; [exact Hd|]. unfold fill_status. now rewrite Hd.
Qed.

(** A station that calls itself out of order, with a zero upstream total,
    one available and one occupied connector. *)
Definition reopened_station : pydict :=
  [("id", PStr "S7"); ("status", PStr "OUT_OF_ORDER");
   ("totalConnectors", PInt 0);
   ("connectors",
    PList [PDict [("id", PStr "C1"); ("status", PStr "occupied")];
           PDict [("id", PStr "C2"); ("status", PStr "Available")]])].

Lemma available_connector_makes_available_witness :
  exists r,
    station_record reopened_station = Some r
    /\ Station.total_connectors r = PInt 2
    /\ Station.status r = PStr "Available".
Proof.
  eexists. split; [reflexivity|]. split; [reflexivity|].
  exact (proj1 (available_connector_makes_available reopened_station
                  _ _ eq_refl (le_n 1) eq_refl)).
Defined.

(** X2: a station without any connector and without an upstream
    [totalConnectors] has [total_connectors = 0], no typed connector, and
    the status its own status maps to through the synonym table: a mapped
    text is replaced, any other value is passed through, and a missing
    status becomes ['Unknown'] in the frame. *)
Theorem station_without_connectors (station : pydict) (r : Station.t) :
  resolve_connectors station = Some (PList []) ->
  dict_get "totalConnectors" station = None ->
  station_record station = Some r ->
  Station.total_connectors r = PInt 0
  /\ (Station.ccs_connectors r, Station.chademo_connectors r,
      Station.other_connectors r) = (0, 0, 0)
  /\ Station.status r
     = match get "status" station with
       | PStr s =>
           if String.eqb s "" then PStr ""
           else mapping_get (upper s) (PStr s) status_mapping
       | v => v
       end
  /\ (dict_get "status" station = None ->
      Station.status (fill_status r) = PStr "Unknown").
Proof.
  intros Hres Htot Hr.
  destruct (station_record_fields _ _ Hr)
    as (st & Hst & Hs & Ht & _ & Hc & Hch & Ho).
  unfold connector_stats in Hst. rewrite Hres in Hst.
  unfold dict_mem in Hst. rewrite Htot in Hst. simpl in Hst.
  inversion Hst; subst st; clear Hst.
  simpl in Ht, Hc, Hch, Ho, Hs.
  assert (Hstatus : Station.status r
     = match get "status" station with
       | PStr s =>
           if String.eqb s "" then PStr ""
           else mapping_get (upper s) (PStr s) status_mapping
       | v => v
       end).
  { rewrite Hs. unfold derive_status. simpl num_eq0. cbv iota.
    destruct (get "status" station) as [| | | |s| |]; try reflexivity.
    simpl truthy. destruct (String.eqb s "") eqn:E; [|reflexivity].
    apply String.eqb_eq in E. now subst s. }
  split; [exact Ht|]. split; [now rewrite Hc, Hch, Ho|].
  split; [exact Hstatus|].
  intros Hnone. unfold fill_status. rewrite Hstatus.
  unfold get. rewrite Hnone. reflexivity.
Qed.

(** A site that is still being built, and one that says nothing. *)
Definition building_site : pydict :=
  [("id", PStr "S8"); ("status", PStr "under_construction")].

Definition silent_site : pydict := [("id", PStr "S9")].

Lemma station_without_connectors_witness :
  (exists r, station_record building_site = Some r
             /\ Station.status r = PStr "UnderConstruction")
  /\ (exists r, station_record silent_site = Some r
                /\ Station.status (fill_status r) = PStr "Unknown").
Proof.
  split; eexists; (split; [reflexivity|]).
  - exact (proj1 (proj2 (proj2
      (station_without_connectors building_site _ eq_refl eq_refl eq_refl)))).
  - exact (proj2 (proj2 (proj2
      (station_without_connectors silent_site _ eq_refl eq_refl eq_refl)))
      eq_refl).
Defined.

End StationProperties.

(** ** Connector counts and the rows of the stations frame *)

Module StationCounts.
Import Py Transform.

(** A connector type that has a bucket of its own. *)
Definition named (v : pyval) : bool :=
  eq_str v "CCS" || eq_str v "CHAdeMO" || eq_str v "Type2"
  || eq_str v "AC Type 2".

(** The number of connectors whose type has no bucket of its own. *)
Definition untyped (connectors : list pyval) : nat :=
  List.length
    (filter
       (fun c => match c with
                 | PDict d => negb (named (get "type" d))
                 | _ => false
                 end)
       connectors).

Definition keys (c : counts) : list string := map fst c.

Lemma keys_count_add (k : string) (n : nat) (c : counts) :
  keys (count_add k n c) = keys c.
Proof.
  induction c as [|[k0 m] c IH]; [reflexivity|].
  simpl. destruct (String.eqb k k0); simpl; [reflexivity | now rewrite IH].
Qed.

Lemma count_mem_keys (k : string) (c : counts) :
  count_mem k c = str_in k (keys c).
Proof.
  unfold count_mem, str_in, keys. induction c as [|[k0 m] c IH];
    [reflexivity|]. simpl. now rewrite IH.
Qed.

Lemma untyped_app (xs ys : list pyval) :
  untyped (xs ++ ys) = untyped xs + untyped ys.
Proof. unfold untyped. now rewrite filter_app, length_app. Qed.

(** One iteration adds one to ['Other'] exactly when the connector's type
    has no bucket of its own. *)
Lemma count_body_other (connectors_list : pyval) (st st' : loop_state)
  (connector : pyval) :
  keys (connector_counts st) = keys initial_counts ->
  count_body connectors_list st connector = Some st' ->
  keys (connector_counts st') = keys initial_counts
  /\ count_get "Other" (connector_counts st')
     = count_get "Other" (connector_counts st) + untyped [connector].
Proof.
  intros Hkeys H. unfold count_body in H.
  destruct connector as [| | | | |?|c]; try discriminate.
  destruct (match get "type" c with
            | PStr t => _ | PList _ | PDict _ => None | _ => _ end)
    as [counts'|] eqn:Ec; [|discriminate].
  destruct (match get_default "status" (PStr "") c with
            | PStr s => _ | _ => None end) as [status|]; [|discriminate].
  destruct (if truthy (total_connectors st) then _ else _) as [total'|];
    [|discriminate].
  inversion H; subst st'; clear H; cbn [connector_counts].
  assert (Hmem : count_mem "Other" (connector_counts st) = true)
    by (rewrite count_mem_keys, Hkeys; reflexivity).
  assert (Hother :
    keys (count_add "Other" 1 (connector_counts st)) = keys initial_counts
    /\ count_get "Other" (count_add "Other" 1 (connector_counts st))
       = count_get "Other" (connector_counts st) + 1).
  { rewrite keys_count_add.
    now rewrite StationFacts.count_get_add_same by exact Hmem. }
  unfold untyped, named; cbn [filter].
  destruct (get "type" c) as [| | | |t| |]; cbn [eq_str orb negb List.length];
    try (inversion Ec; subst counts'; exact Hother); try discriminate.
  rewrite count_mem_keys, Hkeys in Ec. unfold str_in in Ec.
  cbn [keys initial_counts map fst existsb] in Ec.
  destruct (String.eqb t "CCS") eqn:E1;
    [apply String.eqb_eq in E1; subst t; simpl in Ec; inversion Ec;
     subst counts'; rewrite keys_count_add;
     rewrite StationFacts.count_get_add_other by reflexivity;
     split; [exact Hkeys | simpl; lia]|].
  destruct (String.eqb t "CHAdeMO") eqn:E2;
    [apply String.eqb_eq in E2; subst t; simpl in Ec; inversion Ec;
     subst counts'; rewrite keys_count_add;
     rewrite StationFacts.count_get_add_other by reflexivity;
     split; [exact Hkeys | simpl; lia]|].
  destruct (String.eqb t "Type2") eqn:E3;
    [apply String.eqb_eq in E3; subst t; simpl in Ec; inversion Ec;
     subst counts'; rewrite keys_count_add;
     rewrite StationFacts.count_get_add_other by reflexivity;
     split; [exact Hkeys | simpl; lia]|].
  destruct (String.eqb t "AC Type 2") eqn:E4;
    [apply String.eqb_eq in E4; subst t; simpl in Ec; inversion Ec;
     subst counts'; rewrite keys_count_add;
     rewrite StationFacts.count_get_add_other by reflexivity;
     split; [exact Hkeys | simpl; lia]|].
  cbn [orb negb List.length] in *.
  destruct (String.eqb t "Other") eqn:E5; cbn [orb] in Ec.
  - apply String.eqb_eq in E5; subst t. inversion Ec; subst counts'.
    exact Hother.
  - inversion Ec; subst counts'. exact Hother.
Qed.

Lemma count_loop_other (connectors_list : pyval) (connectors : list pyval) :
  forall st st',
    keys (connector_counts st) = keys initial_counts ->
    for_each (count_body connectors_list) connectors st = Some st' ->
    keys (connector_counts st') = keys initial_counts
    /\ count_get "Other" (connector_counts st')
       = count_get "Other" (connector_counts st) + untyped connectors.
Proof.
  induction connectors as [|c cs IH]; intros st st' Hk H.
  - simpl in H; inversion H; subst. unfold untyped; simpl. split; [exact Hk | lia].
  - simpl in H.
    destruct (count_body connectors_list st c) as [st1|] eqn:E; [|discriminate].
    destruct (count_body_other _ _ _ _ Hk E) as [Hk1 Hg1].
    destruct (IH _ _ Hk1 H) as [Hk' Hg'].
    split; [exact Hk'|].
    rewrite Hg', Hg1. change (c :: cs) with ([c] ++ cs).
    rewrite untyped_app. lia.
Qed.

(** X3: the four connector columns in terms of the resolved connectors:
    [ccs_connectors] and [chademo_connectors] count the connectors whose
    type is exactly ['CCS'] and ['CHAdeMO']; [other_connectors] counts those
    whose type is none of ['CCS'], ['CHAdeMO'], ['Type2'], ['AC Type 2'];
    and [type2_connectors] is the number of ['Type2'] connectors plus twice
    the number of ['AC Type 2'] connectors. *)
Theorem connector_count_columns (station : pydict) (r : Station.t) :
  station_record station = Some r ->
  exists connectors_list connectors,
    resolve_connectors station = Some connectors_list
    /\ py_iter connectors_list = Some connectors
    /\ Station.ccs_connectors r = StationFacts.typed "CCS" connectors
    /\ Station.chademo_connectors r = StationFacts.typed "CHAdeMO" connectors
    /\ Station.type2_connectors r
       = StationFacts.typed "Type2" connectors
         + 2 * StationFacts.typed "AC Type 2" connectors
    /\ Station.other_connectors r = untyped connectors.
Proof.
  intros Hr.
  assert (Htype2 : exists st,
    connector_stats station = Some st
    /\ Station.type2_connectors r
       = count_get "Type2"
           (count_add "Type2" (count_get "AC Type 2" (connector_counts st))
              (connector_counts st))
         + count_get "AC Type 2"
             (count_add "Type2" (count_get "AC Type 2" (connector_counts st))
                (connector_counts st))).
  { unfold station_record in Hr.
    destruct (connector_stats station) as [st|]; [|discriminate].
    exists st; split; [reflexivity|].
    destruct (if truthy (get_default "location" (PDict []) station)
              then _ else _) as [coords|]; [|discriminate].
    destruct (if truthy (get "amenities" station) then _ else _) as [am|];
      [|discriminate].
    now inversion Hr. }
  destruct Htype2 as (st & Hst & H2).
  destruct (StationProperties.station_record_fields _ _ Hr)
    as (st' & Hst' & _ & _ & _ & Hc & Hch & Ho).
  rewrite Hst in Hst'; inversion Hst'; subst st'; clear Hst'.
  unfold connector_stats in Hst.
  destruct (resolve_connectors station) as [cl|]; [|discriminate].
  destruct (py_iter cl) as [cs|] eqn:Ei; [|discriminate].
  exists cl, cs. split; [reflexivity|]. split; [exact Ei|].
  pose proof (fun k Hk Hm =>
    StationFacts.count_loop_typed k cl cs Hk _ _ Hm Hst) as Htyped.
  pose proof (Htyped "CCS" eq_refl eq_refl) as HC.
  pose proof (Htyped "CHAdeMO" eq_refl eq_refl) as HCh.
  pose proof (Htyped "Type2" eq_refl eq_refl) as HT.
  pose proof (Htyped "AC Type 2" eq_refl eq_refl) as HA.
  pose proof (fun Hk0 => count_loop_other cl cs _ _ Hk0 Hst) as HO'.
  destruct (HO' eq_refl) as [Hk HO]. clear HO'.
  assert (Hmem : count_mem "Type2" (connector_counts st) = true)
    by (rewrite count_mem_keys, Hk; reflexivity).
  cbn [connector_counts initial_counts count_get String.eqb Ascii.eqb
         Bool.eqb] in HC, HCh, HT, HA, HO.
  rewrite Hc, Hch, H2, Ho.
  rewrite StationFacts.count_get_add_same by exact Hmem.
  rewrite !StationFacts.count_get_add_other by reflexivity.
  rewrite HC, HCh, HT, HA, HO. simpl. repeat split; lia.
Qed.

(** A station with one connector of each kind. *)
Definition assorted_station : pydict :=
  [("id", PStr "S3");
   ("connectors",
    PList [PDict [("id", PStr "C1"); ("type", PStr "CCS")];
           PDict [("id", PStr "C2"); ("type", PStr "CHAdeMO")];
           PDict [("id", PStr "C3"); ("type", PStr "Type2")];
           PDict [("id", PStr "C4"); ("type", PStr "AC Type 2")];
           PDict [("id", PStr "C5"); ("type", PStr "ccs")];
           PDict [("id", PStr "C6")]])].

Lemma connector_count_columns_witness :
  exists r,
    station_record assorted_station = Some r
    /\ (Station.ccs_connectors r, Station.chademo_connectors r,
        Station.type2_connectors r, Station.other_connectors r)
       = (1, 1, 3, 2).
Proof.
  destruct (station_record assorted_station) as [r|] eqn:E;
    [|vm_compute in E; discriminate E].
  exists r. split; [reflexivity|].
  destruct (connector_count_columns assorted_station r E)
    as (cl & cs & Hres & Hit & HC & HCh & HT & HO).
  vm_compute in Hres. inversion Hres; subst cl.
  vm_compute in Hit. inversion Hit; subst cs.
  rewrite HC, HCh, HT, HO. vm_compute. reflexivity.
Defined.

(** *** The rows of the frame *)

Lemma stations_loop (stations_data : list pyval) :
  forall acc,
    match for_each stations_body stations_data acc with
    | Some rows =>
        forallb is_dict stations_data = true
        /\ List.length rows <= List.length acc + List.length stations_data
    | None => forallb is_dict stations_data = false
    end.
Proof.
  induction stations_data as [|s l IH]; intros acc; simpl.
  - split; [reflexivity | lia].
  - destruct s as [| | | | | |d]; simpl; try reflexivity.
    destruct (station_record d) as [r|].
    + specialize (IH (acc ++ [r])).
      destruct (for_each stations_body l (acc ++ [r])); [|exact IH].
      rewrite length_app in IH; simpl in IH. split; [tauto | lia].
    + specialize (IH acc).
      destruct (for_each stations_body l acc); [|exact IH].
      split; [tauto | lia].
Qed.

Lemma utilization_loop (timestamp : datetime) (stations_data : list pyval) :
  forall acc,
    match for_each (utilization_body timestamp) stations_data acc with
    | Some rows => forallb is_dict stations_data = true
    | None => forallb is_dict stations_data = false
    end.
Proof.
  induction stations_data as [|s l IH]; intros acc; simpl; [reflexivity|].
  destruct s as [| | | | | |d]; simpl; try reflexivity. apply IH.
Qed.

(** X4: a station that is not a dict makes both transformations raise (the
    handler of the [try] block calls [station.get] itself), and a collected
    record whose status cannot be hashed makes
    [transform_utilization_data] raise after its loop.  A stations frame
    that is returned comes from dicts only and has at most one row per
    station: the stations that cannot be processed are dropped. *)
Theorem transformations_raise_on_non_dict (stations_data : list pyval)
  (timestamp : datetime) :
  (forallb is_dict stations_data = false ->
   transform_stations_data stations_data = None
   /\ transform_utilization_data stations_data timestamp = None)
  /\ (forall records r,
        utilization_records stations_data timestamp = Some records ->
        In r records -> hashable (Utilization.status r) = false ->
        transform_utilization_data stations_data timestamp = None)
  /\ (forall rows,
        transform_stations_data stations_data = Some rows ->
        forallb is_dict stations_data = true
        /\ List.length rows <= List.length stations_data).
Proof.
  pose proof (stations_loop stations_data []) as Hs.
  pose proof (utilization_loop timestamp stations_data []) as Hu.
  unfold transform_stations_data, transform_utilization_data,
    utilization_records.
  split; [|split].
  - intros Hnd. split.
    + destruct (for_each stations_body stations_data []) as [rows|];
        [destruct Hs; congruence | reflexivity].
    + destruct (for_each (utilization_body timestamp) stations_data [])
        as [recs|]; [congruence | reflexivity].
  - intros records r Hrec Hin Hh. rewrite Hrec.
    destruct (forallb _ records) eqn:E; [|reflexivity].
    rewrite forallb_forall in E. rewrite (E r Hin) in Hh. discriminate.
  - intros rows' Hrows.
    destruct (for_each stations_body stations_data []) as [rows|];
      [|discriminate].
    inversion Hrows; subst rows'. destruct Hs as [Hd Hl].
    rewrite length_map. cbn [List.length] in Hl. split; [exact Hd | lia].
Qed.

(** A station that is a text, and a station with a connector whose status
    is a list. *)
Definition listed_status : pydict :=
  [("id", PStr "S5");
   ("connectors",
    PList [PDict [("id", PStr "C1"); ("status", PList [PStr "AVAILABLE"])]])].

Lemma transformations_raise_on_non_dict_witness :
  (transform_stations_data [PDict listed_status; PStr "S6"] = None
   /\ transform_utilization_data [PDict listed_status; PStr "S6"]
        UtilizationFacts.noon = None)
  /\ transform_utilization_data [PDict listed_status] UtilizationFacts.noon
     = None.
Proof.
  split.
  - exact (proj1 (transformations_raise_on_non_dict
                    [PDict listed_status; PStr "S6"] UtilizationFacts.noon)
             eq_refl).
  - destruct (transformations_raise_on_non_dict [PDict listed_status]
                UtilizationFacts.noon) as (_ & H & _).
    destruct (utilization_records [PDict listed_status] UtilizationFacts.noon)
      as [records|] eqn:E; [|vm_compute in E; discriminate E].
    destruct records as [|r rest]; [vm_compute in E; discriminate E|].
    apply (H (r :: rest) r eq_refl (or_introl eq_refl)).
    vm_compute in E. inversion E. reflexivity.
Defined.

(** X5: no row of the stations frame has a null status: a status that is
    [None] or NaN after the derivation is replaced by ['Unknown']. *)
Theorem stations_status_never_null (stations_data : list pyval)
  (rows : list Station.t) :
  transform_stations_data stations_data = Some rows ->
  Forall (fun r => isna (Station.status r) = false) rows.
Proof.
  unfold transform_stations_data.
  destruct (for_each stations_body stations_data []) as [table|];
    [|discriminate].
  intros H; inversion H; subst rows.
  apply Forall_forall. intros r Hr. apply in_map_iff in Hr.
  destruct Hr as (r0 & <- & _). unfold fill_status.
  destruct (isna (Station.status r0)) eqn:E; [reflexivity | exact E].
Qed.

(** Two stations without connectors, one without a status and one whose
    status is NaN. *)
Definition statusless_stations : list pyval :=
  [PDict StationProperties.silent_site;
   PDict [("id", PStr "S10"); ("status", PFloat nan)]].

Lemma stations_status_never_null_witness :
  exists rows,
    transform_stations_data statusless_stations = Some rows
    /\ map Station.status rows = [PStr "Unknown"; PStr "Unknown"]
    /\ Forall (fun r => isna (Station.status r) = false) rows.
Proof.
  destruct (transform_stations_data statusless_stations) as [rows|] eqn:E;
    [|vm_compute in E; discriminate E].
  exists rows. split; [reflexivity|].
  split; [|exact (stations_status_never_null statusless_stations rows E)].
  vm_compute in E. inversion E. reflexivity.
Defined.

End StationCounts.

(** ** Utilization records and hourly rows *)

Lemma for_each_invariant_in {S A : Type} (I : S -> Prop)
  (body : S -> A -> option S) (xs : list A) :
  (forall s x s', In x xs -> I s -> body s x = Some s' -> I s') ->
  forall s s', I s -> for_each body xs s = Some s' -> I s'.
Proof.
  induction xs as [|x xs IH]; intros Hbody s s' Hs H; simpl in H.
  - now inversion H; subst.
  - destruct (body s x) as [s1|] eqn:E; [|discriminate].
    apply (IH (fun s0 x0 s0' Hin => Hbody s0 x0 s0' (or_intror Hin)) s1 s');
      [|exact H].
    exact (Hbody s x s1 (or_introl eq_refl) Hs E).
Qed.

Lemma ForallOrdPairs_filter {A : Type} (R : A -> A -> Prop) (f : A -> bool)
  (l : list A) :
  ForallOrdPairs R l -> ForallOrdPairs R (filter f l).
Proof.
  induction 1 as [|a l Ha _ IH]; simpl; [constructor|].
  destruct (f a); [|exact IH].
  constructor; [|exact IH].
  apply Forall_forall. intros x Hx. apply filter_In in Hx.
  rewrite Forall_forall in Ha. now apply Ha.
Qed.

Lemma ForallOrdPairs_map {A B : Type} (R : B -> B -> Prop) (g : A -> B)
  (l : list A) :
  ForallOrdPairs (fun a b => R (g a) (g b)) l -> ForallOrdPairs R (map g l).
Proof.
  induction 1 as [|a l Ha _ IH]; simpl; constructor; [|exact IH].
  apply Forall_forall. intros y Hy. apply in_map_iff in Hy.
  destruct Hy as (x & <- & Hx). rewrite Forall_forall in Ha. now apply Ha.
Qed.

Module UtilizationProperties.
Import Py Transform.

(** X6: every utilization record carries the poll instant as [timestamp],
    that instant with minutes, seconds and microseconds set to zero as
    [hourly_timestamp], and the [id] of one of the stations as
    [station_id]. *)
Theorem utilization_records_stamped (stations_data : list pyval)
  (timestamp : datetime) (records : list Utilization.t) :
  transform_utilization_data stations_data timestamp = Some records ->
  Forall
    (fun r =>
       Utilization.timestamp r = timestamp
       /\ Utilization.hourly_timestamp r
          = {| year := year timestamp; month := month timestamp;
               day := day timestamp; hour := hour timestamp;
               minute := 0; second := 0; microsecond := 0 |}
       /\ exists station,
            In (PDict station) stations_data
            /\ Utilization.station_id r = get "id" station)
    records.
Proof.
  intros Hret. apply utilization_records_of in Hret.
  destruct Hret as [Hret _]. revert Hret. unfold utilization_records.
  apply for_each_invariant_in; [|constructor].
  intros acc station acc' Hin Hacc Hbody.
  destruct station as [| | | | | |d]; try discriminate.
  simpl in Hbody; inversion Hbody; subst acc'.
  apply Forall_app; split; [exact Hacc|].
  unfold station_utilization.
  destruct (resolve_connectors d) as [cl|]; [|constructor].
  destruct (py_iter cl) as [cs|]; [|constructor].
  apply emit_until_error_Forall. intros c r Hr.
  unfold utilization_record in Hr.
  destruct c as [| | | | | |c]; try discriminate.
  inversion Hr; subst r; simpl.
  split; [reflexivity|]. split; [reflexivity|]. now exists d.
Qed.

Lemma utilization_records_stamped_witness :
  exists records,
    transform_utilization_data [PDict UtilizationFacts.mixed_station]
      UtilizationFacts.noon = Some records
    /\ map Utilization.hourly_timestamp records
       = repeat
           {| year := 2024; month := 5; day := 17; hour := 12;
              minute := 0; second := 0; microsecond := 0 |} 4
    /\ Forall (fun r => Utilization.station_id r = PStr "S1") records.
Proof.
  destruct (transform_utilization_data [PDict UtilizationFacts.mixed_station]
              UtilizationFacts.noon) as [records|] eqn:E;
    [|vm_compute in E; discriminate E].
  exists records. split; [reflexivity|].
  pose proof (utilization_records_stamped _ _ _ E) as H.
  split.
  - vm_compute in E. inversion E. reflexivity.
  - eapply Forall_impl; [|exact H].
    intros r (_ & _ & station & [Hs|[]] & Hid).
    inversion Hs; subst station. exact Hid.
Defined.

(** The connectors up to the first one that is not a dict. *)
Fixpoint leading_dicts (connectors : list pyval) : list pydict :=
  match connectors with
  | PDict c :: rest => c :: leading_dicts rest
  | _ => []
  end.

Lemma emit_leading_dicts (timestamp : datetime) (station_id : pyval)
  (connectors : list pyval) :
  map (fun r => (Utilization.connector_id r, Utilization.status r))
    (emit_until_error (utilization_record timestamp station_id) connectors)
  = map (fun c => (get "id" c, normalize_status (get "status" c)))
      (leading_dicts connectors).
Proof.
  induction connectors as [|c cs IH]; [reflexivity|].
  destruct c as [| | | | | |c]; try reflexivity.
  simpl. now rewrite IH.
Qed.

(** X7: a station whose connectors form a list contributes one record per
    connector, in order, with the connector's [id] and its normalized
    status, up to the first element that is not a dict: the records of the
    connectors before a malformed one are kept, those after it are lost. *)
Theorem one_record_per_connector (timestamp : datetime) (station : pydict)
  (connectors : list pyval) :
  resolve_connectors station = Some (PList connectors) ->
  map (fun r => (Utilization.connector_id r, Utilization.status r))
    (station_utilization timestamp station)
  = map (fun c => (get "id" c, normalize_status (get "status" c)))
      (leading_dicts connectors)
  /\ (forallb is_dict connectors = true ->
      List.length (station_utilization timestamp station)
      = List.length connectors).
Proof.
  intros Hres. unfold station_utilization. rewrite Hres. simpl py_iter.
  split; [apply emit_leading_dicts|].
  intros Hall.
  pose proof (emit_leading_dicts timestamp (get "id" station) connectors) as H.
  apply (f_equal (@List.length _)) in H. rewrite !length_map in H.
  rewrite H. clear H Hres.
  induction connectors as [|c cs IH]; [reflexivity|].
  destruct c as [| | | | | |c]; try discriminate.
  simpl in Hall. simpl. f_equal. exact (IH Hall).
Qed.

(** A station whose second connector is a bare string. *)
Definition broken_station : pydict :=
  [("id", PStr "S4");
   ("connectors",
    PList [PDict [("id", PStr "C1"); ("status", PStr "Occupied")];
           PStr "C2";
           PDict [("id", PStr "C3"); ("status", PStr "AVAILABLE")]])].

Lemma one_record_per_connector_witness :
  map (fun r => (Utilization.connector_id r, Utilization.status r))
    (station_utilization UtilizationFacts.noon broken_station)
  = [(PStr "C1", PStr "Occupied")].
Proof.
  exact (proj1 (one_record_per_connector UtilizationFacts.noon broken_station
                  _ eq_refl)).
Defined.

(** X8: normalizing a status twice is normalizing it once: each value of
    the mapping is mapped to itself, and a text that is no key of the
    mapping under [upper] stays as it is.  A status that is not a text, and
    the empty text, are left alone. *)
Theorem normalize_status_idempotent (v : pyval) :
  normalize_status (normalize_status v) = normalize_status v
  /\ ((forall s, v = PStr s -> s = "") -> normalize_status v = v).
Proof.
  split.
  - destruct v as [| | | |s| |]; try reflexivity.
    assert (H : normalize_status (PStr s) = PStr "Available"
                \/ normalize_status (PStr s) = PStr "Occupied"
                \/ normalize_status (PStr s) = PStr "OutOfOrder"
                \/ normalize_status (PStr s) = PStr s).
    { unfold normalize_status. destruct (truthy (PStr s)); [|now auto].
      unfold connector_status_mapping; simpl mapping_get.
      destruct (String.eqb (upper s) "AVAILABLE"); [now auto|].
      destruct (String.eqb (upper s) "OCCUPIED"); [now auto|].
      destruct (String.eqb (upper s) "UNAVAILABLE"); [now auto|].
      destruct (String.eqb (upper s) "OUT_OF_ORDER"); now auto. }
    destruct H as [H|[H|[H|H]]]; rewrite H; try reflexivity. exact H.
  - intros H. destruct v as [| | | |s| |]; try reflexivity.
    now rewrite (H s eq_refl).
Qed.

Lemma normalize_status_idempotent_witness :
  normalize_status (PInt 3) = PInt 3.
Proof.
  refine (proj2 (normalize_status_idempotent (PInt 3)) _).
  intros s H. discriminate H.
Defined.

(** *** Hourly rows *)

(** At most one of the three flags of a record is set. *)
Definition one_flag (r : Utilization.t) : Prop :=
  Utilization.is_available r + Utilization.is_occupied r
  + Utilization.is_out_of_order r <= 1.

Lemma utilization_record_one_flag (timestamp : datetime) (station_id : pyval)
  (connector : pyval) (r : Utilization.t) :
  utilization_record timestamp station_id connector = Some r -> one_flag r.
Proof.
  unfold utilization_record.
  destruct connector as [| | | | | |c]; try discriminate.
  intros H; inversion H; subst r; clear H.
  unfold one_flag; cbn [Utilization.is_available Utilization.is_occupied
    Utilization.is_out_of_order].
  destruct (normalize_status (get "status" c)) as [| | | |s| |];
    cbn [eq_str orb]; try lia.
  destruct (String.eqb s "Available") eqn:E1;
    [apply String.eqb_eq in E1; subst s; cbn; lia|].
  destruct (String.eqb s "Occupied") eqn:E2;
    [apply String.eqb_eq in E2; subst s; cbn; lia|].
  destruct (String.eqb s "OutOfOrder" || String.eqb s "UNAVAILABLE"); lia.
Qed.

Lemma transform_one_flag (stations_data : list pyval) (timestamp : datetime)
  (records : list Utilization.t) :
  transform_utilization_data stations_data timestamp = Some records ->
  Forall one_flag records.
Proof.
  intros Hret. apply utilization_records_of in Hret.
  destruct Hret as [Hret _]. revert Hret. unfold utilization_records.
  apply (for_each_invariant (Forall one_flag)); [|constructor].
  intros acc station acc' Hacc Hbody.
  destruct station as [| | | | | |d]; try discriminate.
  simpl in Hbody; inversion Hbody; subst acc'.
  apply Forall_app; split; [exact Hacc|].
  unfold station_utilization.
  destruct (resolve_connectors d) as [cl|]; [|constructor].
  destruct (py_iter cl) as [cs|]; [|constructor].
  apply emit_until_error_Forall. intros c r.
  apply utilization_record_one_flag.
Qed.

Lemma sums_le_length (l : list Utilization.t) :
  Forall one_flag l ->
  sum (map Utilization.is_available l) + sum (map Utilization.is_occupied l)
  + sum (map Utilization.is_out_of_order l) <= List.length l.
Proof.
  induction 1 as [|r l Hr _ IH]; [cbn; lia|].
  unfold one_flag in Hr. unfold sum in *. cbn [map fold_right List.length]. lia.
Qed.

(** X9: on the records of one poll in which every connector has an id, the
    hourly counts add up: in every hourly row the available, occupied and
    out-of-order connectors together are at most [total_connectors], which
    is positive, and both rates lie in [[0, 1]]. *)
Theorem hourly_counts_within_total (stations_data : list pyval)
  (timestamp : datetime) (utilization_df : list Utilization.t)
  (hourly_df : list Hourly.t) :
  transform_utilization_data stations_data timestamp = Some utilization_df ->
  Forall (fun r => isna (Utilization.connector_id r) = false) utilization_df ->
  aggregate_hourly_utilization utilization_df = Some hourly_df ->
  Forall
    (fun row =>
       Hourly.is_available row + Hourly.is_occupied row
       + Hourly.is_out_of_order row <= Hourly.total_connectors row
       /\ 0 < Hourly.total_connectors row
       /\ in_unit_interval (Hourly.occupancy_rate row) = true
       /\ in_unit_interval (Hourly.availability_rate row) = true)
    hourly_df.
Proof.
  intros Ht Hids Hagg.
  pose proof (UtilizationFacts.hourly_rates_within_bounds _ _ _ _ Ht Hids Hagg)
    as Hrates.
  pose proof (transform_one_flag _ _ _ Ht) as Hflag.
  destruct (UtilizationFacts.aggregate_rows _ _ Hagg) as [_ ->].
  apply Forall_forall. intros row Hrow.
  rewrite Forall_forall in Hrates. split; [|now apply Hrates].
  apply in_map_iff in Hrow. destruct Hrow as (head & <- & _).
  unfold hourly_row; cbn [Hourly.is_available Hourly.is_occupied
    Hourly.is_out_of_order Hourly.total_connectors].
  set (group := filter (same_group head) _).
  assert (Hsub : forall r, In r group -> In r utilization_df).
  { intros r Hr. apply filter_In in Hr. destruct Hr as [Hr _].
    apply filter_In in Hr. tauto. }
  replace (filter (fun r => negb (isna (Utilization.connector_id r))) group)
    with group.
  - apply sums_le_length. apply Forall_forall. intros r Hr.
    rewrite Forall_forall in Hflag. apply Hflag, Hsub, Hr.
  - symmetry. apply forallb_filter_id. apply forallb_forall. intros r Hr.
    rewrite Forall_forall in Hids. now rewrite (Hids r (Hsub r Hr)).
Qed.

Lemma hourly_counts_within_total_witness :
  exists utilization_df hourly_df,
    transform_utilization_data [PDict UtilizationFacts.mixed_station]
      UtilizationFacts.noon = Some utilization_df
    /\ aggregate_hourly_utilization utilization_df = Some hourly_df
    /\ map Hourly.total_connectors hourly_df = [4]
    /\ Forall
         (fun row =>
            Hourly.is_available row + Hourly.is_occupied row
            + Hourly.is_out_of_order row <= Hourly.total_connectors row
            /\ 0 < Hourly.total_connectors row
            /\ in_unit_interval (Hourly.occupancy_rate row) = true
            /\ in_unit_interval (Hourly.availability_rate row) = true)
         hourly_df.
Proof.
  destruct (transform_utilization_data [PDict UtilizationFacts.mixed_station]
              UtilizationFacts.noon) as [u|] eqn:Eu;
    [|vm_compute in Eu; discriminate Eu].
  destruct (aggregate_hourly_utilization u) as [h|] eqn:Eh;
    [|vm_compute in Eu; inversion Eu; subst u; vm_compute in Eh;
      discriminate Eh].
  exists u, h. split; [reflexivity|]. split; [exact Eh|].
  assert (Hids : Forall (fun r => isna (Utilization.connector_id r) = false) u).
  { vm_compute in Eu. inversion Eu; subst u. repeat constructor. }
  split; [|exact (hourly_counts_within_total _ _ _ _ Eu Hids Eh)].
  vm_compute in Eu. inversion Eu; subst u. vm_compute in Eh.
  inversion Eh. reflexivity.
Defined.

Definition same_hourly_key (a b : Hourly.t) : bool :=
  datetime_eqb (Hourly.hourly_timestamp a) (Hourly.hourly_timestamp b)
  && scalar_eqb (Hourly.station_id a) (Hourly.station_id b).

Lemma group_heads_distinct (rows : list Utilization.t) :
  ForallOrdPairs (fun a b => same_group a b = false) (group_heads rows).
Proof.
  induction rows as [|r rows IH]; simpl; constructor.
  - apply Forall_forall. intros x Hx. apply filter_In in Hx.
    now apply negb_true_iff.
  - now apply ForallOrdPairs_filter.
Qed.

(** X10: the hourly frame has one row per key: no two of its rows agree on
    [hourly_timestamp] and [station_id]; and every row takes its key, which
    is not null, from a utilization record. *)
Theorem hourly_rows_one_per_key (utilization_df : list Utilization.t)
  (hourly_df : list Hourly.t) :
  aggregate_hourly_utilization utilization_df = Some hourly_df ->
  ForallOrdPairs (fun a b => same_hourly_key a b = false) hourly_df
  /\ Forall
       (fun row =>
          isna (Hourly.station_id row) = false
          /\ exists r,
               In r utilization_df
               /\ Utilization.station_id r = Hourly.station_id row
               /\ Utilization.hourly_timestamp r = Hourly.hourly_timestamp row)
       hourly_df.
Proof.
  intros H. destruct (UtilizationFacts.aggregate_rows _ _ H) as [_ ->].
  split.
  - apply ForallOrdPairs_map. apply group_heads_distinct.
  - apply Forall_forall. intros row Hrow. apply in_map_iff in Hrow.
    destruct Hrow as (head & <- & Hhead).
    apply UtilizationFacts.group_heads_incl in Hhead.
    apply filter_In in Hhead. destruct Hhead as [Hin Hna].
    split; [now apply negb_true_iff in Hna|].
    exists head. now repeat split.
Qed.

(** Two stations polled at noon, one of them without an id. *)
Definition two_stations : list pyval :=
  [PDict UtilizationFacts.mixed_station;
   PDict [("connectors", PList [PDict [("id", PStr "C9")]])];
   PDict [("id", PStr "S2");
          ("connectors", PList [PDict [("id", PStr "C5");
                                       ("status", PStr "OCCUPIED")]])]].

Lemma hourly_rows_one_per_key_witness :
  exists utilization_df hourly_df,
    transform_utilization_data two_stations UtilizationFacts.noon
    = Some utilization_df
    /\ aggregate_hourly_utilization utilization_df = Some hourly_df
    /\ List.length utilization_df = 6
    /\ map Hourly.station_id hourly_df = [PStr "S1"; PStr "S2"]
    /\ ForallOrdPairs (fun a b => same_hourly_key a b = false) hourly_df.
Proof.
  destruct (transform_utilization_data two_stations UtilizationFacts.noon)
    as [u|] eqn:Eu; [|vm_compute in Eu; discriminate Eu].
  destruct (aggregate_hourly_utilization u) as [h|] eqn:Eh;
    [|vm_compute in Eu; inversion Eu; subst u; vm_compute in Eh;
      discriminate Eh].
  exists u, h. split; [reflexivity|]. split; [exact Eh|].
  pose proof (proj1 (hourly_rows_one_per_key u h Eh)) as Hkeys.
  vm_compute in Eu. inversion Eu; subst u. vm_compute in Eh.
  inversion Eh; subst h.
  split; [reflexivity|]. split; [reflexivity | exact Hkeys].
Defined.

End UtilizationProperties.

(** ** The extractor *)

Module ExtractProperties.
Import Py Extract.

Lemma process_fails_on (stations : list pyval) (s : pyval) :
  In s stations -> normalize_station s = None ->
  forall acc, for_each process_body stations acc = None.
Proof.
  induction stations as [|x xs IH]; intros Hin Hs acc; [destruct Hin|].
  cbn [for_each]. unfold process_body at 1.
  destruct Hin as [-> | Hin].
  - now rewrite Hs.
  - destruct (normalize_station x); [|reflexivity]. now apply IH.
Qed.

(** X12: the first parsed body ends the call, whatever it holds.  After
    [k] requests that the first handler caught, each followed by a sleep
    that returned, a body at attempt [k] is processed and its result
    returned after [k + 1] requests: a body of an unexpected shape is
    dumped for debugging and gives no stations, and one station that
    cannot be normalized gives no stations at all; neither is asked for
    again. *)
Theorem body_ends_extraction (lib : bool) (sleeps : Z -> bool) (net : network)
  (max_retries retry_delay k : Z) (data : pyval) :
  (0 <= k <= max_retries)%Z ->
  (forall a, (0 <= a < k)%Z -> is_request_exception lib (net a) = true) ->
  ((0 < k)%Z -> sleeps retry_delay = true) ->
  net k = Body data ->
  let result :=
    extract_charging_stations lib sleeps net max_retries retry_delay in
  result
  = (Returned (fst (process data)),
     ExtractFacts.retries retry_delay (range k) ++ Get k :: snd (process data))
  /\ Z.of_nat (requests (snd result)) = (k + 1)%Z
  /\ (stations_list data = None ->
      result
      = (Returned None,
         ExtractFacts.retries retry_delay (range k) ++ [Get k; DumpDebug data]))
  /\ (forall l stations s,
        stations_list data = Some l -> py_iter l = Some stations ->
        In s stations -> normalize_station s = None ->
        fst result = Returned None).
Proof.
  intros Hk Hfail Hsl Hbody. cbv zeta.
  rewrite (ConnectorFacts.extract_body _ _ _ _ _ _ _ Hk Hfail Hsl Hbody).
  cbn [fst snd].
  split; [reflexivity|]. split; [|split].
  - rewrite ExtractFacts.requests_app, ExtractFacts.requests_retries,
      ExtractFacts.length_range.
    destruct (ExtractFacts.process_events data) as [-> | ->];
      unfold requests; simpl; lia.
  - intros Hshape. unfold process. now rewrite Hshape.
  - intros l stations s Hl Hit Hin Hs. unfold process. rewrite Hl, Hit.
    cbn [fst]. now rewrite (process_fails_on stations s Hin Hs).
Qed.

(** An endpoint that never answers in time. *)
Definition always_timeout : network := fun _ => RequestFailed Timeout.

Lemma extract_retry_policy_witness :
  (fst (extract_charging_stations false ExtractFacts.sleeps_when_non_negative
          always_timeout 3 5) = Returned None
   /\ snd (extract_charging_stations false
             ExtractFacts.sleeps_when_non_negative always_timeout 3 5)
      = [Get 0; Sleep 5; Get 1; Sleep 5; Get 2; Sleep 5; Get 3])
  /\ extract_charging_stations false ExtractFacts.sleeps_when_non_negative
       always_timeout 3 (-5)
     = (Raised, [Get 0]).
Proof.
  split.
  - pose proof (ExtractFacts.extract_retry_policy false
                  ExtractFacts.sleeps_when_non_negative always_timeout 3 5)
      as P.
    cbv zeta in P. destruct P as (_ & _ & _ & H & _).
    assert (Hmr : (0 <= 3)%Z) by lia.
    destruct (H Hmr (fun a _ => eq_refl) (fun _ => eq_refl)) as (Hr & He & _).
    split; [exact Hr | exact He].
  - pose proof (ExtractFacts.extract_retry_policy false
                  ExtractFacts.sleeps_when_non_negative always_timeout 3 (-5))
      as P.
    cbv zeta in P. destruct P as (_ & _ & _ & _ & H & _).
    assert (Hmr : (0 < 3)%Z) by lia.
    destruct (H Hmr eq_refl eq_refl) as (Hr & He).
    destruct (extract_charging_stations false
                ExtractFacts.sleeps_when_non_negative always_timeout 3 (-5))
      as [r evs].
    cbn [fst snd] in Hr, He. now subst.
Defined.

(** An endpoint that times out twice and then answers with a number. *)
Definition late_number : network :=
  fun attempt => if (attempt <? 2)%Z then RequestFailed Timeout
                 else Body (PInt 7).

Lemma body_ends_extraction_witness :
  extract_charging_stations true ExtractFacts.sleeps_when_non_negative
    late_number 3 5
  = (Returned None,
     [Get 0; Sleep 5; Get 1; Sleep 5; Get 2; DumpDebug (PInt 7)]).
Proof.
  assert (Hk : (0 <= 2 <= 3)%Z) by lia.
  assert (Hfail : forall a, (0 <= a < 2)%Z ->
                    is_request_exception true (late_number a) = true).
  { intros a Ha. unfold late_number.
    destruct (a <? 2)%Z eqn:E; [reflexivity|].
    apply Z.ltb_ge in E. lia. }
  exact (proj1 (proj2 (proj2
           (body_ends_extraction true ExtractFacts.sleeps_when_non_negative
              late_number 3 5 2 (PInt 7) Hk Hfail (fun _ => eq_refl)
              eq_refl))) eq_refl).
Defined.

(** *** One station *)

(** X13: normalizing a station touches three entries only.  A dict station
    leaves as a dict; every entry but [connectors], [connectionTypes] and
    [connectionsTypes] is as it came; a station without a grouping is
    returned unchanged; one with a grouping has a [connectionTypes] entry
    and a [connectors] list, and no [connectionsTypes] entry when the
    grouping came under that name alone. *)
Theorem normalize_station_keeps_fields (d : pydict) (s' : pyval) :
  normalize_station (PDict d) = Some s' ->
  exists d',
    s' = PDict d'
    /\ (forall k,
          k <> "connectors" -> k <> "connectionTypes" ->
          k <> "connectionsTypes" ->
          dict_get k d' = dict_get k d)
    /\ (ConnectorFacts.has_grouping d = false -> d' = d)
    /\ (ConnectorFacts.has_grouping d = true ->
        dict_mem "connectionTypes" d' = true
        /\ (exists connectors,
              dict_get "connectors" d' = Some (PList connectors))
        /\ (dict_mem "connectionTypes" d = false ->
            dict_mem "connectionsTypes" d' = false)).
Proof.
  rewrite ConnectorFacts.normalize_station_dict.
  destruct (ConnectorFacts.has_grouping d) eqn:Hg.
  - destruct (ConnectorFacts.renamed_grouping d Hg) as [Hm Hgr]. rewrite Hm.
    destruct (Grouping.flatten (get "connectionTypes" (ConnectorFacts.renamed d)))
      as [connectors|]; [|discriminate].
    intros H; inversion H; subst s'; clear H.
    eexists. split; [reflexivity|]. split; [|split; [discriminate|]].
    + intros k H1 H2 H3.
      rewrite !ConnectorFacts.dict_get_set_other by now apply String.eqb_neq.
      now apply ConnectorFacts.renamed_other.
    + intros _. split; [|split].
      * unfold dict_mem.
        rewrite ConnectorFacts.dict_get_set_other by reflexivity.
        now rewrite ConnectorFacts.dict_get_set_same.
      * exists connectors. apply ConnectorFacts.dict_get_set_same.
      * intros Hs. unfold dict_mem.
        rewrite !ConnectorFacts.dict_get_set_other by reflexivity.
        unfold ConnectorFacts.renamed. rewrite Hs.
        unfold ConnectorFacts.has_grouping in Hg. rewrite Hs in Hg.
        cbn [orb] in Hg. rewrite Hg. cbn [andb negb].
        rewrite ConnectorFacts.dict_get_set_other by reflexivity.
        unfold dict_remove.
        clear. induction d as [|[k0 v0] d IH]; [reflexivity|].
        cbn [filter fst].
        destruct (String.eqb "connectionsTypes" k0) eqn:E; cbn [negb];
          [exact IH|]. cbn [dict_get]. now rewrite E.
  - destruct (ConnectorFacts.renamed_no_grouping d Hg) as [Hr Hm]. rewrite Hm, Hr.
    intros H; inversion H; subst s'; clear H.
    exists d. split; [reflexivity|]. split; [reflexivity|].
    split; [reflexivity | discriminate].
Qed.

Lemma normalize_station_keeps_fields_witness :
  exists d',
    normalize_station (PDict ConnectorFacts.both_station) = Some (PDict d')
    /\ dict_get "id" d' = Some (PStr "S1")
    /\ dict_mem "connectionTypes" d' = true
    /\ dict_mem "connectionsTypes" d' = false.
Proof.
  destruct (normalize_station (PDict ConnectorFacts.both_station))
    as [s'|] eqn:E; [|vm_compute in E; discriminate E].
  destruct (normalize_station_keeps_fields _ _ E)
    as (d' & -> & Hother & _ & Hgrp).
  exists d'. split; [reflexivity|].
  split; [rewrite Hother by discriminate; reflexivity|].
  destruct (Hgrp eq_refl) as (Hm & _ & Hp).
  split; [exact Hm | exact (Hp eq_refl)].
Defined.

(** *** The grouping loop *)

Lemma flattened_connectors_typed (g : pydict) (connectors : list pyval) :
  Grouping.flatten (PDict g) = Some connectors ->
  Forall
    (fun c =>
       exists t l d,
         In (t, l) g /\ c = PDict d /\ dict_get "type" d = Some (PStr t))
    connectors.
Proof.
  cbn [Grouping.flatten].
  apply for_each_invariant_in; [|constructor].
  intros acc [t l] acc' Hin Hacc Hbody.
  unfold Grouping.group_body in Hbody.
  destruct (py_iter l) as [elems|]; [|discriminate].
  revert Hbody. apply for_each_invariant; [|exact Hacc].
  intros a c a' Ha Hc. destruct c as [| | | | | |d]; try discriminate.
  inversion Hc; subst a'. apply Forall_app. split; [exact Ha|].
  constructor; [|constructor].
  exists t, l, (dict_set "type" (PStr t) d).
  split; [exact Hin|]. split; [reflexivity|].
  apply ConnectorFacts.dict_get_set_same.
Qed.

(** X15: every connector the grouping loop returns is a dict whose [type]
    is the key of the group it came from, and there is one for each
    element of each group. *)
Theorem flatten_stamps_group_key (g : pydict) (connectors : list pyval) :
  Grouping.flatten (PDict g) = Some connectors ->
  Forall
    (fun c =>
       exists t l d,
         In (t, l) g /\ c = PDict d /\ dict_get "type" d = Some (PStr t))
    connectors
  /\ Some (List.length connectors)
     = for_each
         (fun n item => len <- py_len (snd item) ;; Some (n + len)) g 0.
Proof.
  intros H. split; [now apply flattened_connectors_typed|].
  cbn [Grouping.flatten] in H.
  assert (G : forall acc r,
             for_each Grouping.group_body g acc = Some r ->
             Some (List.length r)
             = for_each
                 (fun n item => len <- py_len (snd item) ;; Some (n + len))
                 g (List.length acc)).
  { clear. induction g as [|[t l] g IH]; intros acc r H; cbn [for_each] in *.
    - now inversion H.
    - unfold Grouping.group_body at 1 in H.
      destruct (py_iter l) as [elems|] eqn:El; [|discriminate].
      destruct (for_each (Grouping.stamp_body t) elems acc) as [acc1|] eqn:E1;
        [|discriminate].
      destruct (ConnectorFacts.stamp_loop _ _ _ _ E1) as [-> _].
      rewrite (IH _ _ H), length_app, length_map. cbn [snd].
      destruct l as [| | | |s|cs|d]; cbn [py_iter] in El; try discriminate;
        inversion El; subst elems; cbn [py_len]; rewrite ?length_map;
        try reflexivity.
      clear. f_equal. f_equal. induction s; cbn; [reflexivity|]. now f_equal. }
  exact (G [] connectors H).
Qed.

Lemma flatten_stamps_group_key_witness :
  exists connectors,
    Grouping.flatten (ConnectorFacts.grouping_of ConnectorFacts.both_station)
    = Some connectors
    /\ List.length connectors = 2
    /\ Forall
         (fun c =>
            exists t l d,
              In (t, l)
                [("CCS", PList [PDict [("id", PStr "C1")]]);
                 ("Type2",
                  PList [PDict [("id", PStr "C2"); ("type", PStr "x")]])]
              /\ c = PDict d /\ dict_get "type" d = Some (PStr t))
         connectors.
Proof.
  destruct (Grouping.flatten
              (ConnectorFacts.grouping_of ConnectorFacts.both_station))
    as [connectors|] eqn:E; [|vm_compute in E; discriminate E].
  exists connectors. split; [reflexivity|].
  change (ConnectorFacts.grouping_of ConnectorFacts.both_station)
    with (PDict [("CCS", PList [PDict [("id", PStr "C1")]]);
                 ("Type2",
                  PList [PDict [("id", PStr "C2"); ("type", PStr "x")]])])
    in E.
  destruct (flatten_stamps_group_key _ _ E) as [Hall Hlen].
  split; [|exact Hall]. cbn in Hlen. now inversion Hlen.
Defined.

(** *** From the extractor to the transformer *)

Lemma emit_all_dicts (timestamp : Transform.datetime) (station_id : pyval)
  (connectors : list pyval) :
  Forall (fun c => exists d, c = PDict d) connectors ->
  List.length
    (emit_until_error (Transform.utilization_record timestamp station_id)
       connectors)
  = List.length connectors.
Proof.
  induction 1 as [|c cs [d ->] _ IH]; [reflexivity|].
  cbn [emit_until_error Transform.utilization_record List.length].
  now rewrite IH.
Qed.

(** X14: the transformer reads what the extractor wrote.  For a station
    that came with a grouping and left the extractor as [d'], the
    connectors both transformations resolve are the flattened grouping,
    whatever [connectors] the endpoint sent and also when the grouping is
    empty; the utilization transformation emits one record for each of
    them. *)
Theorem transformer_reads_extracted_connectors (d d' : pydict)
  (timestamp : Transform.datetime) :
  ConnectorFacts.has_grouping d = true ->
  normalize_station (PDict d) = Some (PDict d') ->
  exists g,
    ConnectorFacts.grouping_of d = PDict g
    /\ Transform.resolve_connectors d'
       = Some (PList (ConnectorFacts.flattened g))
    /\ List.length (Transform.station_utilization timestamp d')
       = List.length (ConnectorFacts.flattened g).
Proof.
  intros Hg H. rewrite ConnectorFacts.normalize_station_dict in H.
  destruct (ConnectorFacts.renamed_grouping d Hg) as [Hm Hgr]. rewrite Hm, Hgr in H.
  destruct (Grouping.flatten (ConnectorFacts.grouping_of d))
    as [connectors|] eqn:Ef; [|discriminate].
  destruct (ConnectorFacts.flatten_flattened _ _ Ef) as (g & Hgd & ->).
  exists g. split; [exact Hgd|].
  inversion H; subst d'; clear H. rewrite Hgd in *.
  assert (Hres : Transform.resolve_connectors
                   (dict_set "connectors" (PList (ConnectorFacts.flattened g))
                      (dict_set "connectionTypes" (Grouping.stamped (PDict g))
                         (ConnectorFacts.renamed d)))
                 = Some (PList (ConnectorFacts.flattened g))).
  { unfold Transform.resolve_connectors, dict_mem, get.
    rewrite ConnectorFacts.dict_get_set_same.
    destruct (truthy (PList (ConnectorFacts.flattened g))); cbn [andb];
      [reflexivity|].
    rewrite ConnectorFacts.dict_get_set_other by reflexivity.
    rewrite ConnectorFacts.dict_get_set_same.
    cbn [Grouping.stamped Grouping.flatten] in *.
    now rewrite (ConnectorFacts.group_loop_stamped _ _ _ Ef). }
  split; [exact Hres|].
  unfold Transform.station_utilization. rewrite Hres. cbn [py_iter].
  apply emit_all_dicts.
  pose proof (flattened_connectors_typed g _ Ef) as Hall.
  eapply Forall_impl; [|exact Hall].
  intros c (t & l & d0 & _ & -> & _). eauto.
Qed.

Lemma transformer_reads_extracted_connectors_witness :
  exists d',
    normalize_station (PDict ConnectorFacts.both_station) = Some (PDict d')
    /\ Transform.resolve_connectors d'
       = Some (PList [PDict [("id", PStr "C1"); ("type", PStr "CCS")];
                      PDict [("id", PStr "C2"); ("type", PStr "Type2")]])
    /\ List.length (Transform.station_utilization UtilizationFacts.noon d') = 2.
Proof.
  destruct (normalize_station (PDict ConnectorFacts.both_station))
    as [s'|] eqn:E; [|vm_compute in E; discriminate E].
  destruct s' as [| | | | | |d']; try (vm_compute in E; discriminate E).
  exists d'. split; [reflexivity|].
  destruct (transformer_reads_extracted_connectors ConnectorFacts.both_station
              d' UtilizationFacts.noon eq_refl E) as (g & Hg & Hres & Hlen).
  vm_compute in Hg. inversion Hg; subst g.
  split; [exact Hres | exact Hlen].
Defined.

End ExtractProperties.

(** ** The persister: merging and its edge cases *)

Section KeepLastRows.

Context {A : Type} (dup : A -> A -> bool).

Lemma keep_last_length (l : list A) :
  List.length (Load.keep_last dup l) <= List.length l.
Proof.
  induction l as [|r rest IH]; [reflexivity|].
  simpl. destruct (existsb (dup r) rest); simpl; lia.
Qed.

Lemma keep_last_distinct (l : list A) :
  ForallOrdPairs (fun a b => dup a b = false) l -> Load.keep_last dup l = l.
Proof.
  induction 1 as [|r rest Hr _ IH]; [reflexivity|].
  simpl. rewrite IH.
  replace (existsb (dup r) rest) with false; [reflexivity|].
  symmetry. apply not_true_is_false. intros E.
  apply existsb_exists in E. destruct E as (x & Hx & Hd).
  rewrite Forall_forall in Hr. rewrite (Hr x Hx) in Hd. discriminate.
Qed.

Lemma keep_last_covers (l : list A) (x : A) :
  (forall a, dup a a = true) ->
  (forall a b c, dup a b = true -> dup b c = true -> dup a c = true) ->
  In x l -> exists y, In y (Load.keep_last dup l) /\ dup x y = true.
Proof.
  intros Hrefl Htrans. revert x.
  induction l as [|r rest IH]; intros x Hin; [destruct Hin|].
  simpl. destruct (existsb (dup r) rest) eqn:E.
  - destruct Hin as [<- | Hin]; [|now apply IH].
    apply existsb_exists in E. destruct E as (z & Hz & Hrz).
    destruct (IH z Hz) as (y & Hy & Hzy). exists y. eauto.
  - destruct Hin as [<- | Hin].
    + exists r. split; [now left | apply Hrefl].
    + destruct (IH x Hin) as (y & Hy & Hxy). exists y. split; [now right | exact Hxy].
Qed.

End KeepLastRows.

Module LoadProperties.
Import Py Load.

Section Persist.

Variable cell : Type.
Variable nan : cell.
Variable same : cell -> cell -> bool.
Variable csv : Type.
Variable to_csv : DataFrame cell -> csv.
Variable parse_csv : csv -> option (DataFrame cell).

Local Abbreviation DataFrame := (DataFrame cell).
Local Abbreviation file := (file csv).
Local Abbreviation concat := (concat cell nan).
Local Abbreviation share_key := (share_key cell nan same).
Local Abbreviation read_csv := (read_csv cell csv parse_csv).
Local Abbreviation save_to_csv :=
  (save_to_csv cell nan same csv to_csv parse_csv).

(** X16: a merge under a key loses no key and invents no row.  The frame
    it writes has the columns of the combined frame; each of its rows is a
    row of the combined frame; every row of the combined frame has its key
    in the frame written; that frame is no longer than the two frames
    together; and when no two rows of the combined frame share a key,
    nothing is dropped. *)
Theorem merge_keeps_every_key (filename : string) (f : file)
  (existing incoming : DataFrame) (subset : list string) :
  (forall a, same a a = true) ->
  (forall a b c, same a b = true -> same b c = true -> same a c = true) ->
  empty incoming = false ->
  read_csv f = Some existing ->
  dedup_subset filename (columns (concat existing incoming)) = Some subset ->
  let combined := concat existing incoming in
  exists table,
    save_to_csv (Some incoming) filename true f
    = (Stored (to_csv table), true)
    /\ table = Load.drop_duplicates cell nan same subset combined
    /\ columns table = columns combined
    /\ (forall r, In r (rows table) -> In r (rows combined))
    /\ (forall r,
          In r (rows combined) ->
          exists r',
            In r' (rows table)
            /\ share_key (columns combined) subset r r' = true)
    /\ List.length (rows table)
       <= List.length (rows existing) + List.length (rows incoming)
    /\ (ForallOrdPairs
          (fun r1 r2 => share_key (columns combined) subset r1 r2 = false)
          (rows combined) ->
        rows table = rows combined).
Proof.
  intros Hrefl Htrans He Hr Hk. cbv zeta.
  eexists.
  split; [exact (LoadFacts.save_merged _ _ _ _ _ _ _ _ _ _ subset He Hr Hk)|].
  split; [reflexivity|].
  cbn [Load.drop_duplicates columns rows].
  split; [reflexivity|]. split; [|split; [|split]].
  - intros r. apply keep_last_incl.
  - intros r Hin. apply keep_last_covers; [| |exact Hin].
    + intros a. apply LoadFacts.same_key_refl, Hrefl.
    + intros a b c. apply LoadFacts.same_key_trans, Htrans.
  - etransitivity; [apply keep_last_length|].
    unfold Load.concat; cbn [rows]. rewrite length_app, !length_map. lia.
  - apply keep_last_distinct.
Qed.

(** X17: with [append] set and no key chosen for the file, the frame
    written is the concatenation of the prior table and the incoming
    frame, rows repeated or not; for two frames with the same distinct
    column labels and full rows, its rows are the prior rows followed by
    the incoming ones, unchanged. *)
Theorem append_without_key_concatenates (filename : string) (f : file)
  (existing incoming : DataFrame) :
  empty incoming = false ->
  read_csv f = Some existing ->
  dedup_subset filename (columns (concat existing incoming)) = None ->
  save_to_csv (Some incoming) filename true f
  = (Stored (to_csv (concat existing incoming)), true)
  /\ List.length (rows (concat existing incoming))
     = List.length (rows existing) + List.length (rows incoming)
  /\ (columns incoming = columns existing ->
      NoDup (columns existing) ->
      Forall (fun r => List.length r = List.length (columns existing))
        (rows existing ++ rows incoming) ->
      concat existing incoming
      = {| columns := columns existing;
           rows := rows existing ++ rows incoming |}).
Proof.
  intros He Hr Hk. split; [|split].
  - unfold Load.save_to_csv. rewrite He, Hr.
    destruct f as [|text]; [discriminate Hr|]. cbn [andb exists_].
    now rewrite Hk.
  - unfold Load.concat; cbn [rows]. now rewrite length_app, !length_map.
  - intros Hc Hn Hl. unfold Load.concat. rewrite Hc.
    assert (Hcols : columns existing
                    ++ filter (fun c => negb (str_in c (columns existing)))
                         (columns existing)
                    = columns existing).
    { rewrite filter_none; [apply app_nil_r|].
      intros c Hin. apply negb_false_iff. now apply LoadFacts.str_in_In. }
    rewrite Hcols. f_equal. rewrite <- map_app.
    apply LoadFacts.map_fixed.
    eapply Forall_impl; [|exact Hl].
    intros r Hlen. now apply LoadFacts.reindex_same.
Qed.

(** X19: what a call leaves behind.  A path is returned exactly when there
    is a frame with rows and columns; without one the file is not touched;
    with one the file holds a text afterwards, and where there is no prior
    file, or one that cannot be read, that text is the incoming frame's. *)
Theorem save_to_csv_outcome (df : option DataFrame) (filename : string)
  (append : bool) (f : file) :
  (snd (save_to_csv df filename append f) = true
   <-> exists d, df = Some d /\ empty d = false)
  /\ (snd (save_to_csv df filename append f) = false ->
      fst (save_to_csv df filename append f) = f)
  /\ (snd (save_to_csv df filename append f) = true ->
      exists text, fst (save_to_csv df filename append f) = Stored text)
  /\ (forall d,
        df = Some d -> empty d = false -> read_csv f = None ->
        fst (save_to_csv df filename append f) = Stored (to_csv d)).
Proof.
  unfold Load.save_to_csv.
  destruct df as [d|].
  - destruct (empty d) eqn:He.
    + cbn [fst snd]. split; [|split; [|split]]; try discriminate; try reflexivity.
      * split; [discriminate|]. intros (d0 & H0 & He0).
        inversion H0; subst d0. congruence.
      * intros d0 H0 He0. inversion H0; subst d0. congruence.
    + destruct (append && exists_ f);
        [destruct (Load.read_csv cell csv parse_csv f) as [existing|] eqn:Er|];
        cbn [fst snd];
        (split; [split; [intros _; now exists d | reflexivity]|]);
        (split; [discriminate|]);
        (split; [intros _; eexists; reflexivity|]);
        intros d0 H0 _ Hf; inversion H0; subst d0;
        try discriminate Hf; reflexivity.
  - cbn [fst snd]. split; [|split; [|split]]; try discriminate; try reflexivity.
    split; [discriminate|]. intros (d0 & H0 & _). discriminate.
Qed.

End Persist.

(** X18: the key is chosen by the first of "stations", "utilization" and
    "hourly" that the lower-cased file name contains, and only when the
    combined frame has all of its columns: a name that contains
    "utilization" never selects the hourly key. *)
Theorem dedup_subset_choice (filename : string) (cols subset : list string) :
  dedup_subset filename cols = Some subset ->
  Forall (fun c => In c cols) subset
  /\ ((str_contains "stations" (lower filename) = true /\ subset = ["id"])
      \/ (str_contains "stations" (lower filename) = false
          /\ str_contains "utilization" (lower filename) = true
          /\ subset = ["timestamp"; "connector_id"])
      \/ (str_contains "stations" (lower filename) = false
          /\ str_contains "utilization" (lower filename) = false
          /\ str_contains "hourly" (lower filename) = true
          /\ subset = ["hourly_timestamp"; "station_id"])).
Proof.
  unfold dedup_subset.
  destruct (str_contains "stations" (lower filename)).
  - destruct (str_in "id" cols) eqn:E; [|discriminate].
    intros H; inversion H; subst subset.
    split; [|now left].
    repeat constructor. now apply LoadFacts.str_in_In.
  - destruct (str_contains "utilization" (lower filename)).
    + destruct (str_in "timestamp" cols) eqn:E1;
        destruct (str_in "connector_id" cols) eqn:E2; try discriminate.
      intros H; inversion H; subst subset.
      split; [|right; left; repeat split].
      repeat constructor; now apply LoadFacts.str_in_In.
    + destruct (str_contains "hourly" (lower filename)); [|discriminate].
      destruct (str_in "hourly_timestamp" cols) eqn:E1;
        destruct (str_in "station_id" cols) eqn:E2; try discriminate.
      intros H; inversion H; subst subset.
      split; [|right; right; repeat split].
      repeat constructor; now apply LoadFacts.str_in_In.
Qed.

Lemma dedup_subset_choice_witness :
  dedup_subset "Utilization_Data.csv"
    ["timestamp"; "station_id"; "connector_id"; "status"]
  = Some ["timestamp"; "connector_id"]
  /\ Forall
       (fun c => In c ["timestamp"; "station_id"; "connector_id"; "status"])
       ["timestamp"; "connector_id"].
Proof.
  split; [reflexivity|].
  exact (proj1 (dedup_subset_choice "Utilization_Data.csv"
                  ["timestamp"; "station_id"; "connector_id"; "status"]
                  ["timestamp"; "connector_id"] eq_refl)).
Defined.

(** Two polls of one connector, and a third poll of it. *)
Definition poll_columns : list string := ["timestamp"; "connector_id"; "status"].

Definition earlier_polls : DataFrame scalar :=
  {| columns := poll_columns;
     rows := [[Num 10; Text "C1"; Text "Available"];
              [Num 11; Text "C1"; Text "Occupied"]] |}.

Definition later_polls : DataFrame scalar :=
  {| columns := poll_columns;
     rows := [[Num 11; Text "C1"; Text "OutOfOrder"];
              [Num 12; Text "C1"; Text "Available"]] |}.

Lemma merge_keeps_every_key_witness :
  exists table,
    LoadExamples.save (Some later_polls) "charging_utilization.csv" true
      (LoadExamples.written earlier_polls)
    = (LoadExamples.written table, true)
    /\ rows table
       = [[Num 10; Text "C1"; Text "Available"];
          [Num 11; Text "C1"; Text "OutOfOrder"];
          [Num 12; Text "C1"; Text "Available"]]
    /\ forall r, In r (rows table) ->
                 In r (rows (concat scalar Na earlier_polls later_polls)).
Proof.
  destruct (merge_keeps_every_key scalar Na scalar_same
              (DataFrame string) scalar_to_csv scalar_parse_csv
              "charging_utilization.csv" (LoadExamples.written earlier_polls)
              earlier_polls later_polls
              ["timestamp"; "connector_id"]
              LoadExamples.scalar_same_refl LoadExamples.scalar_same_trans
              eq_refl eq_refl eq_refl)
    as (table & Hsave & Htable & _ & Hin & _).
  exists table. split; [exact Hsave|]. split; [|exact Hin].
  rewrite Htable. reflexivity.
Defined.

Lemma poll_columns_NoDup : NoDup poll_columns.
Proof.
  repeat constructor; simpl; intuition discriminate.
Qed.

Lemma append_without_key_concatenates_witness :
  LoadExamples.save (Some later_polls) "export.csv" true
    (LoadExamples.written earlier_polls)
  = (LoadExamples.written
       {| columns := poll_columns;
          rows := rows earlier_polls ++ rows later_polls |},
     true).
Proof.
  destruct (append_without_key_concatenates scalar Na scalar_same
              (DataFrame string) scalar_to_csv scalar_parse_csv "export.csv"
              (LoadExamples.written earlier_polls)
              earlier_polls later_polls eq_refl eq_refl eq_refl)
    as (Hsave & _ & Hrows).
  unfold LoadExamples.save. rewrite Hsave.
  rewrite (Hrows eq_refl poll_columns_NoDup); [reflexivity|].
  repeat constructor.
Defined.

End LoadProperties.

(** ** The validator: when it raises and what it reports *)

Module ValidationProperties.
Import Py Validation.

Lemma overall_nil (issues : list string) :
  fst (overall issues, issues) = false -> snd (overall issues, issues) <> [].
Proof.
  cbn [fst snd]. intros H ->. discriminate H.
Qed.

Lemma startswith_append (p s : string) : startswith (p ++ s) p = true.
Proof.
  unfold startswith. induction p as [|c p IH]; cbn.
  - now destruct s.
  - destruct (Ascii.ascii_dec c c) as [_|Hn]; [exact IH | now destruct Hn].
Qed.

(** An issue of the pipeline report says where it comes from. *)
Definition origin_tagged (issue : string) : bool :=
  startswith issue "Hourly data issue: "
  || startswith issue "Stations data issue: "
  || startswith issue "Utilization data issue: "
  || startswith issue "Cross-validation issue: ".

Lemma tagged_map (prefix : string) (l : list string) :
  In prefix ["Hourly data issue: "; "Stations data issue: ";
             "Utilization data issue: "; "Cross-validation issue: "] ->
  forallb origin_tagged (map (append prefix) l) = true.
Proof.
  intros Hp. apply forallb_forall. intros x Hx.
  apply in_map_iff in Hx. destruct Hx as (s & <- & _).
  pose proof (startswith_append prefix s) as Hst.
  unfold origin_tagged.
  destruct Hp as [Hp|[Hp|[Hp|[Hp|[]]]]]; subst prefix; rewrite Hst;
    rewrite ?orb_true_r; reflexivity.
Qed.

Lemma some_pair {A B : Type} (a a' : A) (b b' : B) :
  Some (a, b) = Some (a', b') -> a = a' /\ b = b'.
Proof. intros H; now inversion H. Qed.

Lemma some_verdict (x r : bool * list string) :
  Some x = Some r ->
  (fst x = false -> snd x <> []) ->
  fst r = false -> snd r <> [].
Proof. intros H Hx. inversion H; subst r. exact Hx. Qed.

Lemma texts_nil (values : list pyval) : texts values = None -> values <> [].
Proof. now destruct values. Qed.

Section Report.

Variable fmt_pct : nat -> nat -> string.

Lemma stations_verdict (stations_df : option stations_view)
  (r : bool * list string) :
  validate_stations_data fmt_pct stations_df = Some r ->
  fst r = false -> snd r <> [].
Proof.
  destruct stations_df as [df|];
    [|intros H; apply (some_verdict _ _ H); discriminate].
  unfold validate_stations_data.
  destruct (is_empty (s_len df) (s_columns df));
    [intros H; apply (some_verdict _ _ H); discriminate|].
  cbv zeta.
  destruct (nonempty (missing_from _ (s_columns df))) eqn:Em.
  - destruct (nonempty (filter _ ["id"; "status"])); cbn [andb];
      [intros H; apply (some_verdict _ _ H); discriminate|].
    destruct (duplicate_id_issues df); [|discriminate].
    destruct (coordinate_issues df); [|discriminate].
    destruct (station_status_issues df); [|discriminate].
    destruct (connector_issues fmt_pct df); [|discriminate].
    intros H; apply (some_verdict _ _ H). apply overall_nil.
  - cbn [andb].
    destruct (duplicate_id_issues df); [|discriminate].
    destruct (coordinate_issues df); [|discriminate].
    destruct (station_status_issues df); [|discriminate].
    destruct (connector_issues fmt_pct df); [|discriminate].
    intros H; apply (some_verdict _ _ H). apply overall_nil.
Qed.

Lemma utilization_verdict (utilization_df : option utilization_view)
  (expect_full_period : bool) (r : bool * list string) :
  validate_utilization_data utilization_df expect_full_period = Some r ->
  fst r = false -> snd r <> [].
Proof.
  destruct utilization_df as [df|];
    [|intros H; apply (some_verdict _ _ H); discriminate].
  unfold validate_utilization_data.
  destruct (is_empty (u_len df) (u_columns df));
    [intros H; apply (some_verdict _ _ H); discriminate|].
  cbv zeta.
  assert (Hend : forall issues hourly : list string,
            match duplicate_record_issues df with
            | Some duplicates =>
                match connector_status_issues df with
                | Some statuses =>
                    match coverage_issues df expect_full_period with
                    | Some coverage =>
                        match station_coverage (u_columns df)
                                (u_station_ids df) with
                        | Some _ =>
                            Some
                              (overall
                                 (issues ++ hourly ++ duplicates ++ statuses
                                  ++ flag_issues df ++ coverage),
                               issues ++ hourly ++ duplicates ++ statuses
                               ++ flag_issues df ++ coverage)
                        | None => None
                        end
                    | None => None
                    end
                | None => None
                end
            | None => None
            end = Some r ->
            fst r = false -> snd r <> []).
  { intros issues hourly.
    destruct (duplicate_record_issues df); [|discriminate].
    destruct (connector_status_issues df); [|discriminate].
    destruct (coverage_issues df expect_full_period); [|discriminate].
    destruct (station_coverage _ _); [|discriminate].
    intros H; apply (some_verdict _ _ H). apply overall_nil. }
  destruct (nonempty (missing_from _ (u_columns df))) eqn:Em.
  - destruct (nonempty (filter _ ["timestamp"; "station_id"; "connector_id";
                                  "status"]));
      cbn [andb]; [intros H; apply (some_verdict _ _ H); discriminate|].
    destruct (str_in "timestamp" (u_columns df)
              && negb (u_timestamp_is_datetime df)
              && negb (u_timestamp_converts df));
      [intros H; apply (some_verdict _ _ H); discriminate | apply Hend].
  - cbn [andb].
    destruct (str_in "timestamp" (u_columns df)
              && negb (u_timestamp_is_datetime df)
              && negb (u_timestamp_converts df));
      [intros H; apply (some_verdict _ _ H); discriminate | apply Hend].
Qed.

Lemma hourly_verdict (hourly_df : option hourly_view)
  (r : bool * list string) :
  validate_hourly_data fmt_pct hourly_df = Some r ->
  fst r = false -> snd r <> [].
Proof.
  destruct hourly_df as [df|];
    [|intros H; apply (some_verdict _ _ H); discriminate].
  unfold validate_hourly_data.
  destruct (is_empty (h_len df) (h_columns df));
    [intros H; apply (some_verdict _ _ H); discriminate|].
  cbv zeta.
  destruct (str_in "hourly_timestamp" (h_columns df)
            && negb (h_hourly_is_datetime df)
            && negb (h_hourly_converts df)).
  - intros H; apply (some_verdict _ _ H). intros _. cbn [snd]. intros Hn.
    apply app_eq_nil in Hn. destruct Hn as [_ Hn]. discriminate Hn.
  - destruct (duplicate_hour_issues df); [|discriminate].
    destruct (rate_issues df); [|discriminate].
    destruct (status_sum_issues fmt_pct df); [|discriminate].
    destruct (station_coverage _ _); [|discriminate].
    intros H; apply (some_verdict _ _ H). apply overall_nil.
Qed.

(** X20: two ways in which [validate_etl_pipeline] raises instead of
    returning a flag.  When the utilization and the hourly frame both have
    an [hourly_timestamp] column and in one of them it is not, and does
    not convert to, a datetime column, the failed conversion is recorded as
    an issue but the [.dt] accessor that follows raises.  And when the
    stations frame, with its [id] and [status] columns, has a status value
    that is neither expected nor a text, joining the unexpected values
    raises in [validate_stations_data]. *)
Theorem validate_etl_pipeline_raises :
  (forall stations_df u h,
      str_in "hourly_timestamp" (u_columns u) = true ->
      str_in "hourly_timestamp" (h_columns h) = true ->
      (u_hourly_is_datetime u || u_hourly_converts u)
      && (h_hourly_is_datetime h || h_hourly_converts h) = false ->
      validate_etl_pipeline fmt_pct stations_df (Some u) (Some h) = None)
  /\ (forall df statuses utilization_df hourly_df,
        is_empty (s_len df) (s_columns df) = false ->
        str_in "id" (s_columns df) = true ->
        str_in "status" (s_columns df) = true ->
        s_statuses df = Some statuses ->
        texts
          (unexpected statuses
             ["Available"; "Occupied"; "OutOfOrder"; "Planned";
              "UnderConstruction"]) = None ->
        validate_stations_data fmt_pct (Some df) = None
        /\ validate_etl_pipeline fmt_pct (Some df) utilization_df hourly_df
           = None).
Proof.
  split.
  - intros stations_df u h Hu Hh Hd. unfold validate_etl_pipeline.
    destruct (validate_stations_data fmt_pct stations_df); [|reflexivity].
    destruct (validate_utilization_data (Some u) false); [|reflexivity].
    destruct (validate_hourly_data fmt_pct (Some h)); [|reflexivity].
    unfold cross_validation.
    destruct (station_coverage_issues stations_df (Some u)); [|reflexivity].
    unfold hourly_consistency_issues. now rewrite Hu, Hh, Hd.
  - intros df statuses utilization_df hourly_df He Hid Hst Hs Ht.
    assert (E : validate_stations_data fmt_pct (Some df) = None).
    { unfold validate_stations_data. rewrite He. cbv zeta.
      assert (Hc : filter
                     (fun col =>
                        str_in col
                          (missing_from
                             ["id"; "name"; "status"; "latitude"; "longitude";
                              "total_connectors"] (s_columns df)))
                     ["id"; "status"] = []).
      { unfold missing_from. cbn [filter]. rewrite Hid, Hst. cbn [negb].
        destruct (negb (str_in "name" (s_columns df)));
          destruct (negb (str_in "latitude" (s_columns df)));
          destruct (negb (str_in "longitude" (s_columns df)));
          destruct (negb (str_in "total_connectors" (s_columns df)));
          reflexivity. }
      rewrite Hc. cbn [nonempty]. rewrite andb_false_r.
      destruct (duplicate_id_issues df); [|reflexivity].
      destruct (coordinate_issues df); [|reflexivity].
      unfold station_status_issues. rewrite Hst, Hs.
      unfold unexpected_issue, join_values. rewrite Ht.
      destruct (unexpected statuses _) eqn:Eu;
        [now apply texts_nil in Ht | reflexivity]. }
    split; [exact E|]. unfold validate_etl_pipeline. now rewrite E.
Qed.

(** Utilization and hourly frames whose [hourly_timestamp] is text that is
    no date, and a stations frame in which one status is the number 3. *)
Definition undated_utilization : utilization_view :=
  {| u_len := 1;
     u_columns := ValidationExamples.utilization_columns;
     u_timestamp_is_datetime := true;
     u_timestamp_converts := true;
     u_hourly_is_datetime := false;
     u_hourly_converts := false;
     u_error := "Unknown datetime string format";
     u_duplicate_records := Some 0;
     u_statuses := Some [PStr "Available"];
     u_occupied_mismatch_count := 0;
     u_available_mismatch_count := 0;
     u_oof_mismatch_count := 0;
     u_missing_hours := Some [];
     u_station_ids := Some ["S1"];
     u_hourly_timestamps := [] |}.

Definition one_hour : hourly_view :=
  {| h_len := 1;
     h_columns :=
       ["hourly_timestamp"; "station_id"; "is_available"; "is_occupied";
        "is_out_of_order"; "total_connectors"; "occupancy_rate";
        "availability_rate"];
     h_hourly_is_datetime := true;
     h_hourly_converts := true;
     h_error := "";
     h_duplicate_records := Some 0;
     h_invalid_rates := Some 0;
     h_mismatch_count := Some 0;
     h_station_ids := Some ["S1"];
     h_hourly_timestamps := ["2024-05-17 12:00:00"] |}.

Definition numbered_status : stations_view :=
  {| s_len := 2;
     s_columns := ValidationExamples.station_columns;
     s_duplicate_ids := Some [];
     s_missing := fun _ => 0;
     s_invalid_lat := Some 0;
     s_invalid_lon := Some 0;
     s_missing_coords := 0;
     s_statuses := Some [PStr "Available"; PInt 3];
     s_connector_counts := true;
     s_mismatch_count := Some 0;
     s_ids := Some ["S1"; "S2"] |}.

(** X21: the report of [validate_etl_pipeline].  Every issue begins with
    the name of the check it comes from, and a validation that fails
    reports at least one issue. *)
Theorem failed_validation_reports_issue (stations_df : option stations_view)
  (utilization_df : option utilization_view) (hourly_df : option hourly_view)
  (passed : bool) (issues : list string) :
  validate_etl_pipeline fmt_pct stations_df utilization_df hourly_df
  = Some (passed, issues) ->
  forallb origin_tagged issues = true
  /\ (passed = false -> issues <> []).
Proof.
  unfold validate_etl_pipeline.
  destruct (validate_stations_data fmt_pct stations_df) as [[sv si]|] eqn:Es;
    [|discriminate].
  destruct (validate_utilization_data utilization_df false) as [[uv ui]|]
    eqn:Eu; [|discriminate].
  pose proof (stations_verdict _ _ Es) as Hs.
  pose proof (utilization_verdict _ _ _ Eu) as Hu.
  cbn [fst snd] in Hs, Hu |- *.
  assert (Htag : forall hi cross,
            forallb origin_tagged
              (((hi ++ map (append "Stations data issue: ") si)
                ++ map (append "Utilization data issue: ") ui)
               ++ map (append "Cross-validation issue: ") cross) = true
            <-> forallb origin_tagged hi = true).
  { intros hi cross. rewrite !forallb_app.
    rewrite (tagged_map "Stations data issue: " si),
      (tagged_map "Utilization data issue: " ui),
      (tagged_map "Cross-validation issue: " cross) by (simpl; tauto).
    rewrite !andb_true_r. reflexivity. }
  assert (Hne : forall (hv : bool) (hi cross : list string),
            (hv = false -> hi <> []) ->
            hv && sv && uv && (List.length cross =? 0) = false ->
            ((hi ++ map (append "Stations data issue: ") si)
             ++ map (append "Utilization data issue: ") ui)
            ++ map (append "Cross-validation issue: ") cross <> []).
  { intros hv hi cross Hhi Hf Hnil.
    apply app_eq_nil in Hnil. destruct Hnil as [Hnil Hcr].
    apply app_eq_nil in Hnil. destruct Hnil as [Hnil Hui].
    apply app_eq_nil in Hnil. destruct Hnil as [Hhi' Hsi].
    apply map_eq_nil in Hcr, Hui, Hsi. subst cross ui si.
    destruct hv; [|now apply Hhi].
    destruct sv; [|now apply Hs].
    destruct uv; [|now apply Hu].
    discriminate Hf. }
  destruct hourly_df as [h|].
  - destruct (validate_hourly_data fmt_pct (Some h)) as [[hv hi]|] eqn:Eh;
      [|discriminate].
    pose proof (hourly_verdict _ _ Eh) as Hh. cbn [fst snd] in Hh |- *.
    destruct (cross_validation stations_df utilization_df (Some h))
      as [cross|]; [|discriminate].
    intros H. apply some_pair in H. destruct H as [<- <-].
    cbn [app andb]. split.
    + apply Htag. apply (tagged_map "Hourly data issue: " hi). now left.
    + apply Hne. intros Hv Hnil. apply map_eq_nil in Hnil. now apply Hh.
  - cbn [fst snd].
    destruct (cross_validation stations_df utilization_df None)
      as [cross|]; [|discriminate].
    intros H. apply some_pair in H. destruct H as [<- <-].
    cbn [app andb]. split.
    + now apply (Htag []).
    + apply (Hne true []); discriminate.
Qed.

End Report.

Lemma validate_etl_pipeline_raises_witness :
  validate_etl_pipeline ValidationExamples.one_decimal (Some ValidationExamples.one_station)
    (Some undated_utilization) (Some one_hour) = None
  /\ validate_etl_pipeline ValidationExamples.one_decimal (Some numbered_status)
       (Some (ValidationExamples.utilization_of ["S1"] 0 0)) None = None.
Proof.
  destruct (validate_etl_pipeline_raises ValidationExamples.one_decimal)
    as [Hdt Hst].
  split.
  - exact (Hdt (Some ValidationExamples.one_station) undated_utilization
             one_hour eq_refl eq_refl eq_refl).
  - exact (proj2 (Hst numbered_status [PStr "Available"; PInt 3]
                    (Some (ValidationExamples.utilization_of ["S1"] 0 0)) None
                    eq_refl eq_refl eq_refl eq_refl eq_refl)).
Defined.

Lemma failed_validation_reports_issue_witness :
  validate_etl_pipeline ValidationExamples.one_decimal None None None
  = Some (false,
          ["Stations data issue: Stations data is empty or None";
           "Utilization data issue: Utilization data is empty or None"])
  /\ forallb origin_tagged
       ["Stations data issue: Stations data is empty or None";
        "Utilization data issue: Utilization data is empty or None"] = true.
Proof.
  split; [reflexivity|].
  exact (proj1 (failed_validation_reports_issue ValidationExamples.one_decimal
                  None None None false _ eq_refl)).
Defined.

End ValidationProperties.

(** ** From the endpoint to the frames *)

Module PipelineProperties.
Import Py Extract.

(** X22: what the extractor returns for a well-formed response, the
    transformer accepts.  When attempt [k] brings a body whose stations are
    dicts with well-formed groupings, the call returns one station for
    each of them; on these [transform_stations_data] returns a frame of
    at most one row per station, the loop of
    [transform_utilization_data] collects its records, and that
    transformation returns them unless one of them has a status that
    cannot be hashed. *)
Theorem extracted_stations_transform (lib : bool) (sleeps : Z -> bool)
  (net : network) (max_retries retry_delay k : Z) (data l : pyval)
  (stations : list pyval) (timestamp : Transform.datetime) :
  (0 <= k <= max_retries)%Z ->
  (forall a, (0 <= a < k)%Z -> is_request_exception lib (net a) = true) ->
  ((0 < k)%Z -> sleeps retry_delay = true) ->
  net k = Body data ->
  stations_list data = Some l ->
  py_iter l = Some stations ->
  forallb ConnectorFacts.well_formed_station stations = true ->
  exists processed rows records,
    fst (extract_charging_stations lib sleeps net max_retries retry_delay)
    = Returned (Some processed)
    /\ List.length processed = List.length stations
    /\ Transform.transform_stations_data processed = Some rows
    /\ List.length rows <= List.length stations
    /\ Transform.utilization_records processed timestamp = Some records
    /\ Transform.transform_utilization_data processed timestamp
       = if forallb (fun r => hashable (Transform.Utilization.status r))
              records
         then Some records else None.
Proof.
  intros Hk Hfail Hsl Hbody Hl Hit Hwf.
  rewrite (ConnectorFacts.extract_body _ _ _ _ _ _ _ Hk Hfail Hsl Hbody).
  cbn [fst]. unfold process. rewrite Hl, Hit. cbn [fst].
  destruct (ConnectorFacts.process_loop_well_formed stations [] Hwf)
    as (processed & Eps & Hpd).
  cbn [app] in Eps. rewrite Eps.
  destruct (ConnectorFacts.process_loop _ _ _ Eps) as (ps & Hps & Hall).
  cbn [app] in Hps; subst ps.
  pose proof (Forall2_length Hall) as Hlen.
  pose proof (StationCounts.stations_loop processed []) as Hs.
  pose proof (StationCounts.utilization_loop timestamp processed []) as Hu.
  destruct (for_each Transform.stations_body processed []) as [rows|] eqn:Er;
    [|congruence].
  destruct (for_each (Transform.utilization_body timestamp) processed [])
    as [records|] eqn:Eu; [|congruence].
  exists processed, (map Transform.fill_status rows), records.
  unfold Transform.transform_stations_data,
    Transform.transform_utilization_data, Transform.utilization_records.
  rewrite Er, Eu.
  split; [reflexivity|]. split; [now symmetry|]. split; [reflexivity|].
  split; [|split; reflexivity].
  rewrite length_map. cbn [List.length] in Hs. lia.
Qed.

Lemma extracted_stations_transform_witness :
  exists processed rows records,
    fst (extract_charging_stations true ExtractFacts.sleeps_when_non_negative
           ConnectorFacts.second_try 3 5)
    = Returned (Some processed)
    /\ Transform.transform_stations_data processed = Some rows
    /\ Transform.transform_utilization_data processed UtilizationFacts.noon
       = Some records
    /\ List.length rows <= 1
    /\ List.length records = 2.
Proof.
  assert (Hk : (0 <= 1 <= 3)%Z) by lia.
  assert (Hfail : forall a, (0 <= a < 1)%Z ->
                    is_request_exception true (ConnectorFacts.second_try a)
                    = true).
  { intros a Ha. unfold ConnectorFacts.second_try.
    destruct (a <? 1)%Z eqn:E; [reflexivity|].
    apply Z.ltb_ge in E. lia. }
  destruct (extracted_stations_transform true
              ExtractFacts.sleeps_when_non_negative ConnectorFacts.second_try
              3 5 1 _ _ _ UtilizationFacts.noon Hk Hfail (fun _ => eq_refl)
              eq_refl eq_refl eq_refl eq_refl)
    as (processed & rows & records & Hres & Hlen & Hrows & Hle & Hrec & Hut).
  exists processed, rows, records.
  split; [exact Hres|]. split; [exact Hrows|].
  assert (Hp : processed
               = [PDict (dict_set "connectors"
                           (PList (ConnectorFacts.flattened
                                     [("CCS", PList [PDict [("id", PStr "C1")]]);
                                      ("Type2",
                                       PList [PDict [("id", PStr "C2");
                                                     ("type", PStr "x")]])]))
                           (dict_set "connectionTypes"
                              (Grouping.stamped
                                 (PDict
                                    [("CCS", PList [PDict [("id", PStr "C1")]]);
                                     ("Type2",
                                      PList [PDict [("id", PStr "C2");
                                                    ("type", PStr "x")]])]))
                              (ConnectorFacts.renamed
                                 ConnectorFacts.both_station)))]).
  { vm_compute in Hres. inversion Hres. reflexivity. }
  subst processed. vm_compute in Hrec. inversion Hrec; subst records.
  split; [exact Hut|]. split; [exact Hle | reflexivity].
Defined.

End PipelineProperties.
